(** * wheel2conda: a shallow embedding of [wheel2conda.py]

    The development follows the source file from top to bottom: the Python
    [str] and [posixpath] operations the program calls, the containers it
    reads and writes (the unpacked wheel as a directory tree, the output
    tar file as a list of members), then [WheelContents], [PackageBuilder]
    and [main].  What the program takes from its host (text decoding, the
    csv and ini readers, SHA-256, the launcher stubs) is the class [Host];
    [ref_host] is one host, for running the program on concrete wheels.
    Strings are sequences of code points below 256.  The properties
    follow the definitions. *)

From Stdlib Require Import String Ascii List ZArith Lia Bool.
From Stdlib Require Import DecimalString Sorted.
From stdpp Require Import base gmap strings list.

Set Warnings "-register-all".

Local Open Scope string_scope.
Local Open Scope list_scope.

(** ** Python [str] methods *)

Module Str.

(** [s.startswith(p)] *)
Definition startswith (s p : string) : bool := String.prefix p s.

(** [s.startswith((p1, p2, ...))] *)
Definition startswith_any (s : string) (ps : list string) : bool :=
  existsb (startswith s) ps.

(** [s.endswith(suf)]: some tail of [s] is [suf]. *)
Fixpoint endswith (s suf : string) : bool :=
  if String.eqb s suf then true
  else match s with
       | EmptyString => false
       | String _ s' => endswith s' suf
       end.

(** [s.count(c)] for a one-character [c] *)
Fixpoint count (s : string) (c : ascii) : nat :=
  match s with
  | EmptyString => 0
  | String a s' => (if Ascii.eqb a c then 1 else 0) + count s' c
  end.

(** [s.split(sep)] for a one-character [sep]; never the empty list *)
Fixpoint split (s : string) (sep : ascii) : list string :=
  match s with
  | EmptyString => [EmptyString]
  | String a s' =>
      if Ascii.eqb a sep then EmptyString :: split s' sep
      else match split s' sep with
           | h :: t => String a h :: t
           | [] => [String a EmptyString]
           end
  end.

(** [s.split(sep, 1)]: cut at the first [sep], if there is one *)
Fixpoint split1 (s : string) (sep : ascii) : list string :=
  match s with
  | EmptyString => [EmptyString]
  | String a s' =>
      if Ascii.eqb a sep then [EmptyString; s']
      else match split1 s' sep with
           | h :: t => String a h :: t
           | [] => [String a EmptyString]
           end
  end.

(** [sep.join(l)] *)
Definition join (sep : string) (l : list string) : string :=
  String.concat sep l.

(** [s.replace(old, new)] for a one-character [old] *)
Fixpoint replace (s : string) (old : ascii) (new : string) : string :=
  match s with
  | EmptyString => EmptyString
  | String a s' =>
      if Ascii.eqb a old then new +:+ replace s' old new
      else String a (replace s' old new)
  end.

(** The upper-case letters below 256 are [A-Z] and the accented capitals
    192 to 222, the multiplication sign apart. *)
Definition lower_char (a : ascii) : ascii :=
  let n := nat_of_ascii a in
  if ((65 <=? n)%nat && (n <=? 90)%nat)
     || ((192 <=? n)%nat && (n <=? 222)%nat && negb (n =? 215)%nat)
  then ascii_of_nat (n + 32) else a.

(** [s.lower()] *)
Fixpoint lower (s : string) : string :=
  match s with
  | EmptyString => EmptyString
  | String a s' => String (lower_char a) (lower s')
  end.

(** The characters [str.strip()] removes: tab to carriage return, the
    four separators 0x1c..0x1f, space, and of the code points from 128
    to 255 the next-line and no-break-space characters. *)
Definition isspace (a : ascii) : bool :=
  let n := nat_of_ascii a in
  ((9 <=? n)%nat && (n <=? 13)%nat) || ((28 <=? n)%nat && (n <=? 32)%nat)
  || (n =? 133)%nat || (n =? 160)%nat.

Fixpoint lstrip_by (p : ascii -> bool) (s : string) : string :=
  match s with
  | EmptyString => EmptyString
  | String a s' => if p a then lstrip_by p s' else s
  end.

Fixpoint rstrip_by (p : ascii -> bool) (s : string) : string :=
  match s with
  | EmptyString => EmptyString
  | String a s' =>
      match rstrip_by p s' with
      | EmptyString => if p a then EmptyString else String a EmptyString
      | r => String a r
      end
  end.

(** [s.strip()] *)
Definition strip (s : string) : string := lstrip_by isspace (rstrip_by isspace s).

(** [s.rstrip(c)] and [s.lstrip(c)] for a one-character [c] *)
Definition rstrip (s : string) (c : ascii) : string := rstrip_by (Ascii.eqb c) s.
Definition lstrip (s : string) (c : ascii) : string := lstrip_by (Ascii.eqb c) s.

(** [str(n)] for a non-negative integer *)
Definition of_nat (n : nat) : string := NilZero.string_of_uint (Nat.to_uint n).

End Str.

(** ** [posixpath] *)

Module posixpath.

Definition join_step (path b : string) : string :=
  if Str.startswith b "/" then b
  else if String.eqb path "" || Str.endswith path "/" then path +:+ b
  else path +:+ "/" +:+ b.

(** [posixpath.join(a, *p)] *)
Definition join (a : string) (p : list string) : string :=
  fold_left join_step p a.

Definition initial_slashes (path : string) : nat :=
  if Str.startswith path "/"
  then if Str.startswith path "//" && negb (Str.startswith path "///")
       then 2 else 1
  else 0.

(** The loop of [normpath] over the components, [new_comps] kept in
    reverse (its last element first). *)
Fixpoint norm_comps (slashes : nat) (comps new_comps : list string)
  : list string :=
  match comps with
  | [] => rev new_comps
  | comp :: comps' =>
      if String.eqb comp "" || String.eqb comp "." then
        norm_comps slashes comps' new_comps
      else if negb (String.eqb comp "..")
              || (Nat.eqb slashes 0 && match new_comps with [] => true | _ => false end)
              || match new_comps with l :: _ => String.eqb l ".." | [] => false end
      then norm_comps slashes comps' (comp :: new_comps)
      else norm_comps slashes comps' (tl new_comps)
  end.

(** [posixpath.normpath(path)] *)
Definition normpath (path : string) : string :=
  if String.eqb path "" then "."
  else
    let n := initial_slashes path in
    let comps := norm_comps n (Str.split path "/") [] in
    let path' := Str.join "/" comps in
    let path' := Str.join "" (repeat "/" n) +:+ path' in
    if String.eqb path' "" then "." else path'.

End posixpath.

(** ** Encodings: [str.encode('utf-8')], [repr], [base64.urlsafe_b64encode] *)

(** Byte strings are [string] too: one character per byte. *)
Abbreviation bytes := string.

Definition utf8_encode_char (a : ascii) : string :=
  let n := nat_of_ascii a in
  if (n <? 128)%nat then String a ""
  else String (ascii_of_nat (192 + n / 64))
         (String (ascii_of_nat (128 + n mod 64)) "").

(** [s.encode('utf-8')] *)
Fixpoint utf8_encode (s : string) : bytes :=
  match s with
  | EmptyString => EmptyString
  | String a s' => utf8_encode_char a +:+ utf8_encode s'
  end.

Definition hex_digit (n : nat) : ascii :=
  if (n <? 10)%nat then ascii_of_nat (48 + n) else ascii_of_nat (87 + n).

Definition hex2 (a : ascii) : string :=
  let n := nat_of_ascii a in
  String (hex_digit (n / 16)) (String (hex_digit (n mod 16)) "").

Fixpoint mem_char (c : ascii) (s : string) : bool :=
  match s with
  | EmptyString => false
  | String a s' => Ascii.eqb a c || mem_char c s'
  end.

(** Printable code points below 256, as [str.isprintable] has them. *)
Definition isprintable (a : ascii) : bool :=
  let n := nat_of_ascii a in
  ((32 <=? n)%nat && (n <? 127)%nat)
  || ((161 <=? n)%nat && negb (n =? 173)%nat).

Definition repr_char (quote a : ascii) : string :=
  if Ascii.eqb a quote || Ascii.eqb a "\"%char then String "\"%char (String a "")
  else if Ascii.eqb a "009"%char then "\t"
  else if Ascii.eqb a "010"%char then "\n"
  else if Ascii.eqb a "013"%char then "\r"
  else if isprintable a then String a ""
  else "\x" +:+ hex2 a.

Fixpoint repr_body (quote : ascii) (s : string) : string :=
  match s with
  | EmptyString => EmptyString
  | String a s' => repr_char quote a +:+ repr_body quote s'
  end.

(** [repr(s)], what [%r] formats *)
Definition repr (s : string) : string :=
  let dq := ascii_of_nat 34 in
  let quote := if mem_char "'"%char s && negb (mem_char dq s)
               then dq else "'"%char in
  String quote (repr_body quote s) +:+ String quote "".

Module base64.

(** The URL-safe alphabet: [A-Z a-z 0-9 - _]. *)
Definition alphabet (n : nat) : ascii :=
  if (n <? 26)%nat then ascii_of_nat (65 + n)
  else if (n <? 52)%nat then ascii_of_nat (97 + (n - 26))
  else if (n <? 62)%nat then ascii_of_nat (48 + (n - 52))
  else if (n =? 62)%nat then "-"%char else "_"%char.

Fixpoint encode_go (fuel : nat) (s : bytes) : string :=
  match fuel with
  | O => EmptyString
  | S fuel' =>
      match s with
      | EmptyString => EmptyString
      | String a EmptyString =>
          let x := nat_of_ascii a in
          String (alphabet (x / 4)) (String (alphabet (x mod 4 * 16)) "==")
      | String a (String b EmptyString) =>
          let x := nat_of_ascii a in
          let y := nat_of_ascii b in
          String (alphabet (x / 4))
            (String (alphabet (x mod 4 * 16 + y / 16))
               (String (alphabet (y mod 16 * 4)) "="))
      | String a (String b (String c s')) =>
          let x := nat_of_ascii a in
          let y := nat_of_ascii b in
          let z := nat_of_ascii c in
          String (alphabet (x / 4))
            (String (alphabet (x mod 4 * 16 + y / 16))
               (String (alphabet (y mod 16 * 4 + z / 64))
                  (String (alphabet (z mod 64)) (encode_go fuel' s'))))
      end
  end.

(** [base64.urlsafe_b64encode(s).decode('ascii')] *)
Definition urlsafe_b64encode (s : bytes) : string :=
  encode_go (S (String.length s)) s.

End base64.

(** ** [json.dumps(obj, indent=2, sort_keys=True)] *)

Inductive json :=
| JStr (s : string)
| JInt (n : nat)
| JList (l : list json)
| JDict (items : list (string * json)).

Module Json.

(** The escape of one character inside a JSON string ([ensure_ascii]):
    everything outside [' '..'~'] is escaped, and so are the quote and
    the backslash. *)
Definition escape_char (a : ascii) : string :=
  let n := nat_of_ascii a in
  if (n =? 34)%nat then String "\"%char (String a "")
  else if (n =? 92)%nat then "\\"
  else if (n =? 10)%nat then "\n"
  else if (n =? 13)%nat then "\r"
  else if (n =? 9)%nat then "\t"
  else if (n =? 12)%nat then "\f"
  else if (n =? 8)%nat then "\b"
  else if (32 <=? n)%nat && (n <=? 126)%nat then String a ""
  else "\u00" +:+ hex2 a.

Fixpoint escape (s : string) : string :=
  match s with
  | EmptyString => EmptyString
  | String a s' => escape_char a +:+ escape s'
  end.

Definition dq : string := String (ascii_of_nat 34) "".

Definition encode_str (s : string) : string := dq +:+ escape s +:+ dq.

Definition newline_indent (level : nat) : string :=
  String (ascii_of_nat 10) (Str.join "" (repeat "  " level)).

(** [sorted(dct.items())]: insertion by key, stable. *)
Fixpoint insert_item {A} (kv : string * A) (l : list (string * A))
  : list (string * A) :=
  match l with
  | [] => [kv]
  | kv' :: l' =>
      if String.leb (fst kv) (fst kv') then kv :: l
      else kv' :: insert_item kv l'
  end.

Definition sort_items {A} (l : list (string * A)) : list (string * A) :=
  fold_right insert_item [] l.

(** The text of a value at nesting depth [level]. *)
Fixpoint dumps_at (level : nat) (v : json) : string :=
  match v with
  | JStr s => encode_str s
  | JInt n => Str.of_nat n
  | JList [] => "[]"
  | JList l =>
      "[" +:+ newline_indent (S level)
      +:+ Str.join ("," +:+ newline_indent (S level))
            (map (dumps_at (S level)) l)
      +:+ newline_indent level +:+ "]"
  | JDict [] => "{}"
  | JDict items =>
      "{" +:+ newline_indent (S level)
      +:+ Str.join ("," +:+ newline_indent (S level))
            (map (fun kv => encode_str (fst kv) +:+ ": " +:+ snd kv)
               (sort_items
                  ((fix go (l : list (string * json)) : list (string * string) :=
                      match l with
                      | [] => []
                      | (k, x) :: l' => (k, dumps_at (S level) x) :: go l'
                      end) items)))
      +:+ newline_indent level +:+ "}"
  end.

Definition dumps (v : json) : string := dumps_at 0 v.

(** [obj[key]] *)
Fixpoint lookup_item {A} (key : string) (items : list (string * A)) : option A :=
  match items with
  | [] => None
  | (k, x) :: l => if String.eqb k key then Some x else lookup_item key l
  end.

Definition get (v : json) (key : string) : option json :=
  match v with
  | JDict items => lookup_item key items
  | _ => None
  end.

End Json.

(** ** Module-level constants of [wheel2conda.py] *)

Inductive Platform := linux | osx | win.

Module Platform_.
(** [platform.name] *)
Definition name (p : Platform) : string :=
  match p with linux => "linux" | osx => "osx" | win => "win" end.

Definition eqb (p q : Platform) : bool :=
  match p, q with
  | linux, linux | osx, osx | win, win => true
  | _, _ => false
  end.
End Platform_.

Definition LF : string := String (ascii_of_nat 10) "".

(** [script_template.format(interpreter=.., module=.., func=..)] *)
Definition script_template (interpreter module func : string) : string :=
  "#!" +:+ interpreter +:+ LF
  +:+ "from " +:+ module +:+ " import " +:+ func +:+ LF
  +:+ "if __name__ == '__main__':" +:+ LF
  +:+ "    " +:+ func +:+ "()" +:+ LF.

Definition PREFIX : string := "/opt/anaconda1anaconda2anaconda3".

Definition PYTHON_VERSIONS : list string := ["3.5"; "3.4"; "2.7"].

Definition PLATFORM_PAIRS : list (Platform * string) :=
  [(linux, "64"); (linux, "32"); (osx, "64"); (win, "64"); (win, "32")].

(** ** Exceptions *)

Inductive exn :=
| BadWheelError (msg : string)
| ValueError (msg : string)
| NotImplementedError (msg : string)
| KeyError (key : string)
| IndexError
| OSError (filename : string)
| ConfigParserError
| InterpolationSyntaxError
| InterpolationMissingOptionError (reference : string)
| InterpolationDepthError.

(** Results of code that may raise. *)
Abbreviation result A := (exn + A)%type.

Definition bind_result {A B} (r : result A) (k : A -> result B) : result B :=
  match r with
  | inl e => inl e
  | inr a => k a
  end.

Notation "'try!' x <- r ; k" := (bind_result r (fun x => k))
  (at level 10, x pattern, r at level 100, k at level 200).

(** ** The unpacked wheel: a directory tree *)

(** A directory lists its entries in the order the host's directory scan
    returns them. *)
Inductive node :=
| File (contents : bytes)
| Dir (entries : list (string * node)).

(** A [Path] below the unpacked root: an entry's name and what is there. *)
Abbreviation entry := (string * node)%type.

Module Path.

Definition name (x : entry) : string := fst x.

Definition is_dir (x : entry) : bool :=
  match snd x with Dir _ => true | File _ => false end.

Definition is_file (x : entry) : bool :=
  match snd x with File _ => true | Dir _ => false end.

(** [x.iterdir()] *)
Definition iterdir (x : entry) : result (list entry) :=
  match snd x with
  | Dir es => inr es
  | File _ => inl (OSError (name x))
  end.

Fixpoint lookup (n : string) (es : list entry) : option node :=
  match es with
  | [] => None
  | (m, c) :: es' => if String.eqb m n then Some c else lookup n es'
  end.

(** [(x / n).is_file()] *)
Definition child_is_file (x : entry) (n : string) : bool :=
  match snd x with
  | Dir es => match lookup n es with Some (File _) => true | _ => false end
  | File _ => false
  end.

(** The bytes [(x / n).open()] reads. *)
Definition open_child (x : entry) (n : string) : result bytes :=
  match snd x with
  | Dir es =>
      match lookup n es with
      | Some (File c) => inr c
      | _ => inl (OSError (name x +:+ "/" +:+ n))
      end
  | File _ => inl (OSError (name x +:+ "/" +:+ n))
  end.

End Path.

(** [os.walk(d)], top down, with [os.path.relpath(dirpath, start=d)] in
    place of [dirpath]: one pair (relative directory, its file names) per
    directory. *)
Definition filenames (es : list entry) : list string :=
  map fst (List.filter Path.is_file es).

Definition rel_child (rel name : string) : string :=
  if String.eqb rel "." then name else rel +:+ "/" +:+ name.

Fixpoint os_walk (rel : string) (n : node) : list (string * list string) :=
  match n with
  | File _ => []
  | Dir es =>
      (rel, filenames es)
      :: (fix subdirs (l : list entry) : list (string * list string) :=
            match l with
            | [] => []
            | (name, c) :: l' => os_walk (rel_child rel name) c ++ subdirs l'
            end) es
  end.

(** ** [sorted] *)

(** [sorted(l)] for a list of strings: ascending by code points, equal
    strings in the order they had. *)
Fixpoint insort (s : string) (l : list string) : list string :=
  match l with
  | [] => [s]
  | x :: l' => if String.leb s x then s :: l else x :: insort s l'
  end.

Definition sorted (l : list string) : list string := fold_right insort [] l.

(** ** The output tar file *)

Inductive tartype := REGTYPE | DIRTYPE.

Record TarInfo := {
  ti_name : string;
  ti_type : tartype;
  ti_size : nat;
}.

Abbreviation member := (TarInfo * bytes)%type.

(** [end_of_archive] is set by [TarFile.close], which the [with] statement
    calls only when its body ends without an exception. *)
Record TarFile := {
  members : list member;
  end_of_archive : bool;
}.

Module tarfile.

(** [tarfile.open(fileobj=.., mode='w:bz2')] *)
Definition open : TarFile := {| members := []; end_of_archive := false |}.

(** [tarfile.TarInfo(name)] *)
Definition new_TarInfo (name : string) : TarInfo :=
  {| ti_name := name; ti_type := REGTYPE; ti_size := 0 |}.

Definition set_size (ti : TarInfo) (n : nat) : TarInfo :=
  {| ti_name := ti_name ti; ti_type := ti_type ti; ti_size := n |}.

(** [tf.addfile(ti, BytesIO(contents))] *)
Definition addfile (tf : TarFile) (ti : TarInfo) (contents : bytes) : TarFile :=
  {| members := members tf ++ [(ti, contents)];
     end_of_archive := end_of_archive tf |}.

(** [tf.gettarinfo(name, arcname)] for what is at [src] *)
Definition gettarinfo (src : node) (arcname : string) : TarInfo :=
  match src with
  | File c => {| ti_name := Str.lstrip arcname "/"; ti_type := REGTYPE;
                 ti_size := String.length c |}
  | Dir _ => {| ti_name := Str.lstrip arcname "/"; ti_type := DIRTYPE;
                ti_size := 0 |}
  end.

(** The members [tf.add(str(src), arcname=arcname, filter=filter)] appends:
    the entry itself unless the filter drops it, then recursively what a
    directory holds: [for f in sorted(os.listdir(name))] (sorted since
    Python 3.7), each name added by its path, which is what the
    directory has under that name. *)
Fixpoint add_members (filter : TarInfo -> option TarInfo)
    (src : node) (arcname : string) : list member :=
  match filter (gettarinfo src arcname) with
  | None => []
  | Some ti =>
      match src with
      | File c => [(ti, c)]
      | Dir es =>
          (ti, EmptyString)
          :: flat_map
               (fun f =>
                  (fix named (l : list entry) : list member :=
                     match l with
                     | [] => []
                     | (g, c) :: l' =>
                         if String.eqb g f
                         then add_members filter c (posixpath.join arcname [f])
                         else named l'
                     end) es)
               (sorted (map fst es))
      end
  end.

Definition add (tf : TarFile) (filter : TarInfo -> option TarInfo)
    (src : node) (arcname : string) : TarFile :=
  {| members := members tf ++ add_members filter src arcname;
     end_of_archive := end_of_archive tf |}.

(** [tf.close()] *)
Definition close (tf : TarFile) : TarFile :=
  {| members := members tf; end_of_archive := true |}.

(** The names of the regular-file members. *)
Definition file_names (tf : TarFile) : list string :=
  map (fun m => ti_name (fst m))
    (List.filter (fun m => match ti_type (fst m) with REGTYPE => true | DIRTYPE => false end)
       (members tf)).

(** The contents of the last member called [name]. *)
Definition extract (tf : TarFile) (name : string) : option bytes :=
  match List.filter (fun m => String.eqb (ti_name (fst m)) name) (rev (members tf)) with
  | m :: _ => Some (snd m)
  | [] => None
  end.

End tarfile.

(** ** What the program takes from its host and its libraries *)

Class Host := {
  (** the text [open()] decodes a file's bytes to *)
  open_text : bytes -> string;
  (** the rows [csv.reader] finds in a text *)
  csv_reader : string -> list (list string);
  (** the text [csv.writer(..).writerow(row)] writes *)
  csv_writerow : list string -> string;
  (** the sections of an INI text in file order, each with its option
      lines (name as written, value); [None] when the text does not parse *)
  ini_sections : string -> option (list (string * list (string * string)));
  (** [hashlib.sha256(b).digest()] *)
  sha256_digest : bytes -> bytes;
  (** the bytes of the file [win_cli_launchers.find_exe(arch)] names *)
  find_exe : string -> bytes;
}.

(** ** [CaseSensitiveContextParser] *)

Module configparser.
(** [ConfigParser.optionxform]: the hook the parser passes every option
    name through; the base class lower-cases. *)
Definition optionxform (optionstr : string) : string := Str.lower optionstr.

(** [ConfigParser.default_section] *)
Definition default_section : string := "DEFAULT".

(** *** [BasicInterpolation], the interpolation of [ConfigParser] *)

Definition MAX_INTERPOLATION_DEPTH : nat := 10.

(** The match of [_KEYCRE], [%\(([^)]+)\)s], on a text that starts with
    [%(]: from the text after [%(], the name up to the first [)] and
    what follows the [s] after it.  The name comes out empty when the
    text starts with [)]: no match. *)
Fixpoint key_ref (s : string) : option (string * string) :=
  match s with
  | EmptyString => None
  | String a s' =>
      if Ascii.eqb a ")"%char then
        match s' with
        | String b r => if Ascii.eqb b "s"%char then Some (EmptyString, r) else None
        | EmptyString => None
        end
      else match key_ref s' with
           | Some (k, r) => Some (String a k, r)
           | None => None
           end
  end.

(** [_interpolate_some]: [levels] is how many levels of depth are left,
    [map] the options a reference is looked up in.  The loop over [rest]
    takes at least one character a turn. *)
Fixpoint interpolate_some (optionxform : string -> string)
    (map : string -> option string) (levels : nat) (rest : string)
  : result string :=
  match levels with
  | O => inl InterpolationDepthError
  | S levels' =>
      (fix loop (turns : nat) (rest : string) {struct turns} : result string :=
         match turns, rest with
         | _, EmptyString => inr EmptyString
         | O, _ => inr EmptyString
         | S turns', String a rest1 =>
             if negb (Ascii.eqb a "%"%char) then
               try! out <- loop turns' rest1;
               inr (String a out)
             else
               match rest1 with
               | EmptyString => inl InterpolationSyntaxError
               | String c rest2 =>
                   if Ascii.eqb c "%"%char then
                     try! out <- loop turns' rest2;
                     inr (String "%"%char out)
                   else if Ascii.eqb c "("%char then
                     match key_ref rest2 with
                     | Some (String k0 k, rest3) =>
                         let var := optionxform (String k0 k) in
                         match map var with
                         | None => inl (InterpolationMissingOptionError var)
                         | Some v =>
                             try! v' <-
                               (if mem_char "%"%char v
                                then interpolate_some optionxform map levels' v
                                else inr v);
                             try! out <- loop turns' rest3;
                             inr (v' +:+ out)
                         end
                     | _ => inl InterpolationSyntaxError
                     end
                   else inl InterpolationSyntaxError
               end
         end) (String.length rest) rest
  end.

(** [BasicInterpolation.before_get] *)
Definition before_get (optionxform : string -> string)
    (map : string -> option string) (value : string) : result string :=
  interpolate_some optionxform map MAX_INTERPOLATION_DEPTH value.

End configparser.

Module CaseSensitiveContextParser.

(** The one attribute the class body sets. *)
Definition optionxfrom (s : string) : string := s.

(** Inherited from [configparser.ConfigParser]: the class body does not
    set it. *)
Definition optionxform : string -> string := configparser.optionxform.

(** The options of one section as the parser stores them: names passed
    through [optionxform], a repeated name refused. *)
Fixpoint store_options (lines : list (string * string))
    (stored : list (string * string)) : result (list (string * string)) :=
  match lines with
  | [] => inr stored
  | (optname, value) :: lines' =>
      let optname := optionxform optname in
      if existsb (fun kv => String.eqb (fst kv) optname) stored
      then inl ConfigParserError
      else store_options lines' (stored ++ [(optname, value)])
  end.

(** What the parser holds: its sections in the order they were met,
    each with its options; the defaults are the options kept under
    [default_section]. *)
Definition options_of (cp : list (string * list (string * string)))
    (sectname : string) : list (string * string) :=
  match Json.lookup_item sectname cp with
  | Some opts => opts
  | None => []
  end.

Definition defaults (cp : list (string * list (string * string)))
  : list (string * string) :=
  options_of cp configparser.default_section.

Definition has_section (cp : list (string * list (string * string)))
    (section : string) : bool :=
  negb (String.eqb section configparser.default_section)
  && existsb (fun sec => String.eqb (fst sec) section) cp.

Fixpoint set_section (sectname : string) (opts : list (string * string))
    (cp : list (string * list (string * string)))
  : list (string * list (string * string)) :=
  match cp with
  | [] => [(sectname, opts)]
  | (s, o) :: cp' =>
      if String.eqb s sectname then (s, opts) :: cp'
      else (s, o) :: set_section sectname opts cp'
  end.

(** The sections of one file, in strict mode: a section met twice is
    refused, a [DEFAULT] header continues the defaults. *)
Fixpoint store_sections (secs : list (string * list (string * string)))
    (cp : list (string * list (string * string)))
  : result (list (string * list (string * string))) :=
  match secs with
  | [] => inr cp
  | (sectname, lines) :: secs' =>
      if String.eqb sectname configparser.default_section then
        try! opts <- store_options lines (defaults cp);
        store_sections secs' (set_section configparser.default_section opts cp)
      else if has_section cp sectname then inl ConfigParserError
      else
        try! opts <- store_options lines [];
        store_sections secs' (cp ++ [(sectname, opts)])
  end.

(** [cp[section]]: the proxy of a section, here its name *)
Definition getitem (cp : list (string * list (string * string))) (section : string)
  : result string :=
  if negb (String.eqb section configparser.default_section)
     && negb (has_section cp section)
  then inl (KeyError section)
  else inr section.

(** [cp.options(section)]: the section's own option names, then those of
    the defaults it does not have. *)
Definition options (cp : list (string * list (string * string))) (section : string)
  : list string :=
  let own := map fst (options_of cp section) in
  own ++ List.filter (fun k => negb (existsb (String.eqb k) own))
           (map fst (defaults cp)).

(** The options a value of [section] is read from: the section's, then
    the defaults. *)
Definition lookup_option (cp : list (string * list (string * string)))
    (section optname : string) : option string :=
  match Json.lookup_item optname (options_of cp section) with
  | Some value => Some value
  | None => Json.lookup_item optname (defaults cp)
  end.

(** [cp[section][optname]], which is [cp.get(section, optname)]: the
    value interpolated. *)
Definition get (cp : list (string * list (string * string)))
    (section optname : string) : result string :=
  let optname := optionxform optname in
  match lookup_option cp section optname with
  | None => inl (KeyError optname)
  | Some value =>
      configparser.before_get optionxform (lookup_option cp section) value
  end.

(** [list(cp[section].items())]: every option with its value. *)
Definition items (cp : list (string * list (string * string))) (section : string)
  : result (list (string * string)) :=
  try! proxy <- getitem cp section;
  (fix all (keys : list string) : result (list (string * string)) :=
     match keys with
     | [] => inr []
     | k :: keys' =>
         try! v <- get cp proxy k;
         try! rest <- all keys';
         inr ((k, v) :: rest)
     end) (options cp proxy).

End CaseSensitiveContextParser.

(** ** A reference host

    SHA-256 as FIPS 180-4 defines it, and plain readers for the text
    formats, for running the program on concrete wheels. *)

Module SHA256.

Local Open Scope N_scope.

Definition K : list N :=
  [1116352408; 1899447441; 3049323471; 3921009573; 961987163; 1508970993;
   2453635748; 2870763221; 3624381080; 310598401; 607225278; 1426881987;
   1925078388; 2162078206; 2614888103; 3248222580; 3835390401; 4022224774;
   264347078; 604807628; 770255983; 1249150122; 1555081692; 1996064986;
   2554220882; 2821834349; 2952996808; 3210313671; 3336571891; 3584528711;
   113926993; 338241895; 666307205; 773529912; 1294757372; 1396182291;
   1695183700; 1986661051; 2177026350; 2456956037; 2730485921; 2820302411;
   3259730800; 3345764771; 3516065817; 3600352804; 4094571909; 275423344;
   430227734; 506948616; 659060556; 883997877; 958139571; 1322822218;
   1537002063; 1747873779; 1955562222; 2024104815; 2227730452; 2361852424;
   2428436474; 2756734187; 3204031479; 3329325298].

Definition H0 : list N :=
  [1779033703; 3144134277; 1013904242; 2773480762; 1359893119; 2600822924;
   528734635; 1541459225].

Definition w32 (x : N) : N := x mod 4294967296.
Definition add32 (x y : N) : N := w32 (x + y).
Definition rotr (n x : N) : N :=
  w32 (N.lor (N.shiftr x n) (N.shiftl x (32 - n))).
Definition not32 (x : N) : N := 4294967295 - x.

Definition Ch (x y z : N) : N := N.lxor (N.land x y) (N.land (not32 x) z).
Definition Maj (x y z : N) : N :=
  N.lxor (N.lxor (N.land x y) (N.land x z)) (N.land y z).
Definition Sigma0 (x : N) : N := N.lxor (N.lxor (rotr 2 x) (rotr 13 x)) (rotr 22 x).
Definition Sigma1 (x : N) : N := N.lxor (N.lxor (rotr 6 x) (rotr 11 x)) (rotr 25 x).
Definition sigma0 (x : N) : N := N.lxor (N.lxor (rotr 7 x) (rotr 18 x)) (N.shiftr x 3).
Definition sigma1 (x : N) : N := N.lxor (N.lxor (rotr 17 x) (rotr 19 x)) (N.shiftr x 10).

(** The message, padded: a one bit, zeros up to 56 modulo 64, the bit
    length on eight bytes. *)
Definition be_bytes (width : nat) (x : N) : list N :=
  map (fun i => (N.shiftr x (8 * N.of_nat i)) mod 256) (rev (seq 0 width)).

Definition pad (msg : list N) : list N :=
  let len := length msg in
  let zeros := ((119 - len mod 64) mod 64)%nat in
  msg ++ [128] ++ repeat 0 zeros ++ be_bytes 8 (8 * N.of_nat len).

Fixpoint words (fuel : nat) (l : list N) : list N :=
  match fuel, l with
  | S fuel', a :: b :: c :: d :: l' =>
      (((a * 256 + b) * 256 + c) * 256 + d) :: words fuel' l'
  | _, _ => []
  end.

(** The message schedule, most recent word first. *)
Fixpoint schedule (n : nat) (w : list N) : list N :=
  match n with
  | O => w
  | S n' =>
      let x := add32 (add32 (sigma1 (nth 1 w 0)) (nth 6 w 0))
                 (add32 (sigma0 (nth 14 w 0)) (nth 15 w 0)) in
      schedule n' (x :: w)
  end.

Definition round (st : list N) (kw : N * N) : list N :=
  match st with
  | [a; b; c; d; e; f; g; h] =>
      let t1 := add32 (add32 (add32 h (Sigma1 e)) (add32 (Ch e f g) (fst kw))) (snd kw) in
      let t2 := add32 (Sigma0 a) (Maj a b c) in
      [add32 t1 t2; a; b; c; add32 d t1; e; f; g]
  | _ => st
  end.

Definition compress (h : list N) (block : list N) : list N :=
  let w := rev (schedule 48 (rev block)) in
  let st := fold_left round (combine K w) h in
  map (fun p => add32 (fst p) (snd p)) (combine h st).

Fixpoint blocks (fuel : nat) (ws : list N) (h : list N) : list N :=
  match fuel with
  | O => h
  | S fuel' =>
      match ws with
      | [] => h
      | _ => blocks fuel' (skipn 16 ws) (compress h (firstn 16 ws))
      end
  end.

Definition digest_bytes (msg : list N) : list N :=
  let p := pad msg in
  let ws := words (length p) p in
  flat_map (be_bytes 4) (blocks (length ws) ws H0).

Definition digest (b : bytes) : bytes :=
  string_of_list_ascii
    (map (fun x => ascii_of_N x)
       (digest_bytes (map N_of_ascii (list_ascii_of_string b)))).

End SHA256.

Module RefHost.

(** Rows of comma-separated fields, one per line; no quoting. *)
Definition drop_cr (s : string) : string := Str.rstrip s (ascii_of_nat 13).

Definition csv_reader (text : string) : list (list string) :=
  map (fun l => if String.eqb l "" then [] else Str.split l ",")
    (map drop_cr
       (match rev (Str.split text (ascii_of_nat 10)) with
        | EmptyString :: l => rev l
        | l => rev l
        end)).

Definition csv_writerow (row : list string) : string :=
  Str.join "," row +:+ String (ascii_of_nat 13) (String (ascii_of_nat 10) "").

(** The cut of an option line at its first [=] or [:]. *)
Fixpoint cut_option (s : string) : option (string * string) :=
  match s with
  | EmptyString => None
  | String a s' =>
      if Ascii.eqb a "="%char || Ascii.eqb a ":"%char then Some (EmptyString, s')
      else match cut_option s' with
           | Some (k, v) => Some (String a k, v)
           | None => None
           end
  end.

(** Sections kept most recent first, and so are their options. *)
Fixpoint ini_lines (lines : list string)
    (acc : list (string * list (string * string)))
  : option (list (string * list (string * string))) :=
  match lines with
  | [] => Some (rev (map (fun sec => (fst sec, rev (snd sec))) acc))
  | line :: lines' =>
      let l := Str.strip line in
      if String.eqb l "" || Str.startswith l "#" || Str.startswith l ";"
      then ini_lines lines' acc
      else if Str.startswith l "[" && Str.endswith l "]"
      then ini_lines lines'
             ((String.substring 1 (String.length l - 2) l, []) :: acc)
      else match cut_option l, acc with
           | Some (k, v), (sec, opts) :: acc' =>
               ini_lines lines' ((sec, (Str.strip k, Str.strip v) :: opts) :: acc')
           | _, _ => None
           end
  end.

Definition ini_sections (text : string)
  : option (list (string * list (string * string))) :=
  ini_lines (Str.split text (ascii_of_nat 10)) [].

(** Launcher stubs, told apart by their architecture. *)
Definition find_exe (arch : string) : bytes := "MZ-" +:+ arch.

End RefHost.

Definition ref_host : Host := {|
  open_text := fun b => b;
  csv_reader := RefHost.csv_reader;
  csv_writerow := RefHost.csv_writerow;
  ini_sections := RefHost.ini_sections;
  sha256_digest := SHA256.digest;
  find_exe := RefHost.find_exe;
|}.

(** ** The program's objects *)

Abbreviation metadata_dict := (gmap string (list string)).


Record WheelContents := {
  unpacked : list entry;
  metadata : metadata_dict;
}.

Record PackageBuilder := {
  wheel_contents : WheelContents;
  python_version : string;
  platform : Platform;
  bitness : string;
  files : list string;
  has_prefix_files : list string;
  py_record_extra : list (string * string * nat);
  build_no : nat;
}.

Definition PackageBuilder_init (wheel_contents : WheelContents)
    (python_version : string) (platform : Platform) (bitness : string)
  : PackageBuilder :=
  {| wheel_contents := wheel_contents; python_version := python_version;
     platform := platform; bitness := bitness;
     files := []; has_prefix_files := []; py_record_extra := [];
     build_no := 0 |}.

Definition set_files (self : PackageBuilder) (l : list string) : PackageBuilder :=
  {| wheel_contents := wheel_contents self; python_version := python_version self;
     platform := platform self; bitness := bitness self;
     files := l; has_prefix_files := has_prefix_files self;
     py_record_extra := py_record_extra self; build_no := build_no self |}.

Definition set_has_prefix_files (self : PackageBuilder) (l : list string)
  : PackageBuilder :=
  {| wheel_contents := wheel_contents self; python_version := python_version self;
     platform := platform self; bitness := bitness self;
     files := files self; has_prefix_files := l;
     py_record_extra := py_record_extra self; build_no := build_no self |}.

Definition set_py_record_extra (self : PackageBuilder)
    (l : list (string * string * nat)) : PackageBuilder :=
  {| wheel_contents := wheel_contents self; python_version := python_version self;
     platform := platform self; bitness := bitness self;
     files := files self; has_prefix_files := has_prefix_files self;
     py_record_extra := l; build_no := build_no self |}.

(** What a method of the builder works on: [self] and the open [tf]. *)
Abbreviation state := (PackageBuilder * TarFile)%type.

(** ** Methods that mutate and may raise

    A method that mutates its object and may raise: the state it leaves
    behind, and its result.  An exception keeps what was written before
    it.  The builder's methods run on [state], [main] on [Cwd]. *)
Definition M (S A : Type) : Type := S -> S * result A.

Definition ret {S A} (a : A) : M S A := fun s => (s, inr a).
Definition raise {S A} (e : exn) : M S A := fun s => (s, inl e).
Definition bind {S A B} (m : M S A) (k : A -> M S B) : M S B :=
  fun s => match m s with
           | (s', inl e) => (s', inl e)
           | (s', inr a) => k a s'
           end.
Definition lift {S A} (r : result A) : M S A := fun s => (s, r).
Definition update {S} (f : S -> S) : M S unit := fun s => (f s, inr tt).

Notation "'do!' x <- m ; k" := (bind m (fun x => k))
  (at level 10, x pattern, m at level 100, k at level 200).
Notation "m ;; k" := (bind m (fun _ => k))
  (at level 100, k at level 200, right associativity).

(** [for x in l: body(x)] *)
Fixpoint for_each {S A} (l : list A) (body : A -> M S unit) : M S unit :=
  match l with
  | [] => ret tt
  | x :: l' => body x ;; for_each l' body
  end.


Section Program.

Context {host : Host}.

(** ** [_read_metadata] *)

(** The lines a text file yields when iterated, line ends kept. *)
Fixpoint readlines (s : string) : list string :=
  match s with
  | EmptyString => []
  | String a s' =>
      if Ascii.eqb a (ascii_of_nat 10) then String a "" :: readlines s'
      else match readlines s' with
           | l :: ls => String a l :: ls
           | [] => [String a ""]
           end
  end.

(** [d[key][0]] *)
Definition getitem0 (d : metadata_dict) (key : string) : result string :=
  match d !! key with
  | None => inl (KeyError key)
  | Some [] => inl IndexError
  | Some (v :: _) => inr v
  end.

(** The loop of [_read_metadata]; [res] is the [defaultdict(list)]. *)
Fixpoint _read_metadata_lines (lines : list string) (res : metadata_dict)
  : result metadata_dict :=
  match lines with
  | [] => inr res
  | line :: lines' =>
      if String.eqb (Str.strip line) "" then inr res
      else match Str.split1 (Str.strip line) ":" with
           | [k; v] =>
               let k := Str.strip k in
               let v := Str.strip v in
               _read_metadata_lines lines'
                 (<[k := default [] (res !! k) ++ [v]]> res)
           | _ => inl (ValueError "not enough values to unpack (expected 2, got 1)")
           end
  end.

(** [_read_metadata(dir / name)] *)
Definition _read_metadata (dir : entry) (name : string) : result metadata_dict :=
  try! b <- Path.open_child dir name;
  _read_metadata_lines (readlines (open_text b)) ∅.

(** ** [WheelContents] *)

Fixpoint find_dist_info_in (es : list entry) : result entry :=
  match es with
  | [] => inl (BadWheelError "Didn't find .dist-info directory")
  | x :: es' =>
      if Str.endswith (Path.name x) ".dist-info" then inr x
      else find_dist_info_in es'
  end.

Definition find_dist_info (self : WheelContents) : result entry :=
  find_dist_info_in (unpacked self).

(** [WheelContents(whl_file)], from what the archive unpacks to *)
Definition WheelContents_init (tree : list entry) : result WheelContents :=
  try! d <- find_dist_info_in tree;
  try! md <- _read_metadata d "METADATA";
  inr {| unpacked := tree; metadata := md |}.

(** The first loop of [check]. *)
Fixpoint check_entries (es : list entry) (dist_info data_dir : option entry)
  : result (option entry * option entry) :=
  match es with
  | [] => inr (dist_info, data_dir)
  | x :: es' =>
      try! dist_info <-
        (if Str.endswith (Path.name x) ".dist-info" then
           if negb (Path.is_dir x) then
             inl (BadWheelError ".dist-info not a directory")
           else match dist_info with
                | Some _ => inl (BadWheelError "Multiple .dist-info directories")
                | None => inr (Some x)
                end
         else inr dist_info);
      try! data_dir <-
        (if Str.endswith (Path.name x) ".data" then
           if negb (Path.is_dir x) then
             inl (BadWheelError ".data not a directory")
           else match data_dir with
                | Some _ => inl (BadWheelError "Multiple .data directories")
                | None => inr (Some x)
                end
         else inr data_dir);
      check_entries es' dist_info data_dir
  end.

Fixpoint check_fields (fields : list string) (md : metadata_dict) : result unit :=
  match fields with
  | [] => inr tt
  | field :: fields' =>
      match md !! field with
      | None => inl (BadWheelError ("Missing required metadata field: " +:+ field))
      | Some _ => check_fields fields' md
      end
  end.

Definition check (self : WheelContents) : result unit :=
  try! found <- check_entries (unpacked self) None None;
  match fst found with
  | None => inl (BadWheelError "Didn't find .dist-info directory")
  | Some dist_info =>
      try! wheel_metadata <- _read_metadata dist_info "WHEEL";
      try! wheel_version <- getitem0 wheel_metadata "Wheel-Version";
      if negb (String.eqb wheel_version "1.0") then
        inl (BadWheelError "wheel2conda only knows about wheel format 1.0")
      else
        try! purelib <- getitem0 wheel_metadata "Root-Is-Purelib";
        if negb (String.eqb (Str.lower purelib) "true") then
          inl (BadWheelError "Can't currently autoconvert packages with platlib")
        else check_fields ["Name"; "Version"] (metadata self)
  end.

(** [{t.split('-')[0] for t in tags}] *)
Definition py_tags_of (tags : list string) : gset string :=
  list_to_set (map (fun t => hd EmptyString (Str.split t "-")) tags).

Definition filter_compatible_pythons (self : WheelContents)
  : result (list string) :=
  let not2 := List.filter (fun p => negb (Str.startswith p "2.")) PYTHON_VERSIONS in
  let only2 := List.filter (fun p => Str.startswith p "2.") PYTHON_VERSIONS in
  let by_tags :=
    try! d <- find_dist_info self;
    try! wheel_metadata <- _read_metadata d "WHEEL";
    match wheel_metadata !! "Tag" with
    | None => inl (KeyError "Tag")
    | Some tags =>
        let py_tags := py_tags_of tags in
        if bool_decide (py_tags = {["py3"]}) then inr not2
        else if bool_decide (py_tags = {["py2"]}) then inr only2
        else inr PYTHON_VERSIONS
    end in
  match metadata self !! "Requires-Python" with
  | Some _ =>
      try! rp <- getitem0 (metadata self) "Requires-Python";
      if Str.startswith_any rp ["3"; ">3"; ">=3"] then inr not2
      else if String.eqb rp "<3" || String.eqb rp "<3.0" then inr only2
      else by_tags
  | None => by_tags
  end.

(** [cp = CaseSensitiveContextParser(); cp.read([str(ep_file)])] *)
Definition CaseSensitiveContextParser_read (text : string)
  : result (list (string * list (string * string))) :=
  match ini_sections text with
  | None => inl ConfigParserError
  | Some secs => CaseSensitiveContextParser.store_sections secs []
  end.

(** ** [PackageBuilder] *)

Definition record_file (arcname : string) (has_prefix : bool)
    (self : PackageBuilder) : PackageBuilder :=
  let self := set_files self (files self ++ [arcname]) in
  if has_prefix
  then set_has_prefix_files self (has_prefix_files self ++ [arcname])
  else self.

(** The host's separator is taken to be ['/'], so the branch on
    [os.sep == '\\'] is not entered. *)
Definition record_file_or_dir (arcname : string) (src : entry)
    (self : PackageBuilder) : PackageBuilder :=
  if Path.is_dir src then
    fold_left
      (fun self '(rel_dirpath, filenames) =>
         fold_left
           (fun self f =>
              let p := posixpath.join arcname [rel_dirpath; f] in
              record_file (posixpath.normpath p) false self)
           filenames self)
      (os_walk "." (snd src)) self
  else record_file arcname false self.

Definition site_packages_path (self : PackageBuilder) : string :=
  match platform self with
  | win => "Lib/site-packages/"
  | _ => "lib/python" +:+ python_version self +:+ "/site-packages/"
  end.

Definition scripts_path (self : PackageBuilder) : string :=
  match platform self with
  | win => "Scripts/"
  | _ => "bin/"
  end.

Definition no_filter (ti : TarInfo) : option TarInfo := Some ti.

Definition exclude_record (ti : TarInfo) : option TarInfo :=
  if Str.endswith (ti_name ti) "RECORD" then None else Some ti.

Definition _add_data_dir (src : entry) : M state unit :=
  do! ds <- lift (Path.iterdir src);
  for_each ds (fun d =>
    if String.eqb (Path.name d) "data" then
      do! fs <- lift (Path.iterdir d);
      for_each fs (fun f =>
        update (fun '(self, tf) =>
          (record_file_or_dir (Path.name f) f self,
           tarfile.add tf no_filter (snd f) (Path.name f))))
    else raise (NotImplementedError (Path.name d +:+ " under data dir"))).

Definition add_module : M state unit :=
  fun '(self, tf) =>
    let site_packages := site_packages_path self in
    for_each (unpacked (wheel_contents self)) (fun src =>
      if Str.endswith (Path.name src) ".data" then _add_data_dir src
      else
        let dst := site_packages +:+ Path.name src in
        if Str.endswith (Path.name src) ".dist-info" then
          update (fun '(self, tf) =>
            (record_file_or_dir dst src self,
             tarfile.add tf exclude_record (snd src) dst))
        else
          update (fun '(self, tf) =>
            (record_file_or_dir dst src self,
             tarfile.add tf no_filter (snd src) dst)))
      (self, tf).

Definition _py_record_file (relpath : string) (contents : bytes)
    (self : PackageBuilder) : PackageBuilder :=
  let digest := Str.rstrip (base64.urlsafe_b64encode (sha256_digest contents)) "=" in
  set_py_record_extra self
    (py_record_extra self ++ [(relpath, "sha256=" +:+ digest, String.length contents)]).

(** One row of the wheel's RECORD as [write_pep376_record] writes it. *)
Definition rewrite_row (prefix_from_site_pkgs : string) (row : list string)
  : result (list string) :=
  match row with
  | [] => inl IndexError
  | row0 :: cols =>
      let path_parts := Str.split row0 "/" in
      if (2 <? length path_parts)%nat
         && Str.endswith (nth 0 path_parts EmptyString) ".data"
         && String.eqb (nth 1 path_parts EmptyString) "data"
      then inr (posixpath.join prefix_from_site_pkgs (skipn 2 path_parts) :: cols)
      else inr row
  end.

Fixpoint rewrite_rows (prefix_from_site_pkgs : string) (rows : list (list string))
  : result (list (list string)) :=
  match rows with
  | [] => inr []
  | row :: rows' =>
      try! r <- rewrite_row prefix_from_site_pkgs row;
      try! rs <- rewrite_rows prefix_from_site_pkgs rows';
      inr (r :: rs)
  end.

(** A row of [py_record_extra] as written: the path joined to the prefix,
    then [row[1:]]. *)
Definition extra_row (prefix_from_site_pkgs : string)
    (row : string * string * nat) : list string :=
  let '(relpath, hash, size) := row in
  [posixpath.join prefix_from_site_pkgs [relpath]; hash; Str.of_nat size].

Definition prefix_from_site_pkgs (self : PackageBuilder) : string :=
  match platform self with
  | win => "../.."
  | _ => "../../.."
  end.

(** The rows handed to [installed_record.writerow], in order. *)
Definition installed_rows (self : PackageBuilder) : result (list (list string)) :=
  try! d <- find_dist_info (wheel_contents self);
  try! b <- Path.open_child d "RECORD";
  try! rows <- rewrite_rows (prefix_from_site_pkgs self) (csv_reader (open_text b));
  inr (rows ++ map (extra_row (prefix_from_site_pkgs self)) (py_record_extra self)).

Definition write_pep376_record : M state unit :=
  fun '(self, tf) =>
    (do! rows <- lift (installed_rows self);
     let sio := Str.join "" (map csv_writerow rows) in
     do! d <- lift (find_dist_info (wheel_contents self));
     let record_path := site_packages_path self +:+ Path.name d +:+ "/RECORD" in
     let contents := utf8_encode sio in
     let ti := tarfile.set_size (tarfile.new_TarInfo record_path) (String.length contents) in
     update (fun '(self, tf) => (self, tarfile.addfile tf ti contents)))
      (self, tf).

Definition _write_script_unix (name contents : string) (s : state) : state :=
  let '(self, tf) := s in
  let path := scripts_path self +:+ name in
  let contents := utf8_encode contents in
  let ti := tarfile.set_size (tarfile.new_TarInfo path) (String.length contents) in
  let tf := tarfile.addfile tf ti contents in
  let self := record_file (ti_name ti) true self in
  (_py_record_file path contents self, tf).

Definition _write_script_windows (name contents : string) (s : state) : state :=
  let '(self, tf) := _write_script_unix (name +:+ "-script.py") contents s in
  let arch := if String.eqb (bitness self) "64" then "x64" else "x86" in
  let src := find_exe arch in
  let dst := scripts_path self +:+ name +:+ ".exe" in
  let tf := tarfile.add tf no_filter (File src) dst in
  let self := record_file dst false self in
  (_py_record_file dst src self, tf).

(** The body of the loop of [create_scripts]. *)
Definition create_script (name ep : string) : M state unit :=
  if negb (Str.count ep ":" =? 1)%nat then
    raise (ValueError ("Bad entry point: " +:+ repr ep))
  else
    match Str.split ep ":" with
    | [mod_; func] =>
        let s := script_template (PREFIX +:+ "/bin/python") mod_ func in
        update (fun st =>
          if Platform_.eqb (platform (fst st)) win
          then _write_script_windows name s st
          else _write_script_unix name s st)
    | _ => raise (ValueError "too many values to unpack (expected 2)")
    end.

(** [cp['console_scripts'].items()] is a view: the names are the options
    the section has when the loop starts, and the value of each is read,
    and interpolated, when the loop comes to it. *)
Definition create_scripts : M state unit :=
  fun '(self, tf) =>
    (do! d <- lift (find_dist_info (wheel_contents self));
     if negb (Path.child_is_file d "entry_points.txt") then ret tt
     else
       do! b <- lift (Path.open_child d "entry_points.txt");
       do! cp <- lift (CaseSensitiveContextParser_read (open_text b));
       do! section <- lift (CaseSensitiveContextParser.getitem cp "console_scripts");
       for_each (CaseSensitiveContextParser.options cp section) (fun name =>
         do! ep <- lift (CaseSensitiveContextParser.get cp section name);
         create_script name ep))
      (self, tf).

(** The dict [ix] of [write_index], items in the order the source lists
    them. *)
Definition index_dict (self : PackageBuilder) : result json :=
  let py_version_nodot := Str.replace (python_version self) "." "" in
  try! name <- getitem0 (metadata (wheel_contents self)) "Name";
  try! version <- getitem0 (metadata (wheel_contents self)) "Version";
  inr (JDict
    [("arch", JStr (if String.eqb (bitness self) "64" then "x86_64" else "x86"));
     ("build", JStr ("py" +:+ py_version_nodot +:+ "_" +:+ Str.of_nat (build_no self)));
     ("build_number", JInt (build_no self));
     ("depends", JList [JStr ("python " +:+ python_version self +:+ "*")]);
     ("license", JStr "UNKNOWN");
     ("name", JStr name);
     ("platform", JStr (Platform_.name (platform self)));
     ("subdir", JStr (Platform_.name (platform self) +:+ "-" +:+ bitness self));
     ("version", JStr version)]).

Definition add_contents (name : string) (contents : bytes) : M state unit :=
  update (fun '(self, tf) =>
    (self, tarfile.addfile tf
             (tarfile.set_size (tarfile.new_TarInfo name) (String.length contents))
             contents)).

Definition write_index : M state unit :=
  fun '(self, tf) =>
    (do! ix <- lift (index_dict self);
     add_contents "info/index.json" (utf8_encode (Json.dumps ix))) (self, tf).

Definition has_prefix_lines (self : PackageBuilder) : list string :=
  map (fun path => PREFIX +:+ " text " +:+ path) (has_prefix_files self).

Definition write_has_prefix_list : M state unit :=
  fun '(self, tf) =>
    add_contents "info/has_prefix" (utf8_encode (Str.join LF (has_prefix_lines self)))
      (self, tf).

Definition write_files_list : M state unit :=
  fun '(self, tf) =>
    add_contents "info/files" (utf8_encode (Str.join LF (files self))) (self, tf).

(** [build]: the six steps inside [with tarfile.open(..) as tf], and the
    [close] the [with] statement adds when they all return. *)
Definition build_steps : M state unit :=
  add_module ;; create_scripts ;; write_pep376_record ;;
  write_index ;; write_has_prefix_list ;; write_files_list.

Definition build (self : PackageBuilder) : state * result unit :=
  match build_steps (self, tarfile.open) with
  | ((self', tf), inr tt) => ((self', tarfile.close tf), inr tt)
  | (s', inl e) => (s', inl e)
  end.

(** ** [main] *)

(** The working directory: the directories [main] finds or makes, the
    files it writes, the lines it prints. *)
Record Cwd := {
  dirs : list string;
  written : list (string * TarFile);
  stdout : list string;
}.

(** [try: d.mkdir() except FileExistsError: pass] *)
Definition mkdir (d : string) : M Cwd unit :=
  update (fun cwd =>
    if existsb (String.eqb d) (dirs cwd) then cwd
    else {| dirs := dirs cwd ++ [d]; written := written cwd; stdout := stdout cwd |}).

Definition print (line : string) : M Cwd unit :=
  update (fun cwd =>
    {| dirs := dirs cwd; written := written cwd; stdout := stdout cwd ++ [line] |}).

(** [with path.open('wb') as f: pb.build(f)]: the file holds what [build]
    wrote, whether or not it raised. *)
Definition build_to (path : string) (pb : PackageBuilder) : M Cwd unit :=
  fun cwd =>
    let '((_, tf), r) := build pb in
    ({| dirs := dirs cwd; written := written cwd ++ [(path, tf)];
        stdout := stdout cwd |}, r).

Definition convert (wc : WheelContents) (platform : Platform) (bitness d : string)
    (py_version : string) : M Cwd unit :=
  print ("Converting for: " +:+ Platform_.name platform +:+ "-" +:+ bitness
         +:+ ", Python " +:+ py_version) ;;
  let pb := PackageBuilder_init wc py_version platform bitness in
  do! name <- lift (getitem0 (metadata wc) "Name");
  do! version <- lift (getitem0 (metadata wc) "Version");
  let filename := name +:+ "-" +:+ version +:+ "-py"
                  +:+ Str.replace py_version "." "" +:+ "_0.tar.bz2" in
  build_to (posixpath.join d [filename]) pb.

Definition main_loop (wc : WheelContents) : M Cwd unit :=
  for_each PLATFORM_PAIRS (fun '(platform, bitness) =>
    let d := Platform_.name platform +:+ "-" +:+ bitness in
    mkdir d ;;
    do! versions <- lift (filter_compatible_pythons wc);
    for_each versions (convert wc platform bitness d)).

(** [main], from what the wheel file unpacks to. *)
Definition main (tree : list entry) : M Cwd unit :=
  do! wc <- lift (WheelContents_init tree);
  lift (check wc) ;;
  main_loop wc.

(** ** Vocabulary of the statements *)

(** The two methods through which a builder's lists change. *)
Inductive mutation :=
| Record_file (arcname : string) (has_prefix : bool)
| Py_record_file (relpath : string) (contents : bytes).

Definition mutate (self : PackageBuilder) (m : mutation) : PackageBuilder :=
  match m with
  | Record_file arcname has_prefix => record_file arcname has_prefix self
  | Py_record_file relpath contents => _py_record_file relpath contents self
  end.

(** The paths recorded, and those recorded with the placeholder flag. *)
Fixpoint recorded (ms : list mutation) : list string :=
  match ms with
  | [] => []
  | Record_file arcname _ :: ms' => arcname :: recorded ms'
  | Py_record_file _ _ :: ms' => recorded ms'
  end.

Fixpoint flagged (ms : list mutation) : list string :=
  match ms with
  | [] => []
  | Record_file arcname true :: ms' => arcname :: flagged ms'
  | _ :: ms' => flagged ms'
  end.

(** The last character of a non-empty string. *)
Fixpoint last_char (s : string) : option ascii :=
  match s with
  | EmptyString => None
  | String a EmptyString => Some a
  | String _ s' => last_char s'
  end.

(** A runtime version with its dots taken out. *)
Definition remove_dots (s : string) : string :=
  string_of_list_ascii
    (List.filter (fun a => negb (Ascii.eqb a "."%char)) (list_ascii_of_string s)).

(** One member of a JSON object one level deep, as [indent=2] lays it out. *)
Definition member_line (key text : string) : string :=
  "  " +:+ Json.dq +:+ key +:+ Json.dq +:+ ": " +:+ text.

(** A regular-file member header. *)
Definition reg_info (name : string) (contents : bytes) : TarInfo :=
  {| ti_name := name; ti_type := REGTYPE; ti_size := String.length contents |}.

(** What no method of the builder changes. *)
Definition same_config (self self' : PackageBuilder) : Prop :=
  wheel_contents self' = wheel_contents self
  /\ python_version self' = python_version self
  /\ platform self' = platform self
  /\ bitness self' = bitness self
  /\ build_no self' = build_no self.

Definition frame (s s' : state) : Prop :=
  same_config (fst s) (fst s')
  /\ end_of_archive (snd s') = end_of_archive (snd s).

(** A method keeps the configuration, and leaves the archive unfinished
    if it was. *)
Definition framed {A} (m : M state A) : Prop := forall s, frame s (fst (m s)).

(** An entry-point value the program refuses. *)
Definition malformed (ep : string) : Prop := Str.count ep ":" <> 1.

(** The name a launcher script is stored under. *)
Definition script_name (self : PackageBuilder) (name : string) : string :=
  match platform self with
  | win => "Scripts/" +:+ name +:+ "-script.py"
  | _ => "bin/" +:+ name
  end.

(** The paths [record_file_or_dir] records for what is at [src]. *)
Definition recorded_paths (arcname : string) (src : entry) : list string :=
  if Path.is_dir src then
    flat_map
      (fun '(rel_dirpath, filenames) =>
         map (fun f => posixpath.normpath (posixpath.join arcname [rel_dirpath; f]))
           filenames)
      (os_walk "." (snd src))
  else [arcname].

(** The segments that follow the data subdirectory in a RECORD path: the
    path has a first segment ending in [.data], then the segment [data],
    then at least one more. *)
Definition data_row_parts (path : string) : option (list string) :=
  match Str.split path "/" with
  | first :: second :: third :: rest =>
      if Str.endswith first ".data" && String.eqb second "data"
      then Some (third :: rest) else None
  | _ => None
  end.

(** A row of the wheel's RECORD as the installed RECORD has it: the path
    re-rooted when it lies in the data subdirectory, the other columns
    as they are. *)
Definition rerooted_row (prefix : string) (row : list string) : list string :=
  match row with
  | [] => []
  | path :: cols =>
      match data_row_parts path with
      | Some rest => posixpath.join prefix rest :: cols
      | None => row
      end
  end.

(** A [Requires-Python] value the program reads as "3 or newer". *)
Definition requires_3_or_newer (rp : string) : Prop :=
  Str.startswith rp "3" = true \/ Str.startswith rp ">3" = true
  \/ Str.startswith rp ">=3" = true.

(** Compatibility tags that are neither all [py3] nor all [py2]. *)
Definition mixed_or_unrecognized (tags : list string) : Prop :=
  py_tags_of tags <> {["py3"]} /\ py_tags_of tags <> {["py2"]}.

(** The two refusals of [check] that concern the wheel's format. *)
Definition UnsupportedFormat (e : exn) : Prop :=
  e = BadWheelError "wheel2conda only knows about wheel format 1.0"
  \/ e = BadWheelError "Can't currently autoconvert packages with platlib".

(** A name a directory entry can have. *)
Definition wf_name (n : string) : bool :=
  negb (String.eqb n "") && negb (String.eqb n ".") && negb (String.eqb n "..")
  && Nat.eqb (Str.count n "/") 0.

(** No string twice. *)
Fixpoint distinct (l : list string) : bool :=
  match l with
  | [] => true
  | a :: l' => negb (existsb (String.eqb a) l') && distinct l'
  end.

(** A tree as a file system has it: every name in it is one, and no
    directory has a name twice. *)
Fixpoint wf_node (n : node) : bool :=
  match n with
  | File _ => true
  | Dir es =>
      distinct (map fst es)
      && (fix all (l : list entry) : bool :=
            match l with
            | [] => true
            | (name, c) :: l' => wf_name name && wf_node c && all l'
            end) es
  end.


(** The path made of segments. *)
Definition path_of (segs : list string) : string := Str.join "/" segs.

(** The regular files below a node reached through the segments [at_],
    each as its segments, in directory order. *)
Fixpoint paths_below (at_ : list string) (n : node) : list (list string) :=
  match n with
  | File _ => [at_]
  | Dir es =>
      (fix children (l : list entry) : list (list string) :=
         match l with
         | [] => []
         | (name, c) :: l' => paths_below (at_ ++ [name]) c ++ children l'
         end) es
  end.

(** The names of the regular files among some members. *)
(** Every file and directory at or below [n], each with the path it has
    when [n] is at [at_]. *)
Fixpoint nodes_below (at_ : list string) (n : node) : list (list string * node) :=
  (at_, n)
  :: match n with
     | File _ => []
     | Dir es =>
         (fix children (l : list entry) : list (list string * node) :=
            match l with
            | [] => []
            | (name, c) :: l' => nodes_below (at_ ++ [name]) c ++ children l'
            end) es
     end.

(** The member [tf.add] writes for one file or directory at a path. *)
Definition member_of (segs : list string) (n : node) : member :=
  (tarfile.gettarinfo n (path_of segs),
   match n with File c => c | Dir _ => EmptyString end).

Definition member_names (ms : list member) : list string :=
  map (fun m => ti_name (fst m))
    (List.filter
       (fun m => match ti_type (fst m) with REGTYPE => true | DIRTYPE => false end)
       ms).




(** The console scripts a wheel declares, as [create_scripts] comes to
    read them: the options of [console_scripts], those of [DEFAULT] after
    its own, each with its value interpolated; none without an
    entry-points file. *)
Definition declared_scripts (wc : WheelContents) : result (list (string * string)) :=
  try! d <- find_dist_info wc;
  if negb (Path.child_is_file d "entry_points.txt") then inr []
  else
    try! b <- Path.open_child d "entry_points.txt";
    try! cp <- CaseSensitiveContextParser_read (open_text b);
    CaseSensitiveContextParser.items cp "console_scripts".




(** A path segment that names something: not empty, not a dot segment,
    without a slash. *)
Definition seg_ok (s : string) : Prop :=
  s <> "" /\ s <> "." /\ s <> ".." /\ Str.count s "/" = 0.

(** The relative directory [os.walk] reports for the segments below its
    top: a dot for the top itself. *)
Definition rel_of (segs : list string) : string :=
  match segs with
  | [] => "."
  | _ => path_of segs
  end.

Definition not_dot (s : string) : bool := negb (String.eqb s ".").

(** The paths recorded for the part of a walk that starts at the segments
    [rel] below the directory stored as [arc]. *)
Definition recorded_in (arc rel : list string) (n : node) : list string :=
  flat_map
    (fun '(rel_dirpath, filenames) =>
       map (fun f => posixpath.normpath
                       (posixpath.join (path_of arc) [rel_dirpath; f]))
         filenames)
    (os_walk (rel_of rel) n).


(** The segments of the site-packages root. *)
Definition site_segs (self : PackageBuilder) : list string :=
  match platform self with
  | win => ["Lib"; "site-packages"]
  | _ => ["lib"; "python" +:+ python_version self; "site-packages"]
  end.

(** A header line [key: value] and what it is read as. *)
Definition header_line (line : string) (kv : string * string) : Prop :=
  Str.strip line = fst kv +:+ ":" +:+ snd kv /\ Str.count (fst kv) ":" = 0.

(** The values a list of headers gives a key, in the order of the lines. *)
Definition values_of (k : string) (kvs : list (string * string)) : list string :=
  map (fun kv => Str.strip (snd kv))
    (List.filter (fun kv => String.eqb (Str.strip (fst kv)) k) kvs).

(** The two kinds of entry [check] looks at. *)
Definition is_dist_info (x : entry) : bool := Str.endswith (Path.name x) ".dist-info".
Definition is_data (x : entry) : bool := Str.endswith (Path.name x) ".data".

(** [[x]] for [Some x], nothing for [None]. *)
Definition found (o : option entry) : list entry :=
  match o with Some x => [x] | None => [] end.

(** A [Requires-Python] value the program does not act on, or none. *)
Definition requirement_not_recognized (md : metadata_dict) : Prop :=
  match md !! "Requires-Python" with
  | None => True
  | Some [] => False
  | Some (rp :: _) =>
      Str.startswith_any rp ["3"; ">3"; ">=3"] = false /\ rp <> "<3" /\ rp <> "<3.0"
  end.

(** The interpreter tag of a compatibility tag. *)
Definition py_tag (t : string) : string := hd EmptyString (Str.split t "-").

(** A method keeps a property of the state, whether it returns or raises. *)
Definition preserves {S A} (I : S -> Prop) (m : M S A) : Prop :=
  forall s, I s -> I (fst (m s)).

(** The first line of every launcher script. *)
Definition shebang : string := "#!" +:+ PREFIX +:+ "/bin/python" +:+ LF.

(** Every path recorded with the placeholder flag is recorded as a file,
    and names a member that starts with the placeholder interpreter
    line. *)
Definition flagged_are_scripts (s : state) : Prop :=
  forall p, In p (has_prefix_files (fst s)) ->
    In p (files (fst s))
    /\ exists c, In (reg_info p c, c) (members (snd s))
                 /\ Str.startswith c shebang = true.

(** The RECORD hash column for some bytes. *)
Definition record_hash (c : bytes) : string :=
  "sha256=" +:+ Str.rstrip (base64.urlsafe_b64encode (sha256_digest c)) "=".

(** Every row kept for the installed RECORD gives the hash and the size
    of a member stored under the row's path. *)
Definition rows_describe_members (s : state) : Prop :=
  forall path hash size, In (path, hash, size) (py_record_extra (fst s)) ->
    exists c, In (reg_info path c, c) (members (snd s))
              /\ hash = record_hash c /\ size = String.length c.

(** The files one console script is installed as. *)
Definition launcher_files (self : PackageBuilder) (name : string) : list string :=
  match platform self with
  | win => ["Scripts/" +:+ name +:+ "-script.py"; "Scripts/" +:+ name +:+ ".exe"]
  | _ => ["bin/" +:+ name]
  end.

(** The directory [main] writes the packages of one target to. *)
Definition subdir_of (target : Platform * string) : string :=
  Platform_.name (fst target) +:+ "-" +:+ snd target.

(** The file name of a package. *)
Definition package_file (name version py_version : string) : string :=
  name +:+ "-" +:+ version +:+ "-py" +:+ remove_dots py_version +:+ "_0.tar.bz2".

End Program.

(** ** Example wheels *)

Definition lines (l : list string) : string :=
  Str.join "" (map (fun s => s +:+ LF) l).

(** A wheel [Foo 1.0] with one package, a data file and, when
    [entry_points] is given, an entry-points file. *)
Definition wheel_tree (metadata wheel : list string)
    (entry_points : option (list string)) : list entry :=
  [("pkgmod", Dir [("__init__.py", File "x = 1");
                   ("sub", Dir [("m.py", File "")])]);
   ("Foo-1.0.dist-info",
    Dir ([("METADATA", File (lines metadata));
          ("WHEEL", File (lines wheel))]
         ++ match entry_points with
            | Some l => [("entry_points.txt", File (lines l))]
            | None => []
            end
         ++ [("RECORD",
              File (lines ["pkgmod/__init__.py,sha256=abc,5";
                           "pkgmod/sub/m.py,,0";
                           "Foo-1.0.data/data/share/x.txt,,2";
                           "Foo-1.0.dist-info/RECORD,,"]))]));
   ("Foo-1.0.data", Dir [("data", Dir [("share", Dir [("x.txt", File "hi")])])])].

Definition foo_metadata : list string := ["Name: Foo"; "Version: 1.0"].
Definition foo_wheel : list string :=
  ["Wheel-Version: 1.0"; "Root-Is-Purelib: true"; "Tag: py2-none-any";
   "Tag: py3-none-any"].

(** The wheel of the examples: one console script [foo]. *)
Definition foo_tree : list entry :=
  wheel_tree foo_metadata foo_wheel
    (Some ["[console_scripts]"; "foo = pkgmod:main"]).

(** The same with the script declared as [Foo]. *)
Definition Foo_tree : list entry :=
  wheel_tree foo_metadata foo_wheel
    (Some ["[console_scripts]"; "Foo = pkgmod:main"]).


(** Format version 2.0. *)
Definition v2_tree : list entry :=
  wheel_tree foo_metadata
    ["Wheel-Version: 2.0"; "Root-Is-Purelib: true"; "Tag: py3-none-any"] None.

(** A wheel that asks for Python 3.3 or newer. *)
Definition py3_tree : list entry :=
  wheel_tree (foo_metadata ++ ["Requires-Python: >=3.3"]) foo_wheel None.

(** What [WheelContents] makes of a tree on the reference host. *)
Definition wheel_of (tree : list entry) : WheelContents :=
  match @WheelContents_init ref_host tree with
  | inr wc => wc
  | inl _ => {| unpacked := tree; metadata := ∅ |}
  end.

(** The builders of the examples. *)
Definition foo_builder : PackageBuilder :=
  PackageBuilder_init (wheel_of foo_tree) "3.5" linux "64".

Definition Foo_builder : PackageBuilder :=
  PackageBuilder_init (wheel_of Foo_tree) "3.5" linux "64".

Definition empty_cwd : Cwd := {| dirs := []; written := []; stdout := [] |}.

(** A wheel that asks for a Python below 3. *)
Definition py2_tree : list entry :=
  wheel_tree (foo_metadata ++ ["Requires-Python: <3"]) foo_wheel None.

(** A wheel tagged for Python 3 alone. *)
Definition py3_tags_tree : list entry :=
  wheel_tree foo_metadata
    ["Wheel-Version: 1.0"; "Root-Is-Purelib: true"; "Tag: py3-none-any"] None.

(** Two console scripts, not in alphabetical order. *)
Definition two_scripts_tree : list entry :=
  wheel_tree foo_metadata foo_wheel
    (Some ["[console_scripts]"; "zeta = pkgmod:main"; "alpha = pkgmod:run"]).

(** Entry points for a graphical program only. *)
Definition gui_tree : list entry :=
  wheel_tree foo_metadata foo_wheel (Some ["[gui_scripts]"; "foo = pkgmod:main"]).

(** A wheel whose data directory holds [data] and [scripts]. *)
Definition scripts_data_tree : list entry :=
  [("Foo-1.0.dist-info",
    Dir [("METADATA", File (lines foo_metadata));
         ("WHEEL", File (lines foo_wheel));
         ("RECORD", File (lines ["Foo-1.0.dist-info/RECORD,,"]))]);
   ("Foo-1.0.data",
    Dir [("data", Dir [("share", Dir [("x.txt", File "hi")])]);
         ("scripts", Dir [("foo", File "#!python")])])].

(** A wheel whose RECORD ends with a blank line. *)
Definition blank_record_tree : list entry :=
  [("Foo-1.0.dist-info",
    Dir [("METADATA", File (lines foo_metadata));
         ("WHEEL", File (lines foo_wheel));
         ("RECORD", File (lines ["Foo-1.0.dist-info/RECORD,,"; ""]))])].

(** A tree without [.dist-info] directory. *)
Definition no_dist_info_tree : list entry := [("pkgmod", Dir [("__init__.py", File "")])].

(** * Properties *)

#[local] Arguments String.append !_ _ : simpl nomatch.

(** ** The library models on known values *)

Example split_ex : Str.split "a.data/data//f" "/" = ["a.data"; "data"; ""; "f"].
Proof. reflexivity. Qed.

Example split_empty_ex : Str.split "" ":" = [""].
Proof. reflexivity. Qed.

Example split1_ex : Str.split1 "Name: a:b" ":" = ["Name"; " a:b"].
Proof. reflexivity. Qed.

Example endswith_ex : Str.endswith "foo.dist-info" ".dist-info" = true /\ Str.endswith "x" "" = true.
Proof. split; reflexivity. Qed.

Example strip_ex : Str.strip "  a b 	" = "a b".
Proof. reflexivity. Qed.

Example of_nat_ex : Str.of_nat 0 = "0" /\ Str.of_nat 1204 = "1204".
Proof. split; reflexivity. Qed.

Example join_ex :
  posixpath.join "../.." ["bin"; "foo"] = "../../bin/foo"
  /\ posixpath.join "../.." [""; "f"] = "../../f"
  /\ posixpath.join "a" ["/b"; "c/"; "d"] = "/b/c/d".
Proof. repeat split; reflexivity. Qed.

Example normpath_ex :
  posixpath.normpath "lib/python3.5/site-packages/pkg/./a.py"
    = "lib/python3.5/site-packages/pkg/a.py"
  /\ posixpath.normpath "a//b/../c/" = "a/c"
  /\ posixpath.normpath "../x/.." = ".."
  /\ posixpath.normpath "//a" = "//a"
  /\ posixpath.normpath "///a/../.." = "/"
  /\ posixpath.normpath "./" = ".".
Proof. repeat split; reflexivity. Qed.

Example repr_ex : repr "a:b:c" = "'a:b:c'" /\ repr "it's" = String (ascii_of_nat 34) "it's" +:+ String (ascii_of_nat 34) "".
Proof. split; reflexivity. Qed.

Example b64_ex :
  base64.urlsafe_b64encode "Man" = "TWFu"
  /\ base64.urlsafe_b64encode "Ma" = "TWE="
  /\ base64.urlsafe_b64encode "M" = "TQ=="
  /\ base64.urlsafe_b64encode (String (ascii_of_nat 251) (String (ascii_of_nat 255) "")) = "-_8=".
Proof. repeat split; reflexivity. Qed.

Example dumps_ex :
  let q := Json.dq in
  let nl := String (ascii_of_nat 10) "" in
  Json.dumps (JDict [("b", JList [JStr "x"]); ("a", JInt 0)])
  = "{" +:+ nl +:+ "  " +:+ q +:+ "a" +:+ q +:+ ": 0," +:+ nl
    +:+ "  " +:+ q +:+ "b" +:+ q +:+ ": [" +:+ nl
    +:+ "    " +:+ q +:+ "x" +:+ q +:+ nl
    +:+ "  ]" +:+ nl +:+ "}".
Proof. reflexivity. Qed.

Example os_walk_ex :
  os_walk "." (Dir [("a.py", File "x"); ("sub", Dir [("b.py", File "y"); ("e", Dir [])]); ("c", File "")])
  = [(".", ["a.py"; "c"]); ("sub", ["b.py"]); ("sub/e", [])].
Proof. reflexivity. Qed.

Example readlines_ex :
  readlines ("a" +:+ LF +:+ LF +:+ "b") = ["a" +:+ LF; LF; "b"].
Proof. reflexivity. Qed.

Example sha256_abc :
  Str.join "" (map hex2 (list_ascii_of_string (SHA256.digest "abc")))
  = "ba7816bf8f01cfea414140de5dae2223b00361a396177a9cb410ff61f20015ad".
Proof. vm_compute. reflexivity. Qed.

Example sha256_empty :
  Str.join "" (map hex2 (list_ascii_of_string (SHA256.digest "")))
  = "e3b0c44298fc1c149afbf4c8996fb92427ae41e4649b934ca495991b7852b855".
Proof. vm_compute. reflexivity. Qed.

Example ini_sections_ex :
  RefHost.ini_sections (lines ["# entry points"; "[console_scripts]"; "Foo = pkgmod:main"])
  = Some [("console_scripts", [("Foo", "pkgmod:main")])].
Proof. reflexivity. Qed.

Example items_ex :
  let read secs :=
    try! cp <- CaseSensitiveContextParser.store_sections secs [];
    CaseSensitiveContextParser.items cp "console_scripts" in
  read [("console_scripts", [("Foo", "pkgmod:main")])] = inr [("foo", "pkgmod:main")]
  /\ read [("console_scripts", [("foo", "pkg%mod:main")])]
     = inl InterpolationSyntaxError
  /\ read [("DEFAULT", [("x", "m:f")]);
           ("console_scripts", [("foo", "%(X)s"); ("bar", "100%%:f")])]
     = inr [("foo", "m:f"); ("bar", "100%:f"); ("x", "m:f")]
  /\ read [("console_scripts", [("foo", "%(foo)s")])] = inl InterpolationDepthError
  /\ read [("console_scripts", [("foo", "%(nope)s")])]
     = inl (InterpolationMissingOptionError "nope")
  /\ read [("console_scripts", [("foo", "a:b")]); ("console_scripts", [])]
     = inl ConfigParserError
  /\ read [("gui_scripts", [("foo", "pkgmod:main")])]
     = inl (KeyError "console_scripts").
Proof. vm_compute. repeat split. Qed.

Example add_members_ex :
  map (fun m => ti_name (fst m))
    (tarfile.add_members no_filter
       (Dir [("sub", Dir [("m.py", File "")]); ("__init__.py", File "x = 1")])
       "/lib/pkgmod")
  = ["lib/pkgmod"; "lib/pkgmod/__init__.py"; "lib/pkgmod/sub"; "lib/pkgmod/sub/m.py"].
Proof. reflexivity. Qed.

Example main_ex :
  let '(cwd, r) := main (host := ref_host) foo_tree empty_cwd in
  r = inr tt
  /\ dirs cwd = ["linux-64"; "linux-32"; "osx-64"; "win-64"; "win-32"]
  /\ map fst (written cwd)
     = flat_map (fun d => map (fun v => d +:+ "/Foo-1.0-py" +:+ v +:+ "_0.tar.bz2")
                            ["35"; "34"; "27"])
         ["linux-64"; "linux-32"; "osx-64"; "win-64"; "win-32"].
Proof. vm_compute. repeat split. Qed.

(** ** Strings *)

Lemma append_nil_r (s : string) : s +:+ "" = s.
Proof. induction s; simpl; congruence. Qed.

Lemma append_assoc (a b c : string) : (a +:+ b) +:+ c = a +:+ (b +:+ c).
Proof. induction a; simpl; congruence. Qed.

Lemma append_length (a b : string) :
  String.length (a +:+ b) = String.length a + String.length b.
Proof. induction a; simpl; congruence. Qed.

Lemma endswith_refl (s : string) : Str.endswith s s = true.
Proof. destruct s; cbn [Str.endswith]; now rewrite String.eqb_refl. Qed.

Lemma endswith_iff (s suf : string) :
  Str.endswith s suf = true <-> exists p, s = p +:+ suf.
Proof.
  split.
  - induction s as [|a s IH]; cbn [Str.endswith].
    + destruct (String.eqb_spec "" suf) as [<-|_]; [|discriminate].
      intros _. now exists "".
    + destruct (String.eqb_spec (String a s) suf) as [<-|_].
      * intros _. now exists "".
      * intros H. destruct (IH H) as [p ->]. now exists (String a p).
  - intros [p ->]. induction p as [|a p IH].
    + apply endswith_refl.
    + change (String a p +:+ suf) with (String a (p +:+ suf)).
      cbn [Str.endswith].
      destruct (String.eqb (String a (p +:+ suf)) suf); [reflexivity|exact IH].
Qed.

Lemma endswith_app (p s suf : string) :
  Str.endswith s suf = true -> Str.endswith (p +:+ s) suf = true.
Proof.
  rewrite !endswith_iff. intros [q ->]. exists (p +:+ q). now rewrite append_assoc.
Qed.

Lemma last_char_app (p s : string) :
  s <> "" -> last_char (p +:+ s) = last_char s.
Proof.
  intros Hs. induction p as [|a p IH]; simpl; [reflexivity|].
  rewrite <- IH. destruct (p +:+ s) eqn:E; [|reflexivity].
  destruct p; simpl in E; [contradiction|discriminate].
Qed.

Lemma endswith_last_char (s suf : string) :
  suf <> "" -> Str.endswith s suf = true -> last_char s = last_char suf.
Proof.
  intros Hne [p ->]%endswith_iff. now apply last_char_app.
Qed.

Lemma count_app (a b : string) (c : ascii) :
  Str.count (a +:+ b) c = Str.count a c + Str.count b c.
Proof. induction a as [|x a IH]; simpl; [reflexivity|]. rewrite IH. lia. Qed.

Lemma split_not_nil (s : string) (c : ascii) : Str.split s c <> [].
Proof.
  destruct s as [|a s]; simpl; [discriminate|].
  destruct (Ascii.eqb a c); [discriminate|].
  destruct (Str.split s c); discriminate.
Qed.

Lemma split_no_sep (s : string) (c : ascii) :
  Str.count s c = 0 -> Str.split s c = [s].
Proof.
  induction s as [|a s IH]; simpl; [reflexivity|].
  destruct (Ascii.eqb a c); [discriminate|].
  intros H. now rewrite IH.
Qed.

Lemma split_app_sep (a b : string) (c : ascii) :
  Str.split (a +:+ String c b) c = Str.split a c ++ Str.split b c.
Proof.
  induction a as [|x a IH]; simpl.
  - now rewrite Ascii.eqb_refl.
  - destruct (Ascii.eqb x c); [now rewrite IH|].
    rewrite IH. destruct (Str.split a c) eqn:E; [|reflexivity].
    now apply split_not_nil in E.
Qed.

Lemma split_count (s : string) (c : ascii) :
  length (Str.split s c) = S (Str.count s c).
Proof.
  induction s as [|a s IH]; simpl; [reflexivity|].
  destruct (Ascii.eqb a c); simpl; [now rewrite IH|].
  destruct (Str.split s c) eqn:E; [now apply split_not_nil in E|].
  simpl in *. lia.
Qed.

Lemma split_segments_no_sep (s : string) (c : ascii) :
  Forall (fun seg => Str.count seg c = 0) (Str.split s c).
Proof.
  induction s as [|a s IH]; simpl; [repeat constructor|].
  destruct (Ascii.eqb a c) eqn:E; [constructor; [reflexivity|exact IH]|].
  destruct (Str.split s c) as [|h t]; [repeat constructor; simpl; now rewrite E|].
  inversion IH; subst. constructor; [simpl; now rewrite E|assumption].
Qed.

Lemma join_split (s : string) (c : ascii) :
  Str.join (String c "") (Str.split s c) = s.
Proof.
  unfold Str.join. induction s as [|a s IH]; [reflexivity|].
  cbn [Str.split].
  destruct (Str.split s c) as [|h t] eqn:E; [now apply split_not_nil in E|].
  destruct (Ascii.eqb_spec a c) as [->|_].
  - change (String.concat (String c "") ("" :: h :: t))
      with (String c (String.concat (String c "") (h :: t))).
    now rewrite IH.
  - rewrite <- IH. destruct t; reflexivity.
Qed.

(** An entry-point value with exactly one colon splits into the text
    before it and the text after it. *)
Lemma split_one_sep (s : string) (c : ascii) :
  Str.count s c = 1 ->
  exists a b, Str.split s c = [a; b] /\ s = a +:+ String c b
              /\ Str.count a c = 0 /\ Str.count b c = 0.
Proof.
  intros H.
  pose proof (split_count s c) as Hlen.
  pose proof (split_segments_no_sep s c) as Hseg.
  pose proof (join_split s c) as Hjoin.
  destruct (Str.split s c) as [|a [|b [|x t]]]; simpl in Hlen; try lia.
  exists a, b. inversion Hseg as [|? ? Ha Hb]; subst.
  inversion Hb; subst. repeat split; auto.
Qed.

Section Proofs.

Context {host : Host}.

(** ** The builder's lists *)

Lemma files_mutate (ms : list mutation) (self : PackageBuilder) :
  files (fold_left mutate ms self) = files self ++ recorded ms.
Proof.
  revert self. induction ms as [|m ms IH]; intros self; simpl.
  - now rewrite app_nil_r.
  - rewrite IH. destruct m as [a [|]|r c]; simpl; now rewrite <- ?app_assoc.
Qed.

Lemma has_prefix_files_mutate (ms : list mutation) (self : PackageBuilder) :
  has_prefix_files (fold_left mutate ms self) = has_prefix_files self ++ flagged ms.
Proof.
  revert self. induction ms as [|m ms IH]; intros self; simpl.
  - now rewrite app_nil_r.
  - rewrite IH. destruct m as [a [|]|r c]; simpl; now rewrite <- ?app_assoc.
Qed.

(** C6. However the builder's lists were filled, the text written to
    [info/has_prefix] has one line [<PREFIX> text <path>] for each call of
    [record_file] made with the placeholder flag, path as given and in call
    order, and nothing for any other call. *)
Theorem has_prefix_list_is_flagged_entries
    (wc : WheelContents) (version : string) (p : Platform) (b : string)
    (ms : list mutation) (tf : TarFile) :
  let self := fold_left mutate ms (PackageBuilder_init wc version p b) in
  let lines := map (fun path => PREFIX +:+ " text " +:+ path) (flagged ms) in
  let contents := utf8_encode (Str.join LF lines) in
  has_prefix_lines self = lines
  /\ write_has_prefix_list (self, tf)
     = ((self, tarfile.addfile tf (reg_info "info/has_prefix" contents) contents), inr tt).
Proof.
  intros self lines contents.
  assert (Hl : has_prefix_lines self = lines).
  { unfold has_prefix_lines, self. now rewrite has_prefix_files_mutate. }
  split; [exact Hl|].
  unfold write_has_prefix_list, add_contents, update. now rewrite Hl.
Qed.

(** ** The index record *)

Lemma replace_dot_remove_dots (s : string) :
  Str.replace s "." "" = remove_dots s.
Proof.
  unfold remove_dots. induction s as [|a s IH]; simpl; [reflexivity|].
  destruct (Ascii.eqb a "."); simpl; now rewrite IH.
Qed.

Lemma remove_dots_no_dot (s : string) : Str.count (remove_dots s) "." = 0.
Proof.
  unfold remove_dots. induction s as [|a s IH]; simpl; [reflexivity|].
  destruct (Ascii.eqb a ".") eqn:E; simpl; [exact IH|]. now rewrite E, IH.
Qed.

(** C5. For a builder with build number 0 and a wheel whose metadata has a
    name and a version, [write_index] adds [info/index.json] holding the
    dump of a record with: arch [x86_64] for bitness 64 and [x86]
    otherwise; build [py], the version without its dots, [_0]; depends
    the one entry [python <version>*]; license [UNKNOWN]; name and version
    as in the metadata; platform the platform's name; subdir
    [<platform>-<bitness>].  The dump lists the members by ascending key. *)
Theorem write_index_record
    (self : PackageBuilder) (tf : TarFile) (name version : string) :
  build_no self = 0 ->
  getitem0 (metadata (wheel_contents self)) "Name" = inr name ->
  getitem0 (metadata (wheel_contents self)) "Version" = inr version ->
  let arch := if String.eqb (bitness self) "64" then "x86_64" else "x86" in
  let build := "py" +:+ remove_dots (python_version self) +:+ "_0" in
  let depends := "python " +:+ python_version self +:+ "*" in
  let platform_name := Platform_.name (platform self) in
  let subdir := platform_name +:+ "-" +:+ bitness self in
  exists ix,
    index_dict self = inr ix
    /\ Json.get ix "arch" = Some (JStr arch)
    /\ Json.get ix "build" = Some (JStr build)
    /\ Json.get ix "depends" = Some (JList [JStr depends])
    /\ Json.get ix "name" = Some (JStr name)
    /\ Json.get ix "version" = Some (JStr version)
    /\ Json.get ix "license" = Some (JStr "UNKNOWN")
    /\ Json.get ix "platform" = Some (JStr platform_name)
    /\ Json.get ix "subdir" = Some (JStr subdir)
    /\ Json.dumps ix
       = "{" +:+ LF
         +:+ Str.join ("," +:+ LF)
               [member_line "arch" (Json.encode_str arch);
                member_line "build" (Json.encode_str build);
                member_line "build_number" "0";
                member_line "depends"
                  ("[" +:+ LF +:+ "    " +:+ Json.encode_str depends +:+ LF +:+ "  ]");
                member_line "license" (Json.encode_str "UNKNOWN");
                member_line "name" (Json.encode_str name);
                member_line "platform" (Json.encode_str platform_name);
                member_line "subdir" (Json.encode_str subdir);
                member_line "version" (Json.encode_str version)]
         +:+ LF +:+ "}"
    /\ write_index (self, tf)
       = ((self, tarfile.addfile tf
                   (reg_info "info/index.json" (utf8_encode (Json.dumps ix)))
                   (utf8_encode (Json.dumps ix))), inr tt).
Proof.
  intros Hno Hname Hversion arch build depends platform_name subdir.
  eexists. split.
  { unfold index_dict. rewrite Hname, Hversion. cbn [bind_result].
    rewrite Hno, replace_dot_remove_dots. reflexivity. }
  repeat split.
  unfold write_index, index_dict, bind, lift.
  rewrite Hname, Hversion. cbn [bind_result].
  rewrite Hno, replace_dot_remove_dots. reflexivity.
Qed.

(** ** Frames *)

Lemma same_config_refl (self : PackageBuilder) : same_config self self.
Proof. repeat split. Qed.

Lemma frame_refl (s : state) : frame s s.
Proof. split; [apply same_config_refl|reflexivity]. Qed.

Lemma frame_trans (s1 s2 s3 : state) : frame s1 s2 -> frame s2 s3 -> frame s1 s3.
Proof.
  unfold frame, same_config.
  intros ((? & ? & ? & ? & ?) & ?) ((? & ? & ? & ? & ?) & ?).
  repeat split; congruence.
Qed.

Lemma framed_ret {A} (a : A) : framed (ret a).
Proof. intros s. apply frame_refl. Qed.

Lemma framed_raise {A} (e : exn) : framed (@raise state A e).
Proof. intros s. apply frame_refl. Qed.

Lemma framed_lift {A} (r : result A) : framed (lift r).
Proof. intros s. apply frame_refl. Qed.

Lemma framed_bind {A B} (m : M state A) (k : A -> M state B) :
  framed m -> (forall a, framed (k a)) -> framed (bind m k).
Proof.
  intros Hm Hk s. unfold bind. specialize (Hm s).
  destruct (m s) as [s' [e|a]]; [exact Hm|].
  eapply frame_trans; [exact Hm|apply Hk].
Qed.

Lemma framed_update (f : state -> state) :
  (forall s, frame s (f s)) -> framed (update f).
Proof. intros Hf s. apply Hf. Qed.

Lemma framed_for_each {A} (l : list A) (body : A -> M state unit) :
  (forall x, framed (body x)) -> framed (for_each l body).
Proof.
  intros Hb. induction l as [|x l IH]; simpl.
  - apply framed_ret.
  - apply framed_bind; [apply Hb|intros _; exact IH].
Qed.

Lemma same_config_mutate (ms : list mutation) (self : PackageBuilder) :
  same_config self (fold_left mutate ms self).
Proof.
  revert self. induction ms as [|m ms IH]; intros self; simpl.
  - apply same_config_refl.
  - specialize (IH (mutate self m)).
    assert (same_config self (mutate self m)) as H.
    { destruct m as [a [|]|r c]; repeat split. }
    unfold same_config in *.
    destruct H as (? & ? & ? & ? & ?), IH as (? & ? & ? & ? & ?).
    repeat split; congruence.
Qed.

(** ** Launcher scripts *)

Lemma write_script_unix_eq (name contents : string) (self : PackageBuilder) (tf : TarFile) :
  let path := scripts_path self +:+ name in
  let b := utf8_encode contents in
  _write_script_unix name contents (self, tf)
  = (fold_left mutate [Record_file path true; Py_record_file path b] self,
     tarfile.addfile tf (reg_info path b) b).
Proof. reflexivity. Qed.

Lemma lstrip_scripts_path (self : PackageBuilder) (rest : string) :
  Str.lstrip (scripts_path self +:+ rest) "/" = scripts_path self +:+ rest.
Proof. unfold scripts_path. destruct (platform self); reflexivity. Qed.

Lemma write_script_windows_eq (name contents : string) (self : PackageBuilder) (tf : TarFile) :
  let script := scripts_path self +:+ name +:+ "-script.py" in
  let b := utf8_encode contents in
  let exe := find_exe (if String.eqb (bitness self) "64" then "x64" else "x86") in
  let dst := scripts_path self +:+ name +:+ ".exe" in
  _write_script_windows name contents (self, tf)
  = (fold_left mutate
       [Record_file script true; Py_record_file script b;
        Record_file dst false; Py_record_file dst exe] self,
     tarfile.addfile (tarfile.addfile tf (reg_info script b) b) (reg_info dst exe) exe).
Proof.
  intros script b exe dst. unfold _write_script_windows.
  rewrite write_script_unix_eq. cbv zeta.
  set (self1 := fold_left mutate _ self).
  assert (Hs : scripts_path self1 = scripts_path self) by reflexivity.
  assert (Hb : bitness self1 = bitness self) by reflexivity.
  rewrite Hs, Hb. unfold tarfile.add, tarfile.addfile; simpl.
  now rewrite lstrip_scripts_path.
Qed.

Lemma create_script_ok (name ep : string) (st : state) :
  Str.count ep ":" = 1 ->
  exists mod_ func,
    ep = mod_ +:+ ":" +:+ func
    /\ Str.count mod_ ":" = 0 /\ Str.count func ":" = 0
    /\ create_script name ep st
       = (let s := script_template (PREFIX +:+ "/bin/python") mod_ func in
          if Platform_.eqb (platform (fst st)) win
          then _write_script_windows name s st
          else _write_script_unix name s st, inr tt).
Proof.
  intros H. destruct (split_one_sep ep ":" H) as (a & b & Hs & He & Ha & Hb).
  exists a, b. repeat split; auto.
  unfold create_script. rewrite H, Hs. reflexivity.
Qed.

Lemma create_script_malformed (name ep : string) (st : state) :
  malformed ep ->
  create_script name ep st = (st, inl (ValueError ("Bad entry point: " +:+ repr ep))).
Proof.
  intros H. unfold create_script.
  destruct (Nat.eqb_spec (Str.count ep ":") 1) as [E|_]; [contradiction|reflexivity].
Qed.

Lemma rstrip_by_last (p : ascii -> bool) (s : string) (a : ascii) :
  last_char (Str.rstrip_by p s) = Some a -> p a = false.
Proof.
  induction s as [|x s IH]; simpl; [discriminate|].
  destruct (Str.rstrip_by p s) as [|y r] eqn:E.
  - destruct (p x) eqn:Hx; simpl; [discriminate|]. intros [= <-]. exact Hx.
  - intros H. apply IH. exact H.
Qed.

(** The digest text of a RECORD row carries no padding. *)
Lemma digest_unpadded (b : bytes) :
  last_char (Str.rstrip (base64.urlsafe_b64encode (sha256_digest b)) "=") <> Some "="%char.
Proof.
  intros H. apply rstrip_by_last in H. now rewrite Ascii.eqb_refl in H.
Qed.

Lemma extract_addfile (tf : TarFile) (ti : TarInfo) (c : bytes) :
  tarfile.extract (tarfile.addfile tf ti c) (ti_name ti) = Some c.
Proof.
  unfold tarfile.extract, tarfile.addfile. cbn [members].
  rewrite rev_unit. cbn [List.filter fst]. now rewrite String.eqb_refl.
Qed.

Lemma extract_addfile_other (tf : TarFile) (ti : TarInfo) (c : bytes) (name : string) :
  ti_name ti <> name ->
  tarfile.extract (tarfile.addfile tf ti c) name = tarfile.extract tf name.
Proof.
  intros H. unfold tarfile.extract, tarfile.addfile. cbn [members].
  rewrite rev_unit. cbn [List.filter fst].
  now destruct (String.eqb_spec (ti_name ti) name).
Qed.

Lemma script_exe_differ (p name : string) :
  p +:+ name +:+ "-script.py" <> p +:+ name +:+ ".exe".
Proof.
  intros H. apply (f_equal last_char) in H.
  rewrite <- !append_assoc in H. rewrite !last_char_app in H; discriminate.
Qed.

(** C10. An entry-point value with exactly one colon is accepted whatever
    stands on either side of it, the empty text included: [create_script]
    returns without raising, the value is the module text, the colon, the
    function text, and the archive then holds under the script's name the
    template filled with these two texts. *)
Theorem one_colon_entry_point_makes_script (name ep : string) (st : state) :
  Str.count ep ":" = 1 ->
  exists mod_ func st',
    ep = mod_ +:+ ":" +:+ func
    /\ create_script name ep st = (st', inr tt)
    /\ tarfile.extract (snd st') (script_name (fst st) name)
       = Some (utf8_encode (script_template (PREFIX +:+ "/bin/python") mod_ func)).
Proof.
  intros H. destruct (create_script_ok name ep st H) as (a & b & He & _ & _ & Hc).
  exists a, b. eexists. split; [exact He|]. split; [exact Hc|].
  destruct st as [self tf]. cbn [fst snd]. unfold script_name.
  destruct (platform self) eqn:Hp; cbn [Platform_.eqb].
  - rewrite write_script_unix_eq. cbn [snd]. unfold scripts_path. rewrite Hp.
    apply (extract_addfile tf (reg_info _ _)).
  - rewrite write_script_unix_eq. cbn [snd]. unfold scripts_path. rewrite Hp.
    apply (extract_addfile tf (reg_info _ _)).
  - rewrite write_script_windows_eq. cbn [snd]. unfold scripts_path. rewrite Hp.
    rewrite extract_addfile_other.
    + apply (extract_addfile tf (reg_info _ _)).
    + cbn [ti_name reg_info]. intros E. symmetry in E. revert E.
      apply script_exe_differ.
Qed.

Lemma fold_left_flat_map {A B C} (f : A -> C -> A) (g : B -> list C)
    (l : list B) (a : A) :
  fold_left f (flat_map g l) a = fold_left (fun a x => fold_left f (g x) a) l a.
Proof.
  revert a. induction l as [|x l IH]; intros a; simpl; [reflexivity|].
  now rewrite fold_left_app, IH.
Qed.

Lemma fold_left_map {A B C} (f : A -> C -> A) (g : B -> C) (l : list B) (a : A) :
  fold_left f (map g l) a = fold_left (fun a x => f a (g x)) l a.
Proof. revert a. induction l as [|x l IH]; intros a; simpl; auto. Qed.

Lemma fold_left_ext {A B} (f g : A -> B -> A) (l : list B) (a : A) :
  (forall a x, f a x = g a x) -> fold_left f l a = fold_left g l a.
Proof.
  intros H. revert a. induction l as [|x l IH]; intros a; simpl; [reflexivity|].
  now rewrite H, IH.
Qed.

Lemma frame_mutate_addfile (ms : list mutation) (self : PackageBuilder)
    (tf tf' : TarFile) :
  end_of_archive tf' = end_of_archive tf ->
  frame (self, tf) (fold_left mutate ms self, tf').
Proof. intros H. split; [apply same_config_mutate|exact H]. Qed.

Lemma record_file_or_dir_eq (arcname : string) (src : entry) (self : PackageBuilder) :
  record_file_or_dir arcname src self
  = fold_left mutate
      (map (fun p => Record_file p false) (recorded_paths arcname src)) self.
Proof.
  unfold record_file_or_dir, recorded_paths.
  destruct (Path.is_dir src); [|reflexivity].
  rewrite fold_left_map, fold_left_flat_map.
  apply fold_left_ext. intros a [rel fns]. now rewrite fold_left_map.
Qed.

Lemma frame_record_add (arcname arc : string) (src : entry)
    (filter : TarInfo -> option TarInfo) (self : PackageBuilder) (tf : TarFile) :
  frame (self, tf)
    (record_file_or_dir arcname src self, tarfile.add tf filter (snd src) arc).
Proof. rewrite record_file_or_dir_eq. now apply frame_mutate_addfile. Qed.

Lemma framed_add_data_dir (src : entry) : framed (_add_data_dir src).
Proof.
  unfold _add_data_dir. apply framed_bind; [apply framed_lift|].
  intros ds. apply framed_for_each. intros x.
  destruct (String.eqb (Path.name x) "data"); [|apply framed_raise].
  apply framed_bind; [apply framed_lift|]. intros fs.
  apply framed_for_each. intros f. apply framed_update.
  intros [self tf]. apply frame_record_add.
Qed.

Lemma framed_add_module : framed add_module.
Proof.
  intros [self tf]. unfold add_module.
  apply framed_for_each. intros src.
  destruct (Str.endswith (Path.name src) ".data"); [apply framed_add_data_dir|].
  destruct (Str.endswith (Path.name src) ".dist-info");
    apply framed_update; intros [self0 tf0]; apply frame_record_add.
Qed.


Lemma framed_create_script (name ep : string) : framed (create_script name ep).
Proof.
  intros [self tf]. unfold create_script.
  destruct (negb (Nat.eqb (Str.count ep ":") 1)); [apply frame_refl|].
  destruct (Str.split ep ":") as [|a [|b [|? ?]]]; try apply frame_refl.
  unfold update. cbn [fst].
  destruct (Platform_.eqb (platform self) win).
  - rewrite write_script_windows_eq. now apply frame_mutate_addfile.
  - rewrite write_script_unix_eq. now apply frame_mutate_addfile.
Qed.

(** C9. On a windows target a well-formed console entry point [name]
    adds two members to the archive: the script as
    [Scripts/<name>-script.py], and [Scripts/<name>.exe] whose bytes are
    those of the launcher stub for [x64] when the bitness is 64 and for
    [x86] otherwise.  Both paths are recorded, only the script's with the
    placeholder flag.  The binary's RECORD row holds [sha256=] followed by
    the URL-safe base64 text, without padding, of the SHA-256 digest of the
    stub's bytes, and their length; it is written with the path
    [../../Scripts/<name>.exe]. *)
Theorem windows_launcher_artifacts
    (name ep : string) (self : PackageBuilder) (tf : TarFile) :
  platform self = win ->
  Str.count ep ":" = 1 ->
  let stub := find_exe (if String.eqb (bitness self) "64" then "x64" else "x86") in
  let script := "Scripts/" +:+ name +:+ "-script.py" in
  let exe := "Scripts/" +:+ name +:+ ".exe" in
  let digest := Str.rstrip (base64.urlsafe_b64encode (sha256_digest stub)) "=" in
  let row := (exe, "sha256=" +:+ digest, String.length stub) in
  exists self' tf' text script_row,
    create_script name ep (self, tf) = ((self', tf'), inr tt)
    /\ members tf'
       = members tf ++ [(reg_info script text, text); (reg_info exe stub, stub)]
    /\ files self' = files self ++ [script; exe]
    /\ has_prefix_files self' = has_prefix_files self ++ [script]
    /\ script <> exe
    /\ py_record_extra self' = py_record_extra self ++ [script_row; row]
    /\ extra_row (prefix_from_site_pkgs self') row
       = ["../../" +:+ exe; "sha256=" +:+ digest; Str.of_nat (String.length stub)]
    /\ last_char digest <> Some "="%char.
Proof.
  intros Hwin Hone stub script exe digest row.
  destruct (create_script_ok name ep (self, tf) Hone) as (a & b & _ & _ & _ & Hc).
  cbn [fst] in Hc. rewrite Hwin in Hc. cbn [Platform_.eqb] in Hc.
  rewrite write_script_windows_eq in Hc. cbv zeta in Hc.
  unfold scripts_path in Hc. rewrite Hwin in Hc.
  do 4 eexists. split; [exact Hc|].
  repeat apply conj.
  - cbn [tarfile.addfile members]. now rewrite <- app_assoc.
  - rewrite files_mutate. reflexivity.
  - rewrite has_prefix_files_mutate. reflexivity.
  - apply script_exe_differ.
  - cbn. now rewrite <- app_assoc.
  - unfold prefix_from_site_pkgs.
    rewrite (proj1 (proj2 (proj2 (same_config_mutate _ self)))), Hwin.
    reflexivity.
  - apply digest_unpadded.
Qed.

(** ** The RECORD *)

Lemma rewrite_rows_empty_row (prefix : string) (rows : list (list string)) :
  In [] rows -> rewrite_rows prefix rows = inl IndexError.
Proof.
  induction rows as [|row rows IH]; [intros []|].
  intros [->|H]; [reflexivity|].
  cbn [rewrite_rows]. rewrite (IH H).
  destruct row as [|p cols]; [reflexivity|].
  unfold rewrite_row. now destruct (_ && _).
Qed.

Lemma join_step_plain (path b : string) :
  path <> "" -> Str.endswith path "/" = false -> Str.startswith b "/" = false ->
  posixpath.join_step path b = path +:+ "/" +:+ b.
Proof.
  intros Hp He Hb. unfold posixpath.join_step. rewrite Hb, He.
  destruct (String.eqb_spec path ""); [contradiction|reflexivity].
Qed.

Lemma startswith_slash_count (b : string) :
  Str.count b "/" = 0 -> Str.startswith b "/" = false.
Proof.
  destruct b as [|a b]; [reflexivity|].
  unfold Str.startswith. cbn [Str.count String.prefix].
  destruct (Ascii.eqb_spec a "/") as [->|Hne]; [discriminate|].
  intros _. destruct (ascii_dec "/" a) as [E|_]; [now subst|reflexivity].
Qed.

Lemma endswith_slash_app (p seg : string) :
  seg <> "" -> Str.count seg "/" = 0 -> Str.endswith (p +:+ seg) "/" = false.
Proof.
  intros Hne Hc. destruct (Str.endswith (p +:+ seg) "/") eqn:E; [|reflexivity].
  apply endswith_last_char in E; [|discriminate].
  rewrite last_char_app in E by assumption.
  exfalso. clear p. induction seg as [|a seg IH]; [contradiction|].
  cbn [Str.count] in Hc.
  destruct (Ascii.eqb_spec a "/") as [->|Ha]; [discriminate|].
  destruct seg as [|a' seg']; [cbn in E; congruence|].
  apply IH; [discriminate|exact Hc|exact E].
Qed.

(** Joining segments that hold no slash and are not empty puts one slash
    before each. *)
Lemma join_segments (path : string) (segs : list string) :
  path <> "" -> Str.endswith path "/" = false ->
  Forall (fun seg => seg <> "" /\ Str.count seg "/" = 0) segs ->
  posixpath.join path segs
  = path +:+ Str.join "" (map (fun seg => "/" +:+ seg) segs).
Proof.
  intros Hp He Hsegs. revert path Hp He.
  induction Hsegs as [|seg segs [Hne Hc] _ IH]; intros path Hp He.
  - cbn. now rewrite append_nil_r.
  - cbn [posixpath.join fold_left map]. fold (posixpath.join (posixpath.join_step path seg) segs).
    rewrite join_step_plain by auto using startswith_slash_count.
    rewrite IH.
    + unfold Str.join. cbn [String.concat].
      destruct (map _ segs) eqn:E.
      * cbn. now rewrite !append_nil_r.
      * rewrite <- E. cbn. now rewrite !append_assoc.
    + destruct path; [contradiction|discriminate].
    + change (path +:+ "/" +:+ seg) with (path +:+ ("/" +:+ seg)).
      rewrite <- append_assoc. now apply endswith_slash_app.
Qed.

Lemma rewrite_row_rerooted (prefix : string) (row : list string) :
  row <> [] -> rewrite_row prefix row = inr (rerooted_row prefix row).
Proof.
  destruct row as [|path cols]; [contradiction|]. intros _.
  unfold rewrite_row, rerooted_row, data_row_parts.
  destruct (Str.split path "/") as [|a [|b [|c rest]]]; try reflexivity.
  change ((2 <? length (a :: b :: c :: rest))%nat) with true.
  cbn [nth skipn andb]. now destruct (_ && _).
Qed.

Lemma rewrite_rows_rerooted (prefix : string) (rows : list (list string)) :
  Forall (fun row => row <> []) rows ->
  rewrite_rows prefix rows = inr (map (rerooted_row prefix) rows).
Proof.
  induction 1 as [|row rows Hrow _ IH]; [reflexivity|].
  cbn [rewrite_rows map]. now rewrite IH, rewrite_row_rerooted.
Qed.

Lemma concat_prefixed (sep : string) (l : list string) :
  l <> [] ->
  Str.join "" (map (fun seg => sep +:+ seg) l) = sep +:+ Str.join sep l.
Proof.
  unfold Str.join. induction l as [|x l IH]; [contradiction|]. intros _.
  destruct l as [|y l]; [reflexivity|].
  cbn [map String.concat] in *. rewrite IH by discriminate.
  now rewrite !append_assoc.
Qed.

Lemma split_app_sep' (a b : string) (c : ascii) :
  Str.split (a +:+ String c "" +:+ b) c = Str.split a c ++ Str.split b c.
Proof. apply split_app_sep. Qed.

(** A path lies in the data subdirectory exactly when it reads
    [<first>/data/<rest>] with [first] a single segment ending in
    [.data]. *)
Lemma data_row_parts_iff (path : string) (segs : list string) :
  data_row_parts path = Some segs <->
  exists first rest,
    path = first +:+ "/data/" +:+ rest
    /\ Str.count first "/" = 0 /\ Str.endswith first ".data" = true
    /\ segs = Str.split rest "/".
Proof.
  unfold data_row_parts. split.
  - pose proof (join_split path "/") as Hj.
    pose proof (split_segments_no_sep path "/") as Hs.
    destruct (Str.split path "/") as [|a [|b [|c rest]]]; try discriminate.
    destruct (Str.endswith a ".data") eqn:Ha; [|discriminate].
    destruct (String.eqb_spec b "data") as [->|]; [|discriminate].
    intros [= <-]. exists a, (Str.join "/" (c :: rest)).
    pose proof (Forall_inv Hs) as Hca. cbv beta in Hca.
    pose proof (Forall_inv_tail (Forall_inv_tail Hs)) as Hs''.
    repeat split; auto.
    clear Hj Ha Hs Hca. revert c Hs''.
    induction rest as [|x rest IH]; intros c Hs.
    + symmetry. apply split_no_sep. exact (Forall_inv Hs).
    + unfold Str.join. cbn [String.concat].
      rewrite split_app_sep', (split_no_sep c) by exact (Forall_inv Hs).
      cbn [app]. f_equal. apply IH. exact (Forall_inv_tail Hs).
  - intros (first & rest & -> & Hc & He & ->).
    change (first +:+ "/data/" +:+ rest) with (first +:+ String "/" ("data" +:+ String "/" rest)).
    rewrite split_app_sep, (split_no_sep first) by assumption.
    rewrite split_app_sep. cbn [app Str.split Ascii.eqb Bool.eqb].
    destruct (Str.split rest "/") as [|c r] eqn:E; [now apply split_not_nil in E|].
    now rewrite He.
Qed.

Lemma rerooted_data_row (prefix first rest : string) (cols : list string) :
  prefix <> "" -> Str.endswith prefix "/" = false ->
  Str.count first "/" = 0 -> Str.endswith first ".data" = true ->
  Forall (fun seg => seg <> "") (Str.split rest "/") ->
  rerooted_row prefix ((first +:+ "/data/" +:+ rest) :: cols)
  = (prefix +:+ "/" +:+ rest) :: cols.
Proof.
  intros Hp He Hc Hd Hne. unfold rerooted_row.
  rewrite (proj2 (data_row_parts_iff _ (Str.split rest "/")))
    by (exists first, rest; auto).
  f_equal. rewrite join_segments; auto.
  - rewrite concat_prefixed by apply split_not_nil. now rewrite join_split.
  - pose proof (split_segments_no_sep rest "/") as Hs.
    rewrite Forall_forall in *. intros seg Hin. split; auto.
Qed.

(** C3. When the wheel's RECORD reads as rows that each have a path
    column, [write_pep376_record] raises nothing and stores, under the
    dist-info directory's [RECORD] name, the rows of the wheel's RECORD in
    order, each re-rooted, followed by one row for every launcher row the
    builder holds.  Re-rooting changes only the path column and only for a
    path [<first>/data/<rest>] whose first segment ends in [.data]: it
    becomes [<prefix>/<rest>] (for a [rest] without empty segments), with
    prefix [../..] on windows and [../../..] elsewhere.  A launcher row
    carries the same prefix joined to its path under the scripts root. *)
Theorem installed_record_rows
    (self : PackageBuilder) (tf : TarFile) (d : entry) (b : bytes) :
  find_dist_info (wheel_contents self) = inr d ->
  Path.open_child d "RECORD" = inr b ->
  Forall (fun row => row <> []) (csv_reader (open_text b)) ->
  let prefix := match platform self with win => "../.." | _ => "../../.." end in
  let rows := map (rerooted_row prefix) (csv_reader (open_text b))
              ++ map (extra_row prefix) (py_record_extra self) in
  let contents := utf8_encode (Str.join "" (map csv_writerow rows)) in
  let record_path := site_packages_path self +:+ Path.name d +:+ "/RECORD" in
  installed_rows self = inr rows
  /\ write_pep376_record (self, tf)
     = ((self, tarfile.addfile tf (reg_info record_path contents) contents), inr tt)
  /\ (forall first rest cols,
         Str.count first "/" = 0 -> Str.endswith first ".data" = true ->
         Forall (fun seg => seg <> "") (Str.split rest "/") ->
         rerooted_row prefix ((first +:+ "/data/" +:+ rest) :: cols)
         = (prefix +:+ "/" +:+ rest) :: cols)
  /\ (forall path cols,
         ~ (exists first rest,
               path = first +:+ "/data/" +:+ rest
               /\ Str.count first "/" = 0 /\ Str.endswith first ".data" = true) ->
         rerooted_row prefix (path :: cols) = path :: cols)
  /\ (forall name hash size,
         extra_row prefix (scripts_path self +:+ name, hash, size)
         = [prefix +:+ "/" +:+ scripts_path self +:+ name; hash; Str.of_nat size]).
Proof.
  intros Hd Hopen Hrows prefix rows contents record_path.
  assert (Hpre : prefix_from_site_pkgs self = prefix) by reflexivity.
  assert (Hinst : installed_rows self = inr rows).
  { unfold installed_rows. rewrite Hd. cbn [bind_result]. rewrite Hopen.
    cbn [bind_result]. rewrite rewrite_rows_rerooted by assumption.
    cbn [bind_result]. now rewrite Hpre. }
  repeat apply conj.
  - exact Hinst.
  - unfold write_pep376_record. unfold bind at 1, lift at 1. rewrite Hinst.
    unfold bind at 1, lift at 1. rewrite Hd. reflexivity.
  - intros first rest cols Hc He Hne.
    apply rerooted_data_row; auto; unfold prefix; now destruct (platform self).
  - intros path cols Hno. unfold rerooted_row.
    destruct (data_row_parts path) as [segs|] eqn:E; [|reflexivity].
    exfalso. apply Hno. apply data_row_parts_iff in E.
    destruct E as (first & rest & ? & ? & ? & _). now exists first, rest.
  - intros name hash size. unfold extra_row, prefix, scripts_path.
    now destruct (platform self).
Qed.

(** ** Reading the wheel *)

(** C4. With the candidates 3.5, 3.4, 2.7: a [Requires-Python] value that
    starts with [3], [>3] or [>=3] gives 3.5 then 3.4; without a
    [Requires-Python] field, tags that are neither all [py3] nor all [py2]
    give all three candidates in their fixed order. *)
Theorem filter_compatible_pythons_cases (wc : WheelContents) :
  (forall rp rest,
      metadata wc !! "Requires-Python" = Some (rp :: rest) ->
      requires_3_or_newer rp ->
      filter_compatible_pythons wc = inr ["3.5"; "3.4"])
  /\ (forall d wheel_metadata tags,
         metadata wc !! "Requires-Python" = None ->
         find_dist_info wc = inr d ->
         _read_metadata d "WHEEL" = inr wheel_metadata ->
         wheel_metadata !! "Tag" = Some tags ->
         mixed_or_unrecognized tags ->
         filter_compatible_pythons wc = inr ["3.5"; "3.4"; "2.7"]).
Proof.
  split.
  - intros rp rest Hrp H3. unfold filter_compatible_pythons, getitem0.
    rewrite Hrp. cbn [bind_result].
    assert (Str.startswith_any rp ["3"; ">3"; ">=3"] = true) as ->.
    { unfold Str.startswith_any. cbn [existsb].
      destruct H3 as [ -> | [ -> | -> ] ]; now rewrite ?orb_true_r. }
    reflexivity.
  - intros d wm tags Hrp Hd Hwm Htag [H3 H2].
    unfold filter_compatible_pythons. rewrite Hrp, Hd. cbn [bind_result].
    rewrite Hwm. cbn [bind_result]. rewrite Htag.
    rewrite !bool_decide_eq_false_2 by assumption. reflexivity.
Qed.

Lemma init_unpacked (tree : list entry) (wc : WheelContents) :
  WheelContents_init tree = inr wc -> unpacked wc = tree.
Proof.
  unfold WheelContents_init. destruct (find_dist_info_in tree); [discriminate|].
  cbn [bind_result]. destruct (_read_metadata _ _); [discriminate|].
  now intros [= <-].
Qed.

(** C8. [main] runs [check] before its loop over the targets.  For a wheel
    that passes the structural part of [check], a declared [Wheel-Version]
    other than [1.0], or a declared [Root-Is-Purelib] that is not [true]
    in any letter case, makes [main] end with an unsupported-format
    refusal and leaves the working directory as it was: no directory made,
    no file written, no line printed. *)
Theorem unsupported_format_before_any_build
    (tree : list entry) (wc : WheelContents) (d : entry)
    (data_dir : option entry) (wheel_metadata : metadata_dict) (cwd : Cwd) :
  WheelContents_init tree = inr wc ->
  check_entries tree None None = inr (Some d, data_dir) ->
  _read_metadata d "WHEEL" = inr wheel_metadata ->
  (forall v,
      getitem0 wheel_metadata "Wheel-Version" = inr v -> v <> "1.0" ->
      main tree cwd
      = (cwd, inl (BadWheelError "wheel2conda only knows about wheel format 1.0")))
  /\ (forall v purelib,
         getitem0 wheel_metadata "Wheel-Version" = inr v ->
         getitem0 wheel_metadata "Root-Is-Purelib" = inr purelib ->
         Str.lower purelib <> "true" ->
         exists e, main tree cwd = (cwd, inl e) /\ UnsupportedFormat e).
Proof.
  intros Hinit Hentries Hwm.
  assert (Hmain : forall e, check wc = inl e -> main tree cwd = (cwd, inl e)).
  { intros e He. unfold main. unfold bind at 1, lift at 1. rewrite Hinit.
    unfold bind at 1, lift at 1. now rewrite He. }
  assert (Hcheck : check wc
    = bind_result (getitem0 wheel_metadata "Wheel-Version") (fun wheel_version =>
        if negb (String.eqb wheel_version "1.0") then
          inl (BadWheelError "wheel2conda only knows about wheel format 1.0")
        else
          bind_result (getitem0 wheel_metadata "Root-Is-Purelib") (fun purelib =>
            if negb (String.eqb (Str.lower purelib) "true") then
              inl (BadWheelError "Can't currently autoconvert packages with platlib")
            else check_fields ["Name"; "Version"] (metadata wc)))).
  { unfold check. rewrite (init_unpacked _ _ Hinit), Hentries.
    cbn [bind_result fst]. now rewrite Hwm. }
  split.
  - intros v Hv Hne. apply Hmain. rewrite Hcheck, Hv. cbn [bind_result].
    now destruct (String.eqb_spec v "1.0").
  - intros v purelib Hv Hp Hne.
    destruct (String.eqb_spec v "1.0") as [->|Hv1].
    + eexists. split; [apply Hmain|right; reflexivity].
      rewrite Hcheck, Hv. cbn [bind_result]. rewrite Hp. cbn [bind_result].
      now destruct (String.eqb_spec (Str.lower purelib) "true").
    + eexists. split; [apply Hmain|left; reflexivity].
      rewrite Hcheck, Hv. cbn [bind_result].
      now destruct (String.eqb_spec v "1.0").
Qed.

(** ** Paths *)

Lemma wf_name_seg_ok (n : string) : wf_name n = true <-> seg_ok n.
Proof.
  unfold wf_name, seg_ok.
  rewrite !andb_true_iff, !negb_true_iff, !String.eqb_neq, Nat.eqb_eq. tauto.
Qed.

Lemma path_of_cons (a : string) (segs : list string) :
  segs <> [] -> path_of (a :: segs) = a +:+ "/" +:+ path_of segs.
Proof. destruct segs; [contradiction|reflexivity]. Qed.

Lemma path_of_snoc (segs : list string) (f : string) :
  segs <> [] -> path_of (segs ++ [f]) = path_of segs +:+ "/" +:+ f.
Proof.
  induction segs as [|a segs IH]; [contradiction|]. intros _.
  destruct segs as [|b segs]; [reflexivity|].
  change ((a :: b :: segs) ++ [f]) with (a :: ((b :: segs) ++ [f])).
  rewrite path_of_cons by (cbn; discriminate).
  rewrite IH by discriminate. rewrite (path_of_cons a (b :: segs)) by discriminate.
  now rewrite !append_assoc.
Qed.

Lemma path_of_app (a b : list string) :
  a <> [] -> b <> [] -> path_of (a ++ b) = path_of a +:+ "/" +:+ path_of b.
Proof.
  intros Ha Hb. induction a as [|x a IH]; [contradiction|].
  destruct a as [|y a].
  - cbn [app]. now apply path_of_cons.
  - change ((x :: y :: a) ++ b) with (x :: ((y :: a) ++ b)).
    rewrite path_of_cons by (cbn; discriminate). rewrite IH by discriminate.
    rewrite (path_of_cons x (y :: a)) by discriminate. now rewrite !append_assoc.
Qed.

Lemma split_path_of (segs : list string) :
  segs <> [] -> Forall (fun s => Str.count s "/" = 0) segs ->
  Str.split (path_of segs) "/" = segs.
Proof.
  induction segs as [|a segs IH]; [contradiction|]. intros _ H.
  pose proof (Forall_inv H) as Ha. pose proof (Forall_inv_tail H) as Ht.
  destruct segs as [|b segs].
  - now apply split_no_sep.
  - rewrite path_of_cons by discriminate.
    rewrite split_app_sep', (split_no_sep a) by assumption.
    cbn [app]. f_equal. now apply IH.
Qed.

Lemma path_of_not_empty (segs : list string) :
  segs <> [] -> hd "" segs <> "" -> path_of segs <> "".
Proof.
  destruct segs as [|a segs]; [contradiction|]. cbn [hd]. intros _ Ha.
  destruct segs; [exact Ha|]. rewrite path_of_cons by discriminate.
  destruct a; [contradiction|discriminate].
Qed.

Lemma path_of_no_leading_slash (segs : list string) :
  seg_ok (hd "" segs) -> Str.startswith (path_of segs) "/" = false.
Proof.
  destruct segs as [|a segs]; [reflexivity|]. cbn [hd]. intros (Hne & _ & _ & Hc).
  assert (Str.startswith a "/" = false) as Ha by now apply startswith_slash_count.
  destruct a as [|x a]; [contradiction|].
  destruct segs; [exact Ha|]. rewrite path_of_cons by discriminate.
  unfold Str.startswith in *. cbn [String.append String.prefix] in *.
  destruct (ascii_dec "/" x); [|reflexivity]. now destruct a.
Qed.

Lemma path_of_no_trailing_slash (segs : list string) :
  segs <> [] -> Forall seg_ok segs -> Str.endswith (path_of segs) "/" = false.
Proof.
  intros Hne H. destruct (exists_last Hne) as (l & f & ->).
  apply Forall_app in H as [_ Hf]. apply Forall_inv in Hf.
  destruct Hf as (Hf & _ & _ & Hc).
  destruct l as [|a l].
  - apply (endswith_slash_app "" f Hf Hc).
  - rewrite path_of_snoc by discriminate.
    change (path_of (a :: l) +:+ "/" +:+ f) with (path_of (a :: l) +:+ ("/" +:+ f)).
    rewrite <- append_assoc. now apply endswith_slash_app.
Qed.

Lemma lstrip_path_of (segs : list string) :
  seg_ok (hd "" segs) -> Str.lstrip (path_of segs) "/" = path_of segs.
Proof.
  intros H. apply path_of_no_leading_slash in H.
  destruct (path_of segs) as [|a s]; [reflexivity|].
  unfold Str.startswith in H. cbn [String.prefix] in H.
  unfold Str.lstrip. cbn [Str.lstrip_by].
  destruct (Ascii.eqb_spec "/" a) as [<-|_]; [|reflexivity].
  exfalso. destruct (ascii_dec "/" "/"); [destruct s; discriminate|congruence].
Qed.

(** Joining one more name to a path. *)
Lemma join_path_of (segs : list string) (f : string) :
  segs <> [] -> Forall seg_ok segs -> Str.count f "/" = 0 ->
  posixpath.join (path_of segs) [f] = path_of (segs ++ [f]).
Proof.
  intros Hne H Hf. cbn [posixpath.join fold_left].
  rewrite join_step_plain, path_of_snoc; auto.
  - apply path_of_not_empty; auto. destruct segs; [contradiction|].
    now destruct (Forall_inv H).
  - now apply path_of_no_trailing_slash.
  - now apply startswith_slash_count.
Qed.

Lemma norm_comps_plain (segs acc : list string) :
  Forall (fun s => s = "." \/ seg_ok s) segs ->
  posixpath.norm_comps 0 segs acc = rev acc ++ List.filter not_dot segs.
Proof.
  intros H. revert acc. induction H as [|s segs Hs _ IH]; intros acc.
  - cbn. now rewrite app_nil_r.
  - cbn [posixpath.norm_comps List.filter]. unfold not_dot at 1.
    destruct Hs as [->|(Hne & Hdot & Hdd & _)].
    + cbn. apply IH.
    + destruct (String.eqb_spec s ""); [contradiction|].
      destruct (String.eqb_spec s "."); [contradiction|].
      destruct (String.eqb_spec s ".."); [contradiction|].
      cbn [orb negb]. rewrite IH. cbn [rev]. now rewrite <- app_assoc.
Qed.

(** [normpath] on a relative path whose segments are names and dots:
    the dots go, the rest stays. *)
Lemma normpath_path_of (segs : list string) :
  seg_ok (hd "" segs) ->
  Forall (fun s => s = "." \/ seg_ok s) segs ->
  posixpath.normpath (path_of segs) = path_of (List.filter not_dot segs).
Proof.
  intros Hhd H. destruct segs as [|a segs]; [now destruct Hhd|]. cbn [hd] in Hhd.
  assert (Hne : path_of (a :: segs) <> "").
  { apply path_of_not_empty; [discriminate|]. now destruct Hhd. }
  unfold posixpath.normpath.
  destruct (String.eqb_spec (path_of (a :: segs)) ""); [contradiction|].
  unfold posixpath.initial_slashes.
  rewrite path_of_no_leading_slash by exact Hhd.
  rewrite split_path_of.
  - rewrite norm_comps_plain by exact H. cbn [rev app repeat].
    change (Str.join "" [] +:+ ?x) with x.
    fold (path_of (List.filter not_dot (a :: segs))).
    assert (Hf : path_of (List.filter not_dot (a :: segs)) <> "").
    { cbn [List.filter]. unfold not_dot at 1.
      destruct Hhd as (Ha & Hd & _).
      destruct (String.eqb_spec a "."); [contradiction|]. cbn [negb].
      apply path_of_not_empty; [discriminate|exact Ha]. }
    now destruct (String.eqb_spec (path_of (List.filter not_dot (a :: segs))) "").
  - discriminate.
  - eapply Forall_impl; [exact H|]. intros s [->|(_ & _ & _ & Hc)]; [reflexivity|exact Hc].
Qed.

Lemma filter_not_dot_ok (segs : list string) :
  Forall seg_ok segs -> List.filter not_dot segs = segs.
Proof.
  induction 1 as [|s segs (_ & Hd & _) _ IH]; [reflexivity|].
  cbn [List.filter]. unfold not_dot at 1.
  destruct (String.eqb_spec s "."); [contradiction|]. cbn [negb]. now rewrite IH.
Qed.

Lemma rel_of_not_empty (segs : list string) :
  Forall seg_ok segs -> rel_of segs <> "" /\ Str.startswith (rel_of segs) "/" = false
                        /\ Str.endswith (rel_of segs) "/" = false.
Proof.
  intros H. destruct segs as [|a segs]; [repeat split; discriminate|].
  unfold rel_of. repeat split.
  - apply path_of_not_empty; [discriminate|]. now destruct (Forall_inv H).
  - apply path_of_no_leading_slash. exact (Forall_inv H).
  - apply path_of_no_trailing_slash; [discriminate|exact H].
Qed.

(** The path [record_file_or_dir] records for the file [f] that the walk
    finds below [arcname] through the segments [rel]. *)
Lemma recorded_name (arc rel : list string) (f : string) :
  arc <> [] -> Forall seg_ok arc -> Forall seg_ok rel -> seg_ok f ->
  posixpath.normpath (posixpath.join (path_of arc) [rel_of rel; f])
  = path_of (arc ++ rel ++ [f]).
Proof.
  intros Hne Harc Hrel Hf.
  destruct (rel_of_not_empty rel Hrel) as (Hr1 & Hr2 & Hr3).
  assert (Harc1 : path_of arc <> "").
  { apply path_of_not_empty; [exact Hne|]. destruct arc; [contradiction|].
    now destruct (Forall_inv Harc). }
  cbn [posixpath.join fold_left].
  rewrite (join_step_plain (path_of arc)); auto using path_of_no_trailing_slash.
  rewrite join_step_plain.
  - set (D := match rel with [] => ["."] | _ => rel end).
    assert (HD : rel_of rel = path_of D) by now destruct rel.
    assert (HDne : D <> []) by (unfold D; now destruct rel).
    rewrite HD.
    replace ((path_of arc +:+ "/" +:+ path_of D) +:+ "/" +:+ f)
      with (path_of (arc ++ D ++ [f])).
    + rewrite normpath_path_of.
      * f_equal. rewrite !List.filter_app, (filter_not_dot_ok arc Harc).
        f_equal. unfold D. destruct rel as [|r rel].
        -- cbn. unfold not_dot. destruct Hf as (_ & Hd & _).
           now destruct (String.eqb_spec f ".").
        -- rewrite (filter_not_dot_ok _ Hrel). f_equal.
           apply filter_not_dot_ok. now constructor.
      * destruct arc; [contradiction|]. exact (Forall_inv Harc).
      * rewrite !Forall_app. repeat split.
        -- eapply Forall_impl; [exact Harc|]. now right.
        -- unfold D. destruct rel; [constructor; [now left|constructor]|].
           eapply Forall_impl; [exact Hrel|]. now right.
        -- constructor; [now right|constructor].
    + rewrite app_assoc, path_of_snoc, path_of_app; auto.
      now destruct arc.
  - destruct (path_of arc); [contradiction|discriminate].
  - change (path_of arc +:+ "/" +:+ rel_of rel)
      with (path_of arc +:+ ("/" +:+ rel_of rel)).
    destruct (Str.endswith (path_of arc +:+ ("/" +:+ rel_of rel)) "/") eqn:E;
      [|reflexivity].
    apply endswith_last_char in E; [|discriminate].
    rewrite last_char_app in E by discriminate.
    change ("/" +:+ rel_of rel) with (String "/" (rel_of rel)) in E.
    cbn [last_char] in E. destruct (rel_of rel) eqn:Er; [contradiction|].
    exfalso.
    assert (Hl : forall s, last_char s = Some "/"%char -> Str.endswith s "/" = true).
    { clear. induction s as [|x s IH]; [discriminate|].
      intros H. cbn [Str.endswith].
      destruct (String.eqb_spec (String x s) "/"); [reflexivity|].
      apply IH. destruct s; [cbn in H; congruence|exact H]. }
    rewrite (Hl _ E) in Hr3. discriminate.
  - destruct Hf as (_ & _ & _ & Hc). now apply startswith_slash_count.
Qed.

(** ** Trees *)

Lemma node_ind' (P : node -> Prop) :
  (forall c, P (File c)) ->
  (forall es, Forall (fun e => P (snd e)) es -> P (Dir es)) ->
  forall n, P n.
Proof.
  intros HF HD. fix IH 1. intros [c|es]; [apply HF|]. apply HD.
  induction es as [|[name c] es IHes]; constructor; [apply IH|exact IHes].
Qed.

Lemma wf_node_Dir (es : list entry) :
  wf_node (Dir es) = true
  <-> distinct (map fst es) = true
      /\ Forall (fun e => seg_ok (fst e) /\ wf_node (snd e) = true) es.
Proof.
  cbn [wf_node]. rewrite andb_true_iff.
  assert (H : (fix all (l : list entry) : bool :=
                 match l with
                 | [] => true
                 | (name, c) :: l' => wf_name name && wf_node c && all l'
                 end) es = true
              <-> Forall (fun e => seg_ok (fst e) /\ wf_node (snd e) = true) es).
  { induction es as [|[name c] es IH].
    - split; [constructor|reflexivity].
    - rewrite !andb_true_iff, IH, Forall_cons_iff, wf_name_seg_ok. cbn [fst snd]. tauto. }
  now rewrite H.
Qed.



Lemma lookup_In (n : string) (es : list entry) (c : node) :
  Path.lookup n es = Some c -> In (n, c) es.
Proof.
  induction es as [|[m c'] es IH]; [discriminate|]. cbn [Path.lookup].
  destruct (String.eqb_spec m n) as [->|_].
  - intros [= ->]. now left.
  - intros H. right. now apply IH.
Qed.

(** In a directory without a name twice, an entry is what the directory
    has under the entry's name. *)
Lemma lookup_distinct (es : list entry) (e : entry) :
  distinct (map fst es) = true -> In e es -> Path.lookup (fst e) es = Some (snd e).
Proof.
  induction es as [|[m c] es IH]; [contradiction|].
  cbn [map fst distinct Path.lookup]. rewrite andb_true_iff, negb_true_iff.
  intros [Hm Hd] [<-|He].
  - cbn [fst snd]. now rewrite String.eqb_refl.
  - destruct (String.eqb_spec m (fst e)) as [->|_]; [|now apply IH].
    exfalso. assert (Hex : existsb (String.eqb (fst e)) (map fst es) = true).
    { apply existsb_exists. exists (fst e). split; [now apply List.in_map|].
      apply String.eqb_refl. }
    congruence.
Qed.


Lemma paths_below_Dir (at_ : list string) (es : list entry) :
  paths_below at_ (Dir es)
  = flat_map (fun e => paths_below (at_ ++ [fst e]) (snd e)) es.
Proof.
  cbn [paths_below]. induction es as [|[name c] es IH]; [reflexivity|].
  cbn [flat_map fst snd]. now rewrite IH.
Qed.

Lemma os_walk_Dir (rel : string) (es : list entry) :
  os_walk rel (Dir es)
  = (rel, filenames es)
    :: flat_map (fun e => os_walk (rel_child rel (fst e)) (snd e)) es.
Proof.
  cbn [os_walk]. f_equal. induction es as [|[name c] es IH]; [reflexivity|].
  cbn [flat_map fst snd]. now rewrite IH.
Qed.

Lemma add_members_Dir (filter : TarInfo -> option TarInfo) (es : list entry)
    (arcname : string) (ti : TarInfo) :
  filter (tarfile.gettarinfo (Dir es) arcname) = Some ti ->
  tarfile.add_members filter (Dir es) arcname
  = (ti, "")
    :: flat_map (fun f => match Path.lookup f es with
                          | Some c => tarfile.add_members filter c
                                        (posixpath.join arcname [f])
                          | None => []
                          end)
         (sorted (map fst es)).
Proof.
  intros H. cbn [tarfile.add_members]. rewrite H. f_equal.
  apply flat_map_ext. intros f. clear H.
  induction es as [|[name c] es IH]; [reflexivity|].
  cbn [Path.lookup]. destruct (String.eqb name f); [reflexivity|exact IH].
Qed.

Lemma member_names_app (a b : list member) :
  member_names (a ++ b) = member_names a ++ member_names b.
Proof. unfold member_names. now rewrite List.filter_app, map_app. Qed.

Lemma member_names_flat_map {A} (g : A -> list member) (l : list A) :
  member_names (flat_map g l) = flat_map (fun x => member_names (g x)) l.
Proof.
  induction l as [|x l IH]; [reflexivity|].
  cbn [flat_map]. now rewrite member_names_app, IH.
Qed.


Lemma map_flat_map {A B C} (f : B -> C) (g : A -> list B) (l : list A) :
  map f (flat_map g l) = flat_map (fun x => map f (g x)) l.
Proof.
  induction l as [|x l IH]; [reflexivity|].
  cbn [flat_map]. now rewrite map_app, IH.
Qed.

Lemma flat_map_ext_Forall {A B} (f g : A -> list B) (l : list A) :
  Forall (fun x => f x = g x) l -> flat_map f l = flat_map g l.
Proof. induction 1 as [|x l H _ IH]; [reflexivity|]. cbn. now rewrite H, IH. Qed.

Lemma Permutation_insort (s : string) (l : list string) :
  Permutation (insort s l) (s :: l).
Proof.
  induction l as [|x l IH]; cbn [insort]; [reflexivity|].
  destruct (String.leb s x); [reflexivity|].
  rewrite IH. apply perm_swap.
Qed.

(** [sorted] puts the names in order and changes nothing else. *)
Lemma Permutation_sorted (l : list string) : Permutation (sorted l) l.
Proof.
  unfold sorted. induction l as [|x l IH]; cbn [fold_right]; [reflexivity|].
  rewrite Permutation_insort. now constructor.
Qed.

Lemma flat_map_map_fst {B} (g : string -> list B) (es : list entry) :
  flat_map g (map fst es) = flat_map (fun e => g (fst e)) es.
Proof. induction es as [|e es IH]; [reflexivity|]. cbn. now rewrite IH. Qed.

Lemma Permutation_flat_map_Forall {A B} (f g : A -> list B) (l : list A) :
  Forall (fun x => Permutation (f x) (g x)) l ->
  Permutation (flat_map f l) (flat_map g l).
Proof.
  induction 1 as [|x l H _ IH]; [reflexivity|]. cbn [flat_map].
  now apply Permutation_app.
Qed.

(** What [tf.add] writes for a directory: the directory, and what it
    writes for every entry, in the order of the names. *)
Lemma add_members_Dir_Permutation (filter : TarInfo -> option TarInfo)
    (es : list entry) (arcname : string) (ti : TarInfo) :
  distinct (map fst es) = true ->
  filter (tarfile.gettarinfo (Dir es) arcname) = Some ti ->
  Permutation (tarfile.add_members filter (Dir es) arcname)
    ((ti, "")
     :: flat_map (fun e => tarfile.add_members filter (snd e)
                             (posixpath.join arcname [fst e])) es).
Proof.
  intros Hd Hti. rewrite (add_members_Dir filter es arcname ti Hti).
  constructor. rewrite (Permutation_flat_map _ (Permutation_sorted (map fst es))).
  rewrite flat_map_map_fst.
  apply Permutation_flat_map_Forall, Forall_forall. intros e He.
  apply list_elem_of_In in He. now rewrite (lookup_distinct es e Hd He).
Qed.

Lemma In_add_members_Dir (filter : TarInfo -> option TarInfo)
    (es : list entry) (arcname : string) (ti : TarInfo) (m : member) :
  distinct (map fst es) = true ->
  filter (tarfile.gettarinfo (Dir es) arcname) = Some ti ->
  In m (tarfile.add_members filter (Dir es) arcname)
  <-> m = (ti, "")
      \/ exists e, In e es
                   /\ In m (tarfile.add_members filter (snd e)
                              (posixpath.join arcname [fst e])).
Proof.
  intros Hd Hti. split.
  - intros H.
    apply (Permutation_in _ (add_members_Dir_Permutation filter es arcname ti Hd Hti))
      in H.
    destruct H as [<-|H]; [now left|right]. now apply List.in_flat_map in H.
  - intros H.
    apply (Permutation_in _
             (Permutation_sym (add_members_Dir_Permutation filter es arcname ti Hd Hti))).
    destruct H as [->|H]; [now left|right]. now apply List.in_flat_map.
Qed.

Lemma member_names_Permutation (a b : list member) :
  Permutation a b -> Permutation (member_names a) (member_names b).
Proof.
  intros H. unfold member_names. apply Permutation_map.
  induction H as [|x a b H IH|x y a|a b c H1 IH1 H2 IH2]; cbn [List.filter].
  - reflexivity.
  - destruct (ti_type (fst x)); [now constructor|exact IH].
  - destruct (ti_type (fst x)), (ti_type (fst y)); try reflexivity. apply perm_swap.
  - now transitivity (List.filter
                        (fun m => match ti_type (fst m) with
                                  | REGTYPE => true
                                  | DIRTYPE => false
                                  end) b).
Qed.

(** Without a filter, the regular files [tf.add] writes for a tree are
    the files of the tree, each under its path and each once; the order
    is that of the sorted names, not that of the tree. *)
Lemma tar_names_Permutation (n : node) :
  forall at_ : list string,
    at_ <> [] -> Forall seg_ok at_ -> wf_node n = true ->
    Permutation (member_names (tarfile.add_members no_filter n (path_of at_)))
      (map path_of (paths_below at_ n)).
Proof.
  induction n as [c|es IH] using node_ind'; intros at_ Hne Hat Hwf.
  - cbn. rewrite lstrip_path_of; [reflexivity|].
    destruct at_; [contradiction|]. exact (Forall_inv Hat).
  - apply wf_node_Dir in Hwf as [Hd Hwf].
    rewrite (member_names_Permutation _ _
               (add_members_Dir_Permutation no_filter es _ _ Hd eq_refl)).
    change (member_names (?m :: ?l)) with (member_names l).
    rewrite member_names_flat_map, paths_below_Dir, map_flat_map.
    apply Permutation_flat_map_Forall.
    rewrite Forall_forall in *. intros e He.
    destruct (Hwf e He) as (Hname & Hsub).
    rewrite join_path_of; auto; [|now destruct Hname as (_ & _ & _ & ?)].
    apply IH; auto.
    + now destruct at_.
    + apply Forall_app. split; [exact Hat|]. constructor; [exact Hname|constructor].
Qed.


Lemma flat_map_flat_map {A B C} (g : B -> list C) (h : A -> list B) (l : list A) :
  flat_map g (flat_map h l) = flat_map (fun x => flat_map g (h x)) l.
Proof.
  induction l as [|x l IH]; [reflexivity|].
  cbn [flat_map]. now rewrite flat_map_app, IH.
Qed.

Lemma rel_child_rel_of (rel : list string) (name : string) :
  Forall seg_ok rel -> rel_child (rel_of rel) name = rel_of (rel ++ [name]).
Proof.
  intros H. destruct rel as [|r rs]; [reflexivity|].
  unfold rel_child, rel_of.
  assert (Hne : path_of (r :: rs) <> ".").
  { destruct (Forall_inv H) as (Hr & Hd & _).
    destruct rs as [|r' rs]; [exact Hd|].
    rewrite path_of_cons by discriminate.
    destruct r as [|c [|c' r]]; [contradiction|discriminate..]. }
  destruct (String.eqb_spec (path_of (r :: rs)) "."); [contradiction|].
  change ((r :: rs) ++ [name]) with (r :: (rs ++ [name])).
  destruct (rs ++ [name]) eqn:E; [now destruct rs|]. rewrite <- E.
  change (r :: rs ++ [name]) with ((r :: rs) ++ [name]).
  now rewrite path_of_snoc.
Qed.

Lemma recorded_in_Dir (arc rel : list string) (es : list entry) :
  Forall seg_ok rel ->
  recorded_in arc rel (Dir es)
  = map (fun f => posixpath.normpath
                    (posixpath.join (path_of arc) [rel_of rel; f]))
      (filenames es)
    ++ flat_map (fun e => recorded_in arc (rel ++ [fst e]) (snd e)) es.
Proof.
  intros H. unfold recorded_in. rewrite os_walk_Dir. cbn [flat_map].
  f_equal. rewrite flat_map_flat_map. apply flat_map_ext_Forall.
  apply Forall_forall. intros e _. now rewrite rel_child_rel_of.
Qed.

(** The walk records, for a directory, the files of its tree, each under
    its path. *)
Lemma walk_names (n : node) :
  forall (arc rel : list string) (p : string),
    arc <> [] -> Forall seg_ok arc -> Forall seg_ok rel -> wf_node n = true ->
    In p (recorded_in arc rel n)
    <-> match n with
        | Dir _ => In p (map path_of (paths_below (arc ++ rel) n))
        | File _ => False
        end.
Proof.
  induction n as [c|es IH] using node_ind'; intros arc rel p Hne Harc Hrel Hwf.
  - reflexivity.
  - rewrite recorded_in_Dir, paths_below_Dir, map_flat_map by assumption.
    apply wf_node_Dir in Hwf as [_ Hwf].
    rewrite Forall_forall in IH, Hwf.
    rewrite in_app_iff, List.in_map_iff, !List.in_flat_map.
    assert (Hrec : forall e, e ∈ es ->
              posixpath.normpath (posixpath.join (path_of arc) [rel_of rel; fst e])
              = path_of ((arc ++ rel) ++ [fst e])).
    { intros e He. rewrite <- app_assoc. apply recorded_name; auto.
      now destruct (Hwf e He). }
    assert (Hsub : forall e, e ∈ es -> Forall seg_ok (rel ++ [fst e])).
    { intros e He. apply Forall_app. split; [exact Hrel|].
      constructor; [now destruct (Hwf e He)|constructor]. }
    split.
    + intros [(f & <- & Hf)|(e & He & Hp)].
      * unfold filenames in Hf. apply List.in_map_iff in Hf as (e & <- & He).
        apply List.filter_In in He as (He & Hfile).
        exists e. split; [exact He|].
        apply list_elem_of_In in He. rewrite (Hrec e He).
        destruct e as [name [c|?]]; [now left|discriminate].
      * exists e. split; [exact He|]. apply list_elem_of_In in He.
        apply IH in Hp; auto; [|now destruct (Hwf e He)].
        destruct (snd e); [contradiction|]. now rewrite app_assoc in Hp.
    + intros (e & He & Hp). pose proof He as He'. apply list_elem_of_In in He'.
      destruct (snd e) as [c|es'] eqn:Ee.
      * left. exists (fst e). cbn in Hp. destruct Hp as [<-|[]].
        split; [now apply Hrec|].
        unfold filenames. apply List.in_map. apply List.filter_In.
        split; [exact He|]. unfold Path.is_file. now rewrite Ee.
      * right. exists e. split; [exact He|].
        apply IH; auto; [now destruct (Hwf e He')|].
        rewrite Ee. now rewrite app_assoc.
Qed.

(** What [record_file_or_dir] records for an entry stored as [arc]. *)
Lemma recorded_paths_names (arc : list string) (src : entry) (p : string) :
  arc <> [] -> Forall seg_ok arc -> wf_node (snd src) = true ->
  In p (recorded_paths (path_of arc) src)
  <-> In p (map path_of (paths_below arc (snd src))).
Proof.
  intros Hne Harc Hwf. unfold recorded_paths, Path.is_dir.
  pose proof (walk_names (snd src) arc [] p Hne Harc ltac:(constructor) Hwf) as H.
  rewrite app_nil_r in H. unfold recorded_in, rel_of in H.
  destruct (snd src); [reflexivity|exact H].
Qed.

(** ** The RECORD filter *)

Lemma endswith_cons (x : ascii) (s suf : string) :
  Str.endswith s suf = true -> Str.endswith (String x s) suf = true.
Proof. apply (endswith_app (String x "")). Qed.





(** ** Loops that do not raise *)

Lemma for_each_ok_gen {S A} (I : list A -> S -> Prop) (body : A -> M S unit)
    (l done : list A) (s : S) :
  I done s ->
  (forall done' x s, In x l -> I done' s ->
                     exists s', body x s = (s', inr tt) /\ I (done' ++ [x]) s') ->
  exists s', for_each l body s = (s', inr tt) /\ I (done ++ l) s'.
Proof.
  revert done s. induction l as [|x l IH]; intros done s HI Hbody.
  - exists s. rewrite app_nil_r. now split.
  - destruct (Hbody done x s (or_introl eq_refl) HI) as (s1 & Hx & HI1).
    destruct (IH (done ++ [x]) s1 HI1) as (s' & Hl & HI').
    { intros done' y s2 Hy. apply Hbody. now right. }
    exists s'. cbn [for_each]. unfold bind. rewrite Hx.
    split; [exact Hl|]. now rewrite <- app_assoc in HI'.
Qed.

Lemma for_each_ok {S A} (I : S -> Prop) (body : A -> M S unit)
    (l : list A) (s : S) :
  I s ->
  (forall x s, In x l -> I s -> exists s', body x s = (s', inr tt) /\ I s') ->
  exists s', for_each l body s = (s', inr tt) /\ I s'.
Proof.
  intros HI Hbody.
  destruct (for_each_ok_gen (fun _ => I) body l [] s HI) as (s' & H & HI'); eauto.
Qed.

(** ** Recorded paths and archive members in step *)

Lemma file_names_add (tf : TarFile) (filter : TarInfo -> option TarInfo)
    (src : node) (arcname : string) :
  tarfile.file_names (tarfile.add tf filter src arcname)
  = tarfile.file_names tf
    ++ member_names (tarfile.add_members filter src arcname).
Proof. apply member_names_app. Qed.

Lemma file_names_addfile (tf : TarFile) (name : string) (contents : bytes) :
  tarfile.file_names (tarfile.addfile tf (reg_info name contents) contents)
  = tarfile.file_names tf ++ [name].
Proof. apply (member_names_app (members tf) [(reg_info name contents, contents)]). Qed.

Lemma files_record_file_or_dir (arcname : string) (src : entry) (self : PackageBuilder) :
  files (record_file_or_dir arcname src self)
  = files self ++ recorded_paths arcname src.
Proof.
  rewrite record_file_or_dir_eq, files_mutate. f_equal.
  induction (recorded_paths arcname src) as [|p l IH]; [reflexivity|].
  cbn. now rewrite IH.
Qed.



(** ** [add_module] on a well-formed wheel *)

Lemma files_grow_record (arcname : string) (src : entry) (self : PackageBuilder)
    (p : string) :
  In p (files self) -> In p (files (record_file_or_dir arcname src self)).
Proof. rewrite files_record_file_or_dir, in_app_iff. now left. Qed.


Lemma dist_info_not_data (n : string) :
  Str.endswith n ".dist-info" = true -> Str.endswith n ".data" = false.
Proof.
  intros H. destruct (Str.endswith n ".data") eqn:E; [|reflexivity].
  apply endswith_last_char in H; [|discriminate].
  apply endswith_last_char in E; [|discriminate].
  rewrite H in E. discriminate.
Qed.


Lemma site_segs_ok (self : PackageBuilder) :
  Str.count (python_version self) "/" = 0 ->
  site_segs self <> [] /\ Forall seg_ok (site_segs self).
Proof.
  intros Hv. unfold site_segs. destruct (platform self).
  1,2: split; [discriminate|]; repeat constructor; try discriminate; exact Hv.
  split; [discriminate|]. repeat constructor; discriminate.
Qed.

Lemma site_packages_path_of (self : PackageBuilder) (name : string) :
  site_packages_path self +:+ name = path_of (site_segs self ++ [name]).
Proof.
  unfold site_packages_path, site_segs.
  destruct (platform self); cbn; now rewrite ?append_assoc.
Qed.



(** ** Launchers on a well-formed wheel *)

Lemma bind_ext_k {S A B} (m : M S A) (k1 k2 : A -> M S B) (s : S) :
  (forall a s', k1 a s' = k2 a s') -> bind m k1 s = bind m k2 s.
Proof.
  intros H. unfold bind. destruct (m s) as [s' [e|a]]; [reflexivity|apply H].
Qed.

(** [cp[section].items()] taken at once: the section is there, the names
    are its options, and every value is what [get] gives. *)
Lemma items_spec (cp : list (string * list (string * string))) (section : string)
    (its : list (string * string)) :
  CaseSensitiveContextParser.items cp section = inr its
  <-> exists proxy,
        CaseSensitiveContextParser.getitem cp section = inr proxy
        /\ map fst its = CaseSensitiveContextParser.options cp proxy
        /\ Forall (fun kv => CaseSensitiveContextParser.get cp proxy (fst kv)
                             = inr (snd kv)) its.
Proof.
  unfold CaseSensitiveContextParser.items.
  destruct (CaseSensitiveContextParser.getitem cp section) as [e|proxy];
    cbn [bind_result].
  { split; [discriminate|]. intros (p & Hp & _). discriminate Hp. }
  transitivity (map fst its = CaseSensitiveContextParser.options cp proxy
                /\ Forall (fun kv => CaseSensitiveContextParser.get cp proxy (fst kv)
                                     = inr (snd kv)) its).
  2: { split.
       - intros H. now exists proxy.
       - now intros (p & [= <-] & H). }
  generalize (CaseSensitiveContextParser.options cp proxy) as keys.
  intros keys. revert its.
  induction keys as [|k keys IH]; intros its.
  - split.
    + intros [= <-]. split; [reflexivity|constructor].
    + intros (Hk & _). destruct its; [reflexivity|discriminate].
  - split.
    + destruct (CaseSensitiveContextParser.get cp proxy k) as [e|v] eqn:Hget;
        cbn [bind_result]; [discriminate|].
      match goal with
      | |- context [bind_result ?r _] => destruct r as [e|rest] eqn:Hrest
      end; cbn [bind_result]; [discriminate|].
      intros [= <-]. destruct (proj1 (IH rest) eq_refl) as (Hk & Hall).
      cbn [map fst]. rewrite Hk. split; [reflexivity|].
      constructor; [exact Hget|exact Hall].
    + intros (Hk & Hall).
      destruct its as [|[k' v] its]; [discriminate|].
      cbn [map fst] in Hk. injection Hk as -> Hk.
      apply Forall_cons_iff in Hall as [Hget Hall]. cbn [fst snd] in Hget.
      rewrite Hget. cbn [bind_result].
      assert (Hrest : map fst its = keys
                      /\ Forall (fun kv => CaseSensitiveContextParser.get cp proxy (fst kv)
                                           = inr (snd kv)) its) by auto.
      apply IH in Hrest. rewrite Hrest. reflexivity.
Qed.

(** The loop of [create_scripts], which asks for a value when its turn
    comes, does what a loop over the values taken at once does when
    every value can be had. *)
Lemma for_each_get_items (cp : list (string * list (string * string)))
    (proxy : string) (its : list (string * string)) :
  Forall (fun kv => CaseSensitiveContextParser.get cp proxy (fst kv) = inr (snd kv)) its ->
  forall s : state,
    for_each (map fst its)
      (fun name =>
         do! ep <- lift (CaseSensitiveContextParser.get cp proxy name);
         create_script name ep) s
    = for_each its (fun '(name, ep) => create_script name ep) s.
Proof.
  induction 1 as [|[k v] its Hget _ IH]; intros s; [reflexivity|].
  cbn [map fst snd for_each] in *. rewrite Hget.
  change (bind (lift (inr v)) (fun ep => create_script k ep)) with (create_script k v).
  apply bind_ext_k. intros _ s'. apply IH.
Qed.

Lemma create_scripts_declared (self : PackageBuilder) (tf : TarFile)
    (items : list (string * string)) :
  declared_scripts (wheel_contents self) = inr items ->
  create_scripts (self, tf)
  = for_each items (fun '(name, ep) => create_script name ep) (self, tf).
Proof.
  unfold declared_scripts, create_scripts. unfold bind at 1, lift at 1.
  destruct (find_dist_info (wheel_contents self)) as [e|d]; [discriminate|].
  cbn [bind_result].
  destruct (negb (Path.child_is_file d "entry_points.txt")).
  - now intros [= <-].
  - unfold bind at 1, lift at 1.
    destruct (Path.open_child d "entry_points.txt") as [e|b]; [discriminate|].
    cbn [bind_result]. unfold bind at 1, lift at 1.
    destruct (CaseSensitiveContextParser_read (open_text b)) as [e|cp]; [discriminate|].
    cbn [bind_result]. intros Hits.
    apply items_spec in Hits as (proxy & Hg & Hkeys & Hget).
    unfold bind at 1, lift at 1. rewrite Hg, <- Hkeys.
    now apply for_each_get_items.
Qed.



(** ** What [check] and [WheelContents] establish *)


Lemma check_passes (wc : WheelContents) :
  check wc = inr tt ->
  exists d dd,
    check_entries (unpacked wc) None None = inr (Some d, dd)
    /\ metadata wc !! "Name" <> None /\ metadata wc !! "Version" <> None.
Proof.
  unfold check.
  destruct (check_entries (unpacked wc) None None) as [e|[[d|] dd]];
    cbn [bind_result fst]; try discriminate.
  intros H. exists d, dd. split; [reflexivity|].
  destruct (_read_metadata d "WHEEL") as [e|wm]; [discriminate|].
  cbn [bind_result] in H.
  destruct (getitem0 wm "Wheel-Version") as [e|v]; [discriminate|].
  cbn [bind_result] in H.
  destruct (negb (String.eqb v "1.0")); [discriminate|].
  destruct (getitem0 wm "Root-Is-Purelib") as [e|p]; [discriminate|].
  cbn [bind_result] in H.
  destruct (negb (String.eqb (Str.lower p) "true")); [discriminate|].
  cbn [check_fields] in H.
  destruct (metadata wc !! "Name"); [|discriminate].
  destruct (metadata wc !! "Version"); [|discriminate].
  split; discriminate.
Qed.


Lemma read_metadata_values (lines : list string) :
  forall res md : metadata_dict,
    _read_metadata_lines lines res = inr md ->
    (forall k l, res !! k = Some l -> l <> []) ->
    forall k l, md !! k = Some l -> l <> [].
Proof.
  induction lines as [|line lines IH]; intros res md H Hres.
  - now injection H as <-.
  - cbn [_read_metadata_lines] in H.
    destruct (String.eqb (Str.strip line) ""); [now injection H as <-|].
    destruct (Str.split1 (Str.strip line) ":") as [|k [|v [|? ?]]]; try discriminate.
    eapply IH; [exact H|].
    intros k' l. destruct (decide (Str.strip k = k')) as [<-|Hne].
    + rewrite lookup_insert_eq. intros [= <-]. now destruct (default [] _).
    + rewrite lookup_insert_ne by exact Hne. apply Hres.
Qed.

Lemma init_metadata_values (tree : list entry) (wc : WheelContents) :
  WheelContents_init tree = inr wc ->
  forall k l, metadata wc !! k = Some l -> l <> [].
Proof.
  unfold WheelContents_init.
  destruct (find_dist_info_in tree) as [e|d]; [discriminate|]. cbn [bind_result].
  destruct (_read_metadata d "METADATA") as [e|md] eqn:E; [discriminate|].
  cbn [bind_result]. intros [= <-]. cbn [metadata].
  unfold _read_metadata in E.
  destruct (Path.open_child d "METADATA") as [e|b]; [discriminate|].
  cbn [bind_result] in E. apply (read_metadata_values _ _ _ E).
  intros k l. now rewrite lookup_empty.
Qed.

Lemma getitem0_present (md : metadata_dict) (key : string) :
  md !! key <> None -> (forall l, md !! key = Some l -> l <> []) ->
  exists v, getitem0 md key = inr v.
Proof.
  intros Hk Hne. unfold getitem0.
  destruct (md !! key) as [[|v l]|]; [|now exists v|contradiction].
  now destruct (Hne [] eq_refl).
Qed.

(** ** The whole build *)


Lemma write_index_ok (self : PackageBuilder) (tf : TarFile) (name version : string) :
  getitem0 (metadata (wheel_contents self)) "Name" = inr name ->
  getitem0 (metadata (wheel_contents self)) "Version" = inr version ->
  exists contents,
    write_index (self, tf)
    = ((self, tarfile.addfile tf (reg_info "info/index.json" contents) contents), inr tt).
Proof.
  intros Hn Hv. eexists. unfold write_index, index_dict, bind, lift.
  rewrite Hn, Hv. reflexivity.
Qed.




(** ** Entry points as the parser stores them *)

(** The parser stores the console scripts in the order of their
    declaration, values as declared, names lower-cased. *)
Lemma store_options_lower (lines stored opts : list (string * string)) :
  CaseSensitiveContextParser.store_options lines stored = inr opts ->
  opts = stored ++ map (fun kv => (Str.lower (fst kv), snd kv)) lines.
Proof.
  revert stored. induction lines as [|[k v] lines IH]; intros stored.
  - cbn. intros [= <-]. now rewrite app_nil_r.
  - cbn [CaseSensitiveContextParser.store_options].
    destruct (existsb _ stored); [discriminate|].
    intros H. apply IH in H. rewrite H, <- app_assoc. reflexivity.
Qed.

(** Two names that differ in case only are refused as one repeated. *)
Lemma store_options_case_clash (k v k' v' : string) :
  Str.lower k = Str.lower k' ->
  CaseSensitiveContextParser.store_options [(k, v); (k', v')] []
  = inl ConfigParserError.
Proof.
  intros H. cbn. unfold CaseSensitiveContextParser.optionxform,
    configparser.optionxform. rewrite H. now rewrite String.eqb_refl.
Qed.

(** Without an entry-points file [create_scripts] does nothing. *)
Lemma create_scripts_without_entry_points (self : PackageBuilder) (tf : TarFile)
    (d : entry) :
  find_dist_info (wheel_contents self) = inr d ->
  Path.child_is_file d "entry_points.txt" = false ->
  create_scripts (self, tf) = ((self, tf), inr tt).
Proof.
  intros Hd Hf. unfold create_scripts, bind, lift. now rewrite Hd, Hf.
Qed.

(** Membership in a list of paths, by computation. *)
Lemma In_existsb (p : string) (l : list string) :
  In p l <-> existsb (String.eqb p) l = true.
Proof.
  rewrite existsb_exists. split.
  - intros H. exists p. split; [exact H|apply String.eqb_refl].
  - intros (x & Hx & E). apply String.eqb_eq in E. now subst.
Qed.

(** ** The order of the dump *)

Lemma insert_item_HdRel {A} (a kv : string * A) (l : list (string * A)) :
  HdRel (fun x y => String.leb (fst x) (fst y) = true) a l ->
  String.leb (fst a) (fst kv) = true ->
  HdRel (fun x y => String.leb (fst x) (fst y) = true) a (Json.insert_item kv l).
Proof.
  intros Hl Ha. destruct l as [|b l]; cbn [Json.insert_item].
  - now constructor.
  - destruct (String.leb (fst kv) (fst b)); constructor; [exact Ha|].
    now inversion Hl.
Qed.

Lemma insert_item_Sorted {A} (kv : string * A) (l : list (string * A)) :
  Sorted (fun x y => String.leb (fst x) (fst y) = true) l ->
  Sorted (fun x y => String.leb (fst x) (fst y) = true) (Json.insert_item kv l).
Proof.
  induction 1 as [|b l Hs IH Hb]; cbn [Json.insert_item].
  - repeat constructor.
  - destruct (String.leb (fst kv) (fst b)) eqn:E.
    + constructor; [now constructor|now constructor].
    + constructor; [exact IH|]. apply insert_item_HdRel; [exact Hb|].
      destruct (String.leb_total (fst kv) (fst b)) as [H|H]; [congruence|exact H].
Qed.

(** Whatever order the items of a dict come in, [json.dumps] with
    [sort_keys] lays them out by ascending key. *)
Lemma sort_items_Sorted {A} (l : list (string * A)) :
  Sorted (fun x y => String.leb (fst x) (fst y) = true) (Json.sort_items l).
Proof.
  unfold Json.sort_items. induction l as [|kv l IH]; cbn [fold_right].
  - constructor.
  - now apply insert_item_Sorted.
Qed.

(** ** [_read_metadata]: what the loop reads *)

Lemma split1_first_sep (a b : string) (c : ascii) :
  Str.count a c = 0 -> Str.split1 (a +:+ String c b) c = [a; b].
Proof.
  induction a as [|x a IH]; simpl.
  - now rewrite Ascii.eqb_refl.
  - destruct (Ascii.eqb x c); [discriminate|].
    intros H. now rewrite (IH H).
Qed.

Lemma split1_no_sep (s : string) (c : ascii) :
  Str.count s c = 0 -> Str.split1 s c = [s].
Proof.
  induction s as [|a s IH]; simpl; [reflexivity|].
  destruct (Ascii.eqb a c); [discriminate|].
  intros H. now rewrite IH.
Qed.

Lemma count_sep_cut (s : string) (c : ascii) :
  Str.count s c <> 0 -> exists a b, s = a +:+ String c b /\ Str.count a c = 0.
Proof.
  induction s as [|x s IH]; simpl; [congruence|].
  destruct (Ascii.eqb_spec x c) as [->|Hx].
  - intros _. exists "", s. split; reflexivity.
  - intros H. destruct (IH H) as (a & b & -> & Ha).
    exists (String x a), b. split; [reflexivity|].
    simpl. destruct (Ascii.eqb_spec x c); [contradiction|exact Ha].
Qed.

Lemma strip_with_colon_not_blank (s : string) :
  Str.count s ":" <> 0 -> String.eqb s "" = false.
Proof. destruct s; [simpl; congruence|reflexivity]. Qed.

(** X1. [_read_metadata] reads nothing after the first blank line: the
    lines that follow a line made of white space only (the body of a
    METADATA file) change neither the result nor the error. *)
Theorem read_metadata_stops_at_blank_line
    (head rest : list string) (blank : string) (res : metadata_dict) :
  Str.strip blank = "" ->
  _read_metadata_lines (head ++ blank :: rest) res = _read_metadata_lines head res.
Proof.
  intros Hb. revert res.
  induction head as [|line head IH]; intros res.
  - cbn [app _read_metadata_lines]. now rewrite Hb.
  - cbn [app _read_metadata_lines].
    destruct (String.eqb (Str.strip line) ""); [reflexivity|].
    destruct (Str.split1 (Str.strip line) ":") as [|k [|v [|? ?]]]; try reflexivity.
    apply IH.
Qed.

Lemma read_metadata_lines_headers (lines : list string) :
  forall (kvs : list (string * string)) (res : metadata_dict),
    Forall2 header_line lines kvs ->
    (forall k, res !! k <> Some []) ->
    exists md,
      _read_metadata_lines lines res = inr md
      /\ (forall k, md !! k <> Some [])
      /\ forall k, default [] (md !! k) = default [] (res !! k) ++ values_of k kvs.
Proof.
  induction lines as [|line lines IH]; intros kvs res HF Hres.
  - inversion HF; subst. exists res. split; [reflexivity|]. split; [exact Hres|].
    intros k. unfold values_of. simpl. now rewrite app_nil_r.
  - inversion HF as [|? kv ? kvs' [Hline Hk] HF']; subst.
    cbn [_read_metadata_lines]. rewrite Hline.
    assert (Hne : String.eqb (fst kv +:+ ":" +:+ snd kv) "" = false).
    { apply strip_with_colon_not_blank. rewrite count_app. simpl. lia. }
    rewrite Hne.
    change (fst kv +:+ ":" +:+ snd kv) with (fst kv +:+ String ":" (snd kv)).
    rewrite (split1_first_sep _ _ _ Hk).
    set (k0 := Str.strip (fst kv)). set (v0 := Str.strip (snd kv)).
    destruct (IH kvs' (<[k0 := default [] (res !! k0) ++ [v0]]> res) HF')
      as (md & Hmd & Hmd1 & Hmd2).
    { intros k. destruct (decide (k0 = k)) as [<-|Hk0].
      - rewrite lookup_insert_eq. intros [=H]. now destruct (default [] (res !! k0)).
      - rewrite lookup_insert_ne by exact Hk0. apply Hres. }
    exists md. split; [exact Hmd|]. split; [exact Hmd1|].
    intros k. rewrite Hmd2. unfold values_of. cbn [List.filter].
    fold k0. destruct (String.eqb_spec k0 k) as [<-|Hk0].
    + rewrite lookup_insert_eq. cbn [map from_option id]. fold v0.
      now rewrite <- app_assoc.
    + now rewrite lookup_insert_ne by exact Hk0.
Qed.

(** X2. Header lines are collected by key: when every line, stripped, is a
    key without colon, a colon and a value, [_read_metadata] returns a
    dict that gives each key the stripped values of its lines in file
    order, and has no other key. *)
Theorem read_metadata_collects_values
    (lines : list string) (kvs : list (string * string)) :
  Forall2 header_line lines kvs ->
  exists md,
    _read_metadata_lines lines ∅ = inr md
    /\ forall k, md !! k = match values_of k kvs with
                           | [] => None
                           | l => Some l
                           end.
Proof.
  intros HF.
  destruct (read_metadata_lines_headers lines kvs ∅ HF) as (md & Hmd & Hne & Hval).
  { intros k. now rewrite lookup_empty. }
  exists md. split; [exact Hmd|].
  intros k. specialize (Hval k). specialize (Hne k).
  rewrite lookup_empty in Hval. cbn [from_option id app] in Hval.
  destruct (md !! k) as [l|]; cbn [from_option id] in Hval.
  - subst l. destruct (values_of k kvs); [congruence|reflexivity].
  - now rewrite <- Hval.
Qed.

(** X3. A header line without a colon makes [_read_metadata] raise
    [ValueError] (the unpacking of [split(':', 1)] into two names fails),
    when the lines before it each have a colon. *)
Theorem read_metadata_line_without_colon
    (before rest : list string) (line : string) (res : metadata_dict) :
  Forall (fun l => Str.count (Str.strip l) ":" <> 0) before ->
  Str.strip line <> "" ->
  Str.count (Str.strip line) ":" = 0 ->
  _read_metadata_lines (before ++ line :: rest) res
  = inl (ValueError "not enough values to unpack (expected 2, got 1)").
Proof.
  intros HF Hne Hc. revert res.
  induction before as [|l before IH]; intros res.
  - cbn [app _read_metadata_lines].
    destruct (String.eqb_spec (Str.strip line) ""); [contradiction|].
    now rewrite (split1_no_sep _ _ Hc).
  - inversion HF as [|? ? Hl HF']; subst.
    cbn [app _read_metadata_lines].
    rewrite (strip_with_colon_not_blank _ Hl).
    destruct (count_sep_cut _ _ Hl) as (a & b & -> & Ha).
    rewrite (split1_first_sep _ _ _ Ha). now apply IH.
Qed.

(** ** [find_dist_info] and the checks on the layout *)

Lemma find_dist_info_in_first (es : list entry) (x : entry) :
  find_dist_info_in es = inr x <->
  exists before after,
    es = before ++ x :: after
    /\ Forall (fun y => is_dist_info y = false) before
    /\ is_dist_info x = true.
Proof.
  unfold is_dist_info. induction es as [|y es IH]; cbn [find_dist_info_in].
  - split; [discriminate|]. intros (before & after & H & _).
    now destruct before.
  - destruct (Str.endswith (Path.name y) ".dist-info") eqn:E.
    + split.
      * intros [= ->]. exists [], es. repeat split; [constructor|exact E].
      * intros (before & after & H & HF & Hx).
        destruct before as [|z before]; [now injection H as -> _|].
        injection H as -> _. inversion HF; congruence.
    + rewrite IH. split.
      * intros (before & after & -> & HF & Hx).
        exists (y :: before), after. repeat split; [now constructor|exact Hx].
      * intros (before & after & H & HF & Hx).
        destruct before as [|z before]; [injection H as -> _; congruence|].
        injection H as -> ->. inversion HF; subst.
        now exists before, after.
Qed.

Lemma find_dist_info_in_none (es : list entry) (e : exn) :
  find_dist_info_in es = inl e ->
  e = BadWheelError "Didn't find .dist-info directory"
  /\ List.filter is_dist_info es = [].
Proof.
  unfold is_dist_info. induction es as [|y es IH]; cbn [find_dist_info_in List.filter].
  - now intros [= <-].
  - destruct (Str.endswith (Path.name y) ".dist-info"); [discriminate|exact IH].
Qed.

Lemma dist_info_is_not_data (x : entry) :
  is_dist_info x = true -> is_data x = false.
Proof. apply dist_info_not_data. Qed.

(** The loop of [check] from any point on. *)
Lemma check_entries_iff (es : list entry) :
  forall di0 dd0 di dd : option entry,
    check_entries es di0 dd0 = inr (di, dd) <->
    found di0 ++ List.filter is_dist_info es = found di
    /\ found dd0 ++ List.filter is_data es = found dd
    /\ Forall (fun x => is_dist_info x || is_data x = true -> Path.is_dir x = true) es.
Proof.
  induction es as [|x es IH]; intros di0 dd0 di dd.
  - cbn [check_entries List.filter]. rewrite !app_nil_r. split.
    + intros [= -> ->]. repeat split. constructor.
    + intros (H1 & H2 & _).
      destruct di0, di, dd0, dd; simpl in *; congruence.
  - cbn [check_entries List.filter]. unfold bind_result.
    fold (is_dist_info x). fold (is_data x).
    destruct (is_dist_info x) eqn:Edi.
    + rewrite (dist_info_is_not_data x Edi).
      destruct (Path.is_dir x) eqn:Edir; cbn [negb].
      * destruct di0 as [y|].
        -- split; [discriminate|]. intros (H & _). exfalso.
           cbn [found app] in H. destruct di; cbn [found] in H; discriminate.
        -- rewrite IH. cbn [found app orb]. split.
           ++ intros (H1 & H2 & H3). repeat split; auto.
           ++ intros (H1 & H2 & H3). repeat split; auto. now inversion H3.
      * split; [discriminate|]. intros (_ & _ & H). inversion H as [|? ? Hx _]; subst.
        rewrite Edi in Hx. specialize (Hx eq_refl). congruence.
    + destruct (is_data x) eqn:Edd.
      * destruct (Path.is_dir x) eqn:Edir; cbn [negb].
        -- destruct dd0 as [y|].
           ++ split; [discriminate|]. intros (_ & H & _). exfalso.
              cbn [found app] in H. destruct dd; cbn [found] in H; discriminate.
           ++ rewrite IH. cbn [found app orb]. split.
              ** intros (H1 & H2 & H3). repeat split; auto.
              ** intros (H1 & H2 & H3). repeat split; auto. now inversion H3.
        -- split; [discriminate|]. intros (_ & _ & H). inversion H as [|? ? Hx _]; subst.
           rewrite Edi, Edd in Hx. specialize (Hx eq_refl). congruence.
      * rewrite IH. cbn [orb]. split.
        -- intros (H1 & H2 & H3). repeat split; auto. constructor; [rewrite Edi, Edd; discriminate|exact H3].
        -- intros (H1 & H2 & H3). repeat split; auto. now inversion H3.
Qed.

(** X4. The first loop of [check] passes exactly on these layouts: at
    most one entry whose name ends in [.dist-info], at most one whose
    name ends in [.data], each of them a directory; what it leaves in
    [dist_info] and [data_dir] are those entries. *)
Theorem check_entries_passes_iff (es : list entry) (di dd : option entry) :
  check_entries es None None = inr (di, dd) <->
  List.filter is_dist_info es = found di
  /\ List.filter is_data es = found dd
  /\ Forall (fun x => is_dist_info x || is_data x = true -> Path.is_dir x = true) es.
Proof. apply (check_entries_iff es None None di dd). Qed.

Lemma check_entries_error (es : list entry) :
  forall (di0 dd0 : option entry) (e : exn),
    check_entries es di0 dd0 = inl e ->
    In e [BadWheelError ".dist-info not a directory";
          BadWheelError "Multiple .dist-info directories";
          BadWheelError ".data not a directory";
          BadWheelError "Multiple .data directories"].
Proof.
  induction es as [|x es IH]; intros di0 dd0 e; cbn [check_entries]; [discriminate|].
  unfold bind_result.
  destruct (Str.endswith (Path.name x) ".dist-info").
  - destruct (Path.is_dir x); cbn [negb].
    + destruct di0.
      * intros [= <-]. right. now left.
      * destruct (Str.endswith (Path.name x) ".data").
        -- destruct dd0.
           ++ intros [= <-]. do 3 right. now left.
           ++ apply IH.
        -- apply IH.
    + intros [= <-]. now left.
  - destruct (Str.endswith (Path.name x) ".data").
    + destruct (Path.is_dir x); cbn [negb].
      * destruct dd0.
        -- intros [= <-]. do 3 right. now left.
        -- apply IH.
      * intros [= <-]. do 2 right. now left.
    + apply IH.
Qed.

Lemma filter_single_first {A} (f : A -> bool) (l : list A) (d : A) :
  List.filter f l = [d] ->
  exists before after,
    l = before ++ d :: after /\ Forall (fun y => f y = false) before /\ f d = true.
Proof.
  induction l as [|x l IH]; cbn [List.filter]; [discriminate|].
  destruct (f x) eqn:E.
  - intros [= -> _]. exists [], l. repeat split; [constructor|exact E].
  - intros H. destruct (IH H) as (before & after & -> & HF & Hd).
    exists (x :: before), after. repeat split; [now constructor|exact Hd].
Qed.

(** X5. When [check] returns, [find_dist_info] finds a directory, the
    only entry of the wheel whose name ends in [.dist-info]; at most one
    entry has a name ending in [.data]; and the metadata has a [Name] and
    a [Version]. *)
Theorem check_fixes_the_layout (wc : WheelContents) :
  check wc = inr tt ->
  exists d,
    find_dist_info wc = inr d
    /\ Path.is_dir d = true
    /\ List.filter is_dist_info (unpacked wc) = [d]
    /\ length (List.filter is_data (unpacked wc)) <= 1
    /\ metadata wc !! "Name" <> None
    /\ metadata wc !! "Version" <> None.
Proof.
  intros Hc. destruct (check_passes wc Hc) as (d & dd & Hce & Hn & Hv).
  apply check_entries_iff in Hce. cbn [found app] in Hce.
  destruct Hce as (Hdi & Hdd & Hdir).
  destruct (filter_single_first _ _ _ Hdi) as (before & after & Hes & HF & Hd).
  exists d. split.
  { apply find_dist_info_in_first. now exists before, after. }
  split.
  { rewrite Forall_forall in Hdir. apply Hdir.
    - rewrite Hes. apply list_elem_of_In, in_or_app. right. now left.
    - now rewrite Hd. }
  split; [exact Hdi|]. split; [|now split].
  rewrite Hdd. destruct dd; simpl; lia.
Qed.

Lemma read_metadata_lines_error (lines : list string) :
  forall (res : metadata_dict) (e : exn),
    _read_metadata_lines lines res = inl e ->
    e = ValueError "not enough values to unpack (expected 2, got 1)".
Proof.
  induction lines as [|line lines IH]; intros res e; cbn [_read_metadata_lines];
    [discriminate|].
  destruct (String.eqb (Str.strip line) ""); [discriminate|].
  destruct (Str.split1 (Str.strip line) ":") as [|k [|v [|? ?]]];
    try (now intros [= <-]).
  apply IH.
Qed.

(** What [_read_metadata] raises: the file cannot be opened, or a line
    has no colon. *)
Lemma read_metadata_error (d : entry) (name : string) (e : exn) :
  _read_metadata d name = inl e ->
  e = OSError (Path.name d +:+ "/" +:+ name)
  \/ e = ValueError "not enough values to unpack (expected 2, got 1)".
Proof.
  unfold _read_metadata, bind_result.
  destruct (Path.open_child d name) as [e'|b] eqn:Ho.
  - intros [= <-]. left. unfold Path.open_child in Ho.
    destruct (snd d) as [c|es]; [now injection Ho as <-|].
    destruct (Path.lookup name es) as [[c|es']|]; congruence.
  - intros H. right. now apply read_metadata_lines_error in H.
Qed.

Lemma getitem0_error (md : metadata_dict) (key : string) (e : exn) :
  getitem0 md key = inl e -> e = KeyError key \/ e = IndexError.
Proof.
  unfold getitem0. destruct (md !! key) as [[|v l]|]; intros [= <-]; auto.
Qed.

Lemma check_fields_error (fields : list string) (md : metadata_dict) (e : exn) :
  check_fields fields md = inl e ->
  exists field,
    In field fields /\ md !! field = None
    /\ e = BadWheelError ("Missing required metadata field: " +:+ field).
Proof.
  induction fields as [|f fields IH]; cbn [check_fields]; [discriminate|].
  destruct (md !! f) eqn:E.
  - intros H. destruct (IH H) as (field & Hin & Hf & He).
    exists field. split; [now right|now split].
  - intros [= <-]. exists f. split; [now left|now split].
Qed.

(** X6. Of the refusals of [check], the one for a wheel without
    [.dist-info] entry is never reached on a [WheelContents]: the
    constructor has called [find_dist_info] already, and fails with the
    same error there. *)
Theorem check_never_misses_dist_info (tree : list entry) :
  (forall wc, WheelContents_init tree = inr wc ->
              check wc <> inl (BadWheelError "Didn't find .dist-info directory"))
  /\ (List.filter is_dist_info tree = [] ->
      WheelContents_init tree = inl (BadWheelError "Didn't find .dist-info directory")).
Proof.
  split.
  - intros wc Hinit Hc.
    assert (Hu : unpacked wc = tree) by (now apply init_unpacked).
    unfold WheelContents_init, bind_result in Hinit.
    destruct (find_dist_info_in tree) as [e|d] eqn:Hd; [discriminate|].
    apply find_dist_info_in_first in Hd.
    destruct Hd as (before & after & Hes & _ & Hdi).
    unfold check, bind_result in Hc. rewrite Hu in Hc.
    destruct (check_entries tree None None) as [e|[di dd]] eqn:Hce.
    + injection Hc as ->. apply check_entries_error in Hce.
      simpl in Hce. intuition discriminate.
    + cbn [fst] in Hc. destruct di as [x|].
      * destruct (_read_metadata x "WHEEL") as [e|wm] eqn:Hwm.
        { injection Hc as ->. apply read_metadata_error in Hwm.
          destruct Hwm; discriminate. }
        destruct (getitem0 wm "Wheel-Version") as [e|v] eqn:Hv.
        { injection Hc as ->. apply getitem0_error in Hv. destruct Hv; discriminate. }
        destruct (negb (String.eqb v "1.0")); [discriminate|].
        destruct (getitem0 wm "Root-Is-Purelib") as [e|p] eqn:Hp.
        { injection Hc as ->. apply getitem0_error in Hp. destruct Hp; discriminate. }
        destruct (negb (String.eqb (Str.lower p) "true")); [discriminate|].
        apply check_fields_error in Hc. destruct Hc as (f & _ & _ & Hf).
        simpl in Hf. discriminate.
      * apply check_entries_iff in Hce. destruct Hce as (H & _).
        cbn [found app] in H. rewrite Hes, List.filter_app in H.
        cbn [List.filter] in H. rewrite Hdi in H.
        now destruct (List.filter is_dist_info before).
  - intros Hnone. unfold WheelContents_init, bind_result.
    destruct (find_dist_info_in tree) as [e|d] eqn:Hd.
    + apply find_dist_info_in_none in Hd. now destruct Hd as [-> _].
    + apply find_dist_info_in_first in Hd.
      destruct Hd as (before & after & Hes & _ & Hdi).
      rewrite Hes, List.filter_app in Hnone.
      cbn [List.filter] in Hnone. rewrite Hdi in Hnone.
      now destruct (List.filter is_dist_info before).
Qed.

(** ** [filter_compatible_pythons]: the other cases *)

Lemma py_tags_of_single (tags : list string) (tag : string) :
  py_tags_of tags = {[tag]} <-> tags <> [] /\ Forall (fun t => py_tag t = tag) tags.
Proof.
  unfold py_tags_of. fold py_tag. split.
  - intros H. split.
    + intros ->. simpl in H.
      assert (Hin : tag ∈ (∅ : gset string)) by (rewrite H; set_solver).
      set_solver.
    + apply Forall_forall. intros t Ht.
      assert (Hin : py_tag t ∈ (list_to_set (map py_tag tags) : gset string)).
      { apply elem_of_list_to_set, list_elem_of_fmap. now exists t. }
      rewrite H in Hin. set_solver.
  - intros [Hne HF]. apply set_eq. intros x.
    rewrite elem_of_list_to_set, elem_of_singleton. split.
    + intros Hx. apply list_elem_of_fmap in Hx. destruct Hx as (t & -> & Ht).
      rewrite Forall_forall in HF. now apply HF.
    + intros ->. destruct tags as [|t tags]; [contradiction|].
      inversion HF; subst. simpl. left.
Qed.

Lemma by_requirement_not_recognized (wc : WheelContents) :
  requirement_not_recognized (metadata wc) ->
  filter_compatible_pythons wc
  = (try! d <- find_dist_info wc;
     try! wheel_metadata <- _read_metadata d "WHEEL";
     match wheel_metadata !! "Tag" with
     | None => inl (KeyError "Tag")
     | Some tags =>
         if bool_decide (py_tags_of tags = {["py3"]}) then inr ["3.5"; "3.4"]
         else if bool_decide (py_tags_of tags = {["py2"]}) then inr ["2.7"]
         else inr PYTHON_VERSIONS
     end).
Proof.
  unfold requirement_not_recognized, filter_compatible_pythons, getitem0.
  destruct (metadata wc !! "Requires-Python") as [[|rp rest]|]; [contradiction| |reflexivity].
  intros (H1 & H2 & H3). unfold bind_result at 1. rewrite H1.
  destruct (String.eqb_spec rp "<3"); [contradiction|].
  destruct (String.eqb_spec rp "<3.0"); [contradiction|].
  reflexivity.
Qed.

(** X7. [filter_compatible_pythons] returns one of three lists: the two
    3.x versions, the 2.x version, or all of [PYTHON_VERSIONS]; never an
    empty list, and always in the order of [PYTHON_VERSIONS]. *)
Theorem filter_compatible_pythons_range (wc : WheelContents) (versions : list string) :
  filter_compatible_pythons wc = inr versions ->
  versions = ["3.5"; "3.4"] \/ versions = ["2.7"] \/ versions = ["3.5"; "3.4"; "2.7"].
Proof.
  unfold filter_compatible_pythons, bind_result.
  assert (Htags :
    match find_dist_info wc with
    | inl e => inl e
    | inr d =>
        match _read_metadata d "WHEEL" with
        | inl e => inl e
        | inr wheel_metadata =>
            match wheel_metadata !! "Tag" with
            | None => inl (KeyError "Tag")
            | Some tags =>
                if bool_decide (py_tags_of tags = {["py3"]})
                then inr (List.filter (fun p => negb (Str.startswith p "2.")) PYTHON_VERSIONS)
                else if bool_decide (py_tags_of tags = {["py2"]})
                then inr (List.filter (fun p => Str.startswith p "2.") PYTHON_VERSIONS)
                else inr PYTHON_VERSIONS
            end
        end
    end = inr versions ->
    versions = ["3.5"; "3.4"] \/ versions = ["2.7"] \/ versions = ["3.5"; "3.4"; "2.7"]).
  { destruct (find_dist_info wc) as [e|d]; [discriminate|].
    destruct (_read_metadata d "WHEEL") as [e|wm]; [discriminate|].
    destruct (wm !! "Tag") as [tags|]; [|discriminate].
    destruct (bool_decide (py_tags_of tags = {["py3"]})); [intros [= <-]; now left|].
    destruct (bool_decide (py_tags_of tags = {["py2"]})); intros [= <-]; auto. }
  destruct (metadata wc !! "Requires-Python"); [|exact Htags].
  destruct (getitem0 (metadata wc) "Requires-Python") as [e|rp]; [discriminate|].
  destruct (Str.startswith_any rp ["3"; ">3"; ">=3"]); [intros [= <-]; now left|].
  destruct (String.eqb rp "<3" || String.eqb rp "<3.0"); [intros [= <-]; auto|].
  exact Htags.
Qed.

(** X8. A [Requires-Python] of [<3] or [<3.0] selects Python 2.7 alone,
    whatever the compatibility tags say, and without reading [WHEEL]. *)
Theorem requires_python_below_3 (wc : WheelContents) (rp : string) (rest : list string) :
  metadata wc !! "Requires-Python" = Some (rp :: rest) ->
  rp = "<3" \/ rp = "<3.0" ->
  filter_compatible_pythons wc = inr ["2.7"].
Proof.
  intros Hrp H. unfold filter_compatible_pythons, getitem0, bind_result.
  rewrite Hrp. destruct H as [-> | ->]; reflexivity.
Qed.

(** X9. Without a [Requires-Python] the program acts on, the tags of
    [WHEEL] decide: the 3.x versions when every tag has the interpreter
    tag [py3], 2.7 when every tag has [py2]; a [WHEEL] file without [Tag]
    raises [KeyError]. *)
Theorem tags_decide_pythons
    (wc : WheelContents) (d : entry) (wheel_metadata : metadata_dict) :
  requirement_not_recognized (metadata wc) ->
  find_dist_info wc = inr d ->
  _read_metadata d "WHEEL" = inr wheel_metadata ->
  (forall tags,
      wheel_metadata !! "Tag" = Some tags -> tags <> [] ->
      Forall (fun t => py_tag t = "py3") tags ->
      filter_compatible_pythons wc = inr ["3.5"; "3.4"])
  /\ (forall tags,
         wheel_metadata !! "Tag" = Some tags -> tags <> [] ->
         Forall (fun t => py_tag t = "py2") tags ->
         filter_compatible_pythons wc = inr ["2.7"])
  /\ (wheel_metadata !! "Tag" = None ->
      filter_compatible_pythons wc = inl (KeyError "Tag")).
Proof.
  intros Hreq Hd Hwm. rewrite (by_requirement_not_recognized wc Hreq), Hd.
  unfold bind_result. rewrite Hwm. repeat apply conj.
  - intros tags -> Hne HF.
    rewrite bool_decide_eq_true_2; [reflexivity|].
    now apply py_tags_of_single.
  - intros tags -> Hne HF.
    assert (H2 : py_tags_of tags = {["py2"]}) by (now apply py_tags_of_single).
    rewrite bool_decide_eq_false_2.
    + now rewrite bool_decide_eq_true_2.
    + rewrite H2. intros H.
      assert (Hin : "py2" ∈ ({["py3"]} : gset string)) by (rewrite <- H; set_solver).
      apply elem_of_singleton in Hin. discriminate Hin.
  - now intros ->.
Qed.

(** ** The prefix of the installed RECORD's rows *)

Lemma norm_comps_push (n : nat) (x : string) (rest acc : list string) :
  seg_ok x ->
  posixpath.norm_comps n (x :: rest) acc = posixpath.norm_comps n rest (x :: acc).
Proof.
  intros (Hne & Hdot & Hdd & _). cbn [posixpath.norm_comps].
  destruct (String.eqb_spec x ""); [contradiction|].
  destruct (String.eqb_spec x "."); [contradiction|].
  destruct (String.eqb_spec x ".."); [contradiction|].
  reflexivity.
Qed.

Lemma norm_comps_up (n : nat) (x : string) (rest acc : list string) :
  seg_ok x ->
  posixpath.norm_comps n (".." :: rest) (x :: acc) = posixpath.norm_comps n rest acc.
Proof.
  intros (Hne & Hdot & Hdd & _). cbn [posixpath.norm_comps].
  change (String.eqb ".." "") with false. change (String.eqb ".." ".") with false.
  change (String.eqb ".." "..") with true. cbn [orb negb andb].
  rewrite andb_false_r.
  destruct (String.eqb_spec x ".."); [contradiction|]. reflexivity.
Qed.

Lemma norm_comps_down (base rest acc : list string) :
  Forall seg_ok base ->
  posixpath.norm_comps 0 (base ++ rest) acc
  = posixpath.norm_comps 0 rest (rev base ++ acc).
Proof.
  intros H. revert acc. induction H as [|x base Hx _ IH]; intros acc; [reflexivity|].
  cbn [app rev]. rewrite norm_comps_push by exact Hx. rewrite IH.
  now rewrite <- app_assoc.
Qed.

Lemma norm_comps_ups (b rest acc : list string) :
  Forall seg_ok b ->
  posixpath.norm_comps 0 (repeat ".." (length b) ++ rest) (b ++ acc)
  = posixpath.norm_comps 0 rest acc.
Proof.
  intros H. induction H as [|x b Hx _ IH]; [reflexivity|].
  cbn [length repeat app]. now rewrite norm_comps_up by exact Hx.
Qed.

(** Down through [base], up as many levels, then down through [segs]. *)
Lemma normpath_down_up (base segs : list string) :
  base <> [] -> segs <> [] -> Forall seg_ok base -> Forall seg_ok segs ->
  posixpath.normpath (path_of (base ++ repeat ".." (length base) ++ segs))
  = path_of segs.
Proof.
  intros Hb Hs HFb HFs.
  assert (Hhd : seg_ok (hd "" (base ++ repeat ".." (length base) ++ segs))).
  { destruct base; [contradiction|]. exact (Forall_inv HFb). }
  assert (Hne : path_of (base ++ repeat ".." (length base) ++ segs) <> "").
  { apply path_of_not_empty; [now destruct base|now destruct Hhd]. }
  unfold posixpath.normpath.
  destruct (String.eqb_spec (path_of (base ++ repeat ".." (length base) ++ segs)) "");
    [contradiction|].
  unfold posixpath.initial_slashes.
  rewrite path_of_no_leading_slash by exact Hhd.
  rewrite split_path_of.
  - rewrite norm_comps_down by exact HFb.
    rewrite <- (length_rev base).
    rewrite norm_comps_ups by (now apply Forall_rev).
    rewrite norm_comps_plain, (filter_not_dot_ok segs HFs).
    + cbn [rev app repeat]. change (Str.join "" [] +:+ ?x) with x.
      fold (path_of segs).
      assert (Hf : path_of segs <> "").
      { apply path_of_not_empty; [exact Hs|]. destruct segs; [contradiction|].
        now destruct (Forall_inv HFs). }
      now destruct (String.eqb_spec (path_of segs) "").
    + eapply Forall_impl; [exact HFs|]. now right.
  - now destruct base.
  - rewrite !Forall_app. repeat split.
    + eapply Forall_impl; [exact HFb|]. now intros s (_ & _ & _ & Hc).
    + clear. induction (length base); constructor; [reflexivity|assumption].
    + eapply Forall_impl; [exact HFs|]. now intros s (_ & _ & _ & Hc).
Qed.

Lemma prefix_from_site_pkgs_of (self : PackageBuilder) :
  prefix_from_site_pkgs self = path_of (repeat ".." (length (site_segs self))).
Proof. unfold prefix_from_site_pkgs, site_segs. now destruct (platform self). Qed.

Lemma site_packages_path_slash (self : PackageBuilder) :
  site_packages_path self = path_of (site_segs self) +:+ "/".
Proof.
  pose proof (site_packages_path_of self "") as H.
  rewrite append_nil_r in H. rewrite H.
  rewrite path_of_snoc; [reflexivity|].
  unfold site_segs. now destruct (platform self).
Qed.

(** X10. The prefix that [write_pep376_record] puts before the paths of
    data files and scripts leads from the site-packages directory back to
    the root of the environment: such a row's path, read from
    [site_packages_path()], is the path the file has in the archive. *)
Theorem record_prefix_leads_to_root (self : PackageBuilder) (segs : list string) :
  Str.count (python_version self) "/" = 0 ->
  segs <> [] -> Forall seg_ok segs ->
  posixpath.normpath
    (posixpath.join (site_packages_path self)
       [posixpath.join (prefix_from_site_pkgs self) [path_of segs]])
  = path_of segs.
Proof.
  intros Hv Hs HFs.
  destruct (site_segs_ok self Hv) as [Hb HFb].
  set (ups := repeat ".." (length (site_segs self))).
  assert (Hups : ups <> []).
  { unfold ups, site_segs. now destruct (platform self). }
  assert (Hhd : seg_ok (hd "" segs)).
  { destruct segs; [contradiction|]. exact (Forall_inv HFs). }
  assert (Hprefix : posixpath.join (prefix_from_site_pkgs self) [path_of segs]
                    = path_of (ups ++ segs)).
  { cbn [posixpath.join fold_left]. rewrite join_step_plain.
    - rewrite prefix_from_site_pkgs_of. fold ups. now rewrite path_of_app.
    - unfold prefix_from_site_pkgs. now destruct (platform self).
    - unfold prefix_from_site_pkgs. now destruct (platform self).
    - now apply path_of_no_leading_slash. }
  rewrite Hprefix. cbn [posixpath.join fold_left]. unfold posixpath.join_step.
  assert (Hlead : Str.startswith (path_of (ups ++ segs)) "/" = false).
  { unfold ups, site_segs.
    destruct (platform self); cbn [length repeat app];
      rewrite path_of_cons by discriminate; reflexivity. }
  rewrite Hlead.
  assert (Hend : Str.endswith (site_packages_path self) "/" = true).
  { rewrite site_packages_path_slash. apply endswith_app. reflexivity. }
  rewrite Hend, orb_true_r.
  rewrite site_packages_path_slash, append_assoc.
  change ("/" +:+ path_of (ups ++ segs)) with (String "/" (path_of (ups ++ segs))).
  change (path_of (site_segs self) +:+ String "/" (path_of (ups ++ segs)))
    with (path_of (site_segs self) +:+ "/" +:+ path_of (ups ++ segs)).
  rewrite <- path_of_app; [|exact Hb|now destruct ups].
  now apply normpath_down_up.
Qed.

(** ** What [tf.add] stores and what [record_file_or_dir] records *)

(** X11. [tf.add] and [record_file_or_dir] walk a source in two ways
    ([TarFile.add], which takes the names of a directory sorted, and
    [os.walk], which takes them as the directory gives them) and agree on
    what they find, whatever the order: for a source stored under a path
    of plain segments, in which no directory has a name twice, the
    regular-file members added come after those the archive had and are
    the regular files below the source, each under its own path and each
    once; the paths recorded are the paths of the same files; recording
    touches neither the placeholder list nor the RECORD rows. *)
Theorem add_and_record_agree
    (arc : list string) (src : entry) (self : PackageBuilder) (tf : TarFile) :
  arc <> [] -> Forall seg_ok arc -> wf_node (snd src) = true ->
  let below := map path_of (paths_below arc (snd src)) in
  let self' := record_file_or_dir (path_of arc) src self in
  (exists added,
      tarfile.file_names (tarfile.add tf no_filter (snd src) (path_of arc))
      = tarfile.file_names tf ++ added
      /\ Permutation added below)
  /\ (forall p, In p (files self') <-> In p (files self) \/ In p below)
  /\ has_prefix_files self' = has_prefix_files self
  /\ py_record_extra self' = py_record_extra self.
Proof.
  intros Hne Harc Hwf below self'. repeat apply conj.
  - eexists. split; [apply file_names_add|]. now apply tar_names_Permutation.
  - intros p. unfold self'. rewrite files_record_file_or_dir, in_app_iff.
    now rewrite recorded_paths_names.
  - unfold self'. rewrite record_file_or_dir_eq, has_prefix_files_mutate.
    induction (recorded_paths (path_of arc) src) as [|x l IH]; cbn [map flagged].
    + apply app_nil_r.
    + exact IH.
  - unfold self'. rewrite record_file_or_dir_eq.
    generalize self. clear.
    induction (recorded_paths (path_of arc) src) as [|x l IH]; intros self;
      cbn [map fold_left]; [reflexivity|].
    now rewrite IH.
Qed.

Lemma Forall_flat_map_intro {A B} (P : B -> Prop) (g : A -> list B) (l : list A) :
  Forall (fun x => Forall P (g x)) l -> Forall P (flat_map g l).
Proof.
  induction 1 as [|x l Hx _ IH]; cbn [flat_map]; [constructor|].
  apply Forall_app. now split.
Qed.

Lemma sublist_flat_map {A B} (g h : A -> list B) (l : list A) :
  Forall (fun x => sublist (g x) (h x)) l -> sublist (flat_map g l) (flat_map h l).
Proof.
  induction 1 as [|x l Hx _ IH]; cbn [flat_map]; [constructor|].
  now apply sublist_app.
Qed.

Lemma nodes_below_Dir (at_ : list string) (es : list entry) :
  nodes_below at_ (Dir es)
  = (at_, Dir es) :: flat_map (fun e => nodes_below (at_ ++ [fst e]) (snd e)) es.
Proof.
  cbn [nodes_below]. f_equal. induction es as [|[name c] es IH]; [reflexivity|].
  cbn [flat_map fst snd]. now rewrite IH.
Qed.

(** What lies at or below a path has a path that starts with it. *)
Lemma nodes_below_prefix (n : node) :
  forall (at_ segs : list string) (c : node),
    In (segs, c) (nodes_below at_ n) -> at_ `prefix_of` segs.
Proof.
  induction n as [c0|es IH] using node_ind'; intros at_ segs c H.
  - destruct H as [[= <- <-]|[]]. reflexivity.
  - rewrite nodes_below_Dir in H. destruct H as [[= <- <-]|H]; [reflexivity|].
    apply List.in_flat_map in H as (e & He & H).
    rewrite Forall_forall in IH. apply list_elem_of_In in He.
    apply (IH e He) in H. transitivity (at_ ++ [fst e]); [|exact H].
    now apply prefix_app_r.
Qed.

Lemma prefix_both (a b : list string) : a `prefix_of` b -> b `prefix_of` a -> b = a.
Proof.
  intros [k ->] [k2 H]. rewrite <- app_assoc in H.
  rewrite <- (app_nil_r a) in H at 1. apply app_inv_head in H.
  symmetry in H. apply app_eq_nil in H as [-> _]. apply app_nil_r.
Qed.

(** A path between a directory and something below one of its entries is
    the directory's or lies at or below the entry. *)
Lemma prefix_below (at_ pre segs : list string) (x : string) :
  at_ `prefix_of` pre -> pre `prefix_of` segs -> (at_ ++ [x]) `prefix_of` segs ->
  pre = at_ \/ (at_ ++ [x]) `prefix_of` pre.
Proof.
  intros [k ->] [k2 ->] [k3 H]. destruct k as [|y k].
  - left. apply app_nil_r.
  - right. rewrite <- !app_assoc in H. apply app_inv_head in H.
    cbn in H. injection H as -> _. exists k. now rewrite <- app_assoc.
Qed.

(** What [exclude_record] lets through, for a tree under a path of plain
    segments: the files and directories at or below the tree on whose way
    down from the path no name ends in [RECORD]. *)
Lemma exclude_record_keeps (n : node) :
  forall (at_ : list string) (m : member),
    at_ <> [] -> Forall seg_ok at_ -> wf_node n = true ->
    In m (tarfile.add_members exclude_record n (path_of at_))
    <-> exists segs c,
          In (segs, c) (nodes_below at_ n)
          /\ m = member_of segs c
          /\ forall pre, at_ `prefix_of` pre -> pre `prefix_of` segs ->
                         Str.endswith (path_of pre) "RECORD" = false.
Proof.
  induction n as [c0|es IH] using node_ind'; intros at_ m Hne Hat Hwf.
  - assert (Hhd : seg_ok (hd "" at_)).
    { destruct at_; [contradiction|]. exact (Forall_inv Hat). }
    cbn [tarfile.add_members]. unfold exclude_record.
    cbn [tarfile.gettarinfo ti_name]. rewrite (lstrip_path_of at_ Hhd).
    destruct (Str.endswith (path_of at_) "RECORD") eqn:E.
    + split; [intros []|]. intros (segs & c & Hin & _ & Hpre).
      destruct Hin as [[= <- <-]|[]].
      rewrite (Hpre at_) in E; [discriminate|reflexivity|reflexivity].
    + split.
      * intros [<-|[]]. exists at_, (File c0). split; [now left|]. split.
        -- unfold member_of. cbn [tarfile.gettarinfo].
           now rewrite (lstrip_path_of at_ Hhd).
        -- intros pre H1 H2. now rewrite (prefix_both _ _ H1 H2).
      * intros (segs & c & [[= <- <-]|[]] & -> & _). left.
        unfold member_of. cbn [tarfile.gettarinfo].
        now rewrite (lstrip_path_of at_ Hhd).
  - assert (Hhd : seg_ok (hd "" at_)).
    { destruct at_; [contradiction|]. exact (Forall_inv Hat). }
    apply wf_node_Dir in Hwf as [Hd Hwf]. rewrite Forall_forall in IH, Hwf.
    assert (Hself : member_of at_ (Dir es)
                    = (tarfile.gettarinfo (Dir es) (path_of at_), "")) by reflexivity.
    assert (Hname : ti_name (tarfile.gettarinfo (Dir es) (path_of at_)) = path_of at_).
    { cbn [tarfile.gettarinfo ti_name]. apply (lstrip_path_of at_ Hhd). }
    destruct (exclude_record (tarfile.gettarinfo (Dir es) (path_of at_)))
      as [ti|] eqn:E.
    + rewrite (In_add_members_Dir exclude_record es _ ti m Hd E).
      unfold exclude_record in E. rewrite Hname in E.
      destruct (Str.endswith (path_of at_) "RECORD") eqn:E'; [discriminate|].
      assert (Hti : ti = tarfile.gettarinfo (Dir es) (path_of at_)) by congruence.
      subst ti. clear E. rewrite <- Hself. split.
      * intros [->|(e & He & Hm)].
        -- exists at_, (Dir es). split; [rewrite nodes_below_Dir; now left|].
           split; [reflexivity|].
           intros pre H1 H2. now rewrite (prefix_both _ _ H1 H2).
        -- pose proof He as He'. apply list_elem_of_In in He'.
           destruct (Hwf e He') as (Hename & Hewf).
           rewrite join_path_of in Hm; auto;
             [|now destruct Hename as (_ & _ & _ & ?)].
           apply (IH e He') in Hm as (segs & c & Hin & -> & Hpre); auto.
           ++ exists segs, c. split.
              { rewrite nodes_below_Dir. right. apply List.in_flat_map. now exists e. }
              split; [reflexivity|]. intros pre H1 H2.
              destruct (prefix_below at_ pre segs (fst e) H1 H2
                          (nodes_below_prefix _ _ _ _ Hin)) as [->|H3];
                [exact E'|now apply Hpre].
           ++ now destruct at_.
           ++ apply Forall_app. split; [exact Hat|].
              constructor; [exact Hename|constructor].
      * intros (segs & c & Hin & -> & Hpre). rewrite nodes_below_Dir in Hin.
        destruct Hin as [[= <- <-]|Hin]; [now left|right].
        apply List.in_flat_map in Hin as (e & He & Hin). exists e.
        split; [exact He|].
        pose proof He as He'. apply list_elem_of_In in He'.
        destruct (Hwf e He') as (Hename & Hewf).
        rewrite join_path_of; auto; [|now destruct Hename as (_ & _ & _ & ?)].
        apply (IH e He'); auto.
        -- now destruct at_.
        -- apply Forall_app. split; [exact Hat|].
           constructor; [exact Hename|constructor].
        -- exists segs, c. split; [exact Hin|]. split; [reflexivity|].
           intros pre H1 H2. apply Hpre; [|exact H2].
           transitivity (at_ ++ [fst e]); [|exact H1]. now apply prefix_app_r.
    + assert (Hnil : tarfile.add_members exclude_record (Dir es) (path_of at_) = []).
      { cbn [tarfile.add_members]. now rewrite E. }
      rewrite Hnil. split; [intros []|].
      intros (segs & c & Hin & _ & Hpre).
      unfold exclude_record in E. rewrite Hname in E.
      destruct (Str.endswith (path_of at_) "RECORD") eqn:E'; [|discriminate].
      rewrite (Hpre at_) in E'; [discriminate|reflexivity|].
      exact (nodes_below_prefix _ _ _ _ Hin).
Qed.

(** X12. The filter [exclude_record] that [add_module] passes for the
    [.dist-info] directory lets no member through whose name ends in
    [RECORD], file or directory, and nothing that lies below such a
    directory; what it keeps is kept as [tf.add] would store it without
    filter, in the same order.  For a tree of plain names, none twice in
    a directory, under a path of plain segments, it keeps exactly the
    files and directories at or below the tree that have no name ending
    in [RECORD] on their way down from that path, themselves included. *)
Theorem exclude_record_drops_every_RECORD (n : node) (arcname : string) :
  Forall (fun m => Str.endswith (ti_name (fst m)) "RECORD" = false)
    (tarfile.add_members exclude_record n arcname)
  /\ sublist (tarfile.add_members exclude_record n arcname)
       (tarfile.add_members no_filter n arcname)
  /\ forall at_ : list string,
       arcname = path_of at_ -> at_ <> [] -> Forall seg_ok at_ ->
       wf_node n = true ->
       forall m : member,
         In m (tarfile.add_members exclude_record n arcname)
         <-> exists segs c,
               In (segs, c) (nodes_below at_ n)
               /\ m = member_of segs c
               /\ forall pre, at_ `prefix_of` pre -> pre `prefix_of` segs ->
                              Str.endswith (path_of pre) "RECORD" = false.
Proof.
  apply and_assoc. split.
  2: { intros at_ -> Hne Hat Hwf m. now apply exclude_record_keeps. }
  revert arcname. induction n as [c|es IH] using node_ind'; intros arcname.
  - cbn [tarfile.add_members]. unfold exclude_record, no_filter.
    destruct (Str.endswith (ti_name (tarfile.gettarinfo (File c) arcname)) "RECORD") eqn:E.
    + split; [constructor|apply sublist_nil_l].
    + split; [repeat constructor; exact E|reflexivity].
  - rewrite (add_members_Dir no_filter es arcname _ eq_refl).
    assert (IH' : forall f,
              match Path.lookup f es with
              | Some c =>
                  Forall (fun m => Str.endswith (ti_name (fst m)) "RECORD" = false)
                    (tarfile.add_members exclude_record c (posixpath.join arcname [f]))
                  /\ sublist
                       (tarfile.add_members exclude_record c (posixpath.join arcname [f]))
                       (tarfile.add_members no_filter c (posixpath.join arcname [f]))
              | None => True
              end).
    { intros f. destruct (Path.lookup f es) as [c|] eqn:El; [|exact I].
      apply lookup_In, list_elem_of_In in El. rewrite Forall_forall in IH.
      apply (IH _ El). }
    destruct (exclude_record (tarfile.gettarinfo (Dir es) arcname)) as [ti|] eqn:E.
    + rewrite (add_members_Dir exclude_record es arcname ti E).
      unfold exclude_record in E.
      destruct (Str.endswith (ti_name (tarfile.gettarinfo (Dir es) arcname)) "RECORD") eqn:E';
        [discriminate|].
      injection E as <-. split.
      * constructor; [exact E'|]. apply Forall_flat_map_intro.
        apply Forall_forall. intros f _. specialize (IH' f).
        destruct (Path.lookup f es); [apply IH'|constructor].
      * apply sublist_skip, sublist_flat_map.
        apply Forall_forall. intros f _. specialize (IH' f).
        destruct (Path.lookup f es); [apply IH'|constructor].
    + assert (Hnil : tarfile.add_members exclude_record (Dir es) arcname = []).
      { cbn [tarfile.add_members]. now rewrite E. }
      rewrite Hnil. split; [constructor|apply sublist_nil_l].
Qed.

(** ** Where [add_module] stops *)

Lemma for_each_fails_at {S A} (body : A -> M S unit) (before after : list A)
    (x : A) (s s1 s2 : S) (e : exn) :
  for_each before body s = (s1, inr tt) ->
  body x s1 = (s2, inl e) ->
  for_each (before ++ x :: after) body s = (s2, inl e).
Proof.
  revert s. induction before as [|y before IH]; intros s; cbn [app for_each].
  - intros [= ->] Hx. unfold bind. now rewrite Hx.
  - unfold bind. destruct (body y s) as [s' [e'|[]]]; [discriminate|].
    apply IH.
Qed.

Lemma for_each_returns {S A} (body : A -> M S unit) (l : list A) (s : S) :
  (forall x s, In x l -> exists s', body x s = (s', inr tt)) ->
  exists s', for_each l body s = (s', inr tt).
Proof.
  intros H.
  destruct (for_each_ok (fun _ => True) body l s I) as (s' & Hs & _).
  - intros x s0 Hx _. destruct (H x s0 Hx) as (s' & Hs). now exists s'.
  - now exists s'.
Qed.

(** X13. A directory other than [data] in the wheel's [.data] directory
    ([scripts], [purelib], [headers], ...) stops the build: the first one
    in directory order, after [data] directories only, makes [build]
    raise [NotImplementedError] naming it, the output left without its
    end-of-archive mark. *)
Theorem data_subdirectory_aborts_build
    (self : PackageBuilder) (x d : entry) (before after : list entry) :
  List.filter is_data (unpacked (wheel_contents self)) = [x] ->
  snd x = Dir (before ++ d :: after) ->
  Forall (fun y => Path.name y = "data" /\ Path.is_dir y = true) before ->
  Path.name d <> "data" ->
  exists st',
    build self = (st', inl (NotImplementedError (Path.name d +:+ " under data dir")))
    /\ end_of_archive (snd st') = false.
Proof.
  intros Hx Hsnd Hbefore Hd.
  destruct (filter_single_first _ _ _ Hx) as (b & a & Htree & Hb & Hxd).
  set (body := fun src : entry =>
    if Str.endswith (Path.name src) ".data" then _add_data_dir src
    else
      let dst := site_packages_path self +:+ Path.name src in
      if Str.endswith (Path.name src) ".dist-info" then
        update (fun '(self, tf) =>
          (record_file_or_dir dst src self,
           tarfile.add tf exclude_record (snd src) dst))
      else
        update (fun '(self, tf) =>
          (record_file_or_dir dst src self,
           tarfile.add tf no_filter (snd src) dst))).
  assert (Hmod : add_module (self, tarfile.open)
                 = for_each (b ++ x :: a) body (self, tarfile.open)).
  { unfold add_module. now rewrite Htree. }
  destruct (for_each_returns body b (self, tarfile.open)) as (s1 & Hs1).
  { intros y s Hy. rewrite Forall_forall in Hb.
    apply list_elem_of_In in Hy. specialize (Hb y Hy). unfold is_data in Hb.
    unfold body. rewrite Hb.
    destruct (Str.endswith (Path.name y) ".dist-info"); eexists; reflexivity. }
  set (inner := fun d0 : entry =>
    if String.eqb (Path.name d0) "data" then
      do! fs <- lift (Path.iterdir d0);
      for_each fs (fun f =>
        update (fun '(self, tf) =>
          (record_file_or_dir (Path.name f) f self,
           tarfile.add tf no_filter (snd f) (Path.name f))))
    else raise (S := state) (NotImplementedError (Path.name d0 +:+ " under data dir"))).
  destruct (for_each_returns inner before s1) as (s2 & Hs2).
  { intros y s Hy. rewrite Forall_forall in Hbefore.
    apply list_elem_of_In in Hy. destruct (Hbefore y Hy) as (Hname & Hdir).
    unfold inner. rewrite Hname. cbn [String.eqb Ascii.eqb Bool.eqb].
    unfold Path.iterdir, Path.is_dir in *.
    destruct (snd y) as [c|fs]; [discriminate|].
    unfold bind at 1, lift at 1.
    apply for_each_returns. intros f s0 _. eexists. reflexivity. }
  assert (Hfail : body x s1
                  = (s2, inl (NotImplementedError (Path.name d +:+ " under data dir")))).
  { unfold body. unfold is_data in Hxd. rewrite Hxd.
    unfold _add_data_dir, Path.iterdir. rewrite Hsnd.
    unfold bind at 1, lift at 1. fold inner.
    apply (for_each_fails_at inner before after d s1 s2 s2 _ Hs2).
    unfold inner. destruct (String.eqb_spec (Path.name d) "data"); [contradiction|].
    reflexivity. }
  pose proof (for_each_fails_at body b a x _ _ _ _ Hs1 Hfail) as Hadd.
  rewrite <- Hmod in Hadd.
  exists s2. split.
  - unfold build, build_steps, bind. rewrite Hadd. now destruct s2.
  - pose proof (framed_add_module (self, tarfile.open)) as [_ Hend].
    rewrite Hadd in Hend. exact Hend.
Qed.

(** ** What every step of [build] keeps *)

Lemma preserves_ret {S A} (I : S -> Prop) (a : A) : preserves I (ret a).
Proof. now intros s. Qed.

Lemma preserves_raise {S A} (I : S -> Prop) (e : exn) : preserves I (@raise S A e).
Proof. now intros s. Qed.

Lemma preserves_lift {S A} (I : S -> Prop) (r : result A) : preserves I (lift r).
Proof. now intros s. Qed.

Lemma preserves_bind {S A B} (I : S -> Prop) (m : M S A) (k : A -> M S B) :
  preserves I m -> (forall a, preserves I (k a)) -> preserves I (bind m k).
Proof.
  intros Hm Hk s Hs. unfold bind. specialize (Hm s Hs).
  destruct (m s) as [s1 [e|a]]; [exact Hm|]. now apply Hk.
Qed.

Lemma preserves_update {S} (I : S -> Prop) (f : S -> S) :
  (forall s, I s -> I (f s)) -> preserves I (update f).
Proof. intros H s Hs. now apply H. Qed.

Lemma preserves_for_each {S A} (I : S -> Prop) (l : list A) (body : A -> M S unit) :
  (forall x, preserves I (body x)) -> preserves I (for_each l body).
Proof.
  intros H. induction l as [|x l IH]; [apply preserves_ret|].
  cbn [for_each]. apply preserves_bind; [apply H|]. intros _. exact IH.
Qed.

(** The steps of [build] change the state in three ways only: a source
    is recorded and added, a launcher is created, a file is written. *)
Lemma build_steps_preserves (I : state -> Prop) :
  (forall arcname arc src filter self tf,
      I (self, tf) ->
      I (record_file_or_dir arcname src self, tarfile.add tf filter (snd src) arc)) ->
  (forall name ep, preserves I (create_script name ep)) ->
  (forall self tf ti c, I (self, tf) -> I (self, tarfile.addfile tf ti c)) ->
  preserves I build_steps.
Proof.
  intros Hadd Hscript Hfile.
  assert (Hcontents : forall name c, preserves I (add_contents name c)).
  { intros name c. apply preserves_update. intros [self tf]. apply Hfile. }
  unfold build_steps.
  apply preserves_bind; [|intros _; apply preserves_bind; [|intros _;
    apply preserves_bind; [|intros _; apply preserves_bind; [|intros _;
      apply preserves_bind; [|intros _]]]]].
  - intros [self tf]. unfold add_module. apply preserves_for_each. intros src.
    destruct (Str.endswith (Path.name src) ".data").
    + unfold _add_data_dir. apply preserves_bind; [apply preserves_lift|].
      intros ds. apply preserves_for_each. intros d.
      destruct (String.eqb (Path.name d) "data"); [|apply preserves_raise].
      apply preserves_bind; [apply preserves_lift|]. intros fs.
      apply preserves_for_each. intros f. apply preserves_update.
      intros [self0 tf0]. apply Hadd.
    + destruct (Str.endswith (Path.name src) ".dist-info");
        apply preserves_update; intros [self0 tf0]; apply Hadd.
  - intros [self tf]. unfold create_scripts.
    apply preserves_bind; [apply preserves_lift|]. intros d.
    destruct (negb (Path.child_is_file d "entry_points.txt")); [apply preserves_ret|].
    apply preserves_bind; [apply preserves_lift|]. intros b.
    apply preserves_bind; [apply preserves_lift|]. intros cp.
    apply preserves_bind; [apply preserves_lift|]. intros section.
    apply preserves_for_each. intros name.
    apply preserves_bind; [apply preserves_lift|]. intros ep. apply Hscript.
  - intros [self tf]. unfold write_pep376_record.
    apply preserves_bind; [apply preserves_lift|]. intros rows.
    apply preserves_bind; [apply preserves_lift|]. intros d.
    apply preserves_update. intros [self0 tf0]. apply Hfile.
  - intros [self tf]. unfold write_index.
    apply preserves_bind; [apply preserves_lift|]. intros ix. apply Hcontents.
  - intros [self tf]. unfold write_has_prefix_list. apply Hcontents.
  - intros [self tf]. unfold write_files_list. apply Hcontents.
Qed.

Lemma build_preserves (I : state -> Prop) (self : PackageBuilder) :
  preserves I build_steps ->
  (forall self tf, I (self, tf) -> I (self, tarfile.close tf)) ->
  I (self, tarfile.open) -> I (fst (build self)).
Proof.
  intros Hsteps Hclose H0. unfold build. specialize (Hsteps _ H0).
  destruct (build_steps (self, tarfile.open)) as [[self' tf'] [e|[]]]; cbn [fst] in *.
  - exact Hsteps.
  - now apply Hclose.
Qed.

Lemma has_prefix_files_record_file_or_dir (arcname : string) (src : entry)
    (self : PackageBuilder) :
  has_prefix_files (record_file_or_dir arcname src self) = has_prefix_files self.
Proof.
  rewrite record_file_or_dir_eq, has_prefix_files_mutate.
  induction (recorded_paths arcname src) as [|x l IH]; cbn [map flagged].
  - apply app_nil_r.
  - exact IH.
Qed.

Lemma py_record_extra_mutate (ms : list mutation) (self : PackageBuilder) :
  py_record_extra (fold_left mutate ms self)
  = py_record_extra self
    ++ flat_map (fun m => match m with
                          | Py_record_file path c =>
                              [(path, record_hash c, String.length c)]
                          | Record_file _ _ => []
                          end) ms.
Proof.
  revert self. induction ms as [|m ms IH]; intros self; cbn [fold_left flat_map].
  - now rewrite app_nil_r.
  - rewrite IH. destruct m as [a h|path c]; cbn [mutate app].
    + f_equal. unfold record_file. now destruct h.
    + unfold _py_record_file. cbn [py_record_extra set_py_record_extra].
      now rewrite <- app_assoc.
Qed.

Lemma py_record_extra_record_file_or_dir (arcname : string) (src : entry)
    (self : PackageBuilder) :
  py_record_extra (record_file_or_dir arcname src self) = py_record_extra self.
Proof.
  rewrite record_file_or_dir_eq, py_record_extra_mutate.
  induction (recorded_paths arcname src) as [|x l IH]; cbn [map flat_map app].
  - apply app_nil_r.
  - exact IH.
Qed.

Lemma utf8_encode_app (a b : string) :
  utf8_encode (a +:+ b) = utf8_encode a +:+ utf8_encode b.
Proof.
  induction a as [|x a IH]; [reflexivity|].
  change (String x a +:+ b) with (String x (a +:+ b)).
  cbn [utf8_encode]. now rewrite IH, append_assoc.
Qed.

Lemma startswith_app (p s : string) : Str.startswith (p +:+ s) p = true.
Proof.
  unfold Str.startswith. induction p as [|x p IH]; [now destruct s|].
  change (String x p +:+ s) with (String x (p +:+ s)).
  cbn [String.prefix]. now destruct (ascii_dec x x).
Qed.

Lemma script_starts_with_shebang (mod_ func : string) :
  Str.startswith (utf8_encode (script_template (PREFIX +:+ "/bin/python") mod_ func))
    shebang = true.
Proof.
  set (rest := "from " +:+ mod_ +:+ " import " +:+ func +:+ LF
               +:+ "if __name__ == '__main__':" +:+ LF
               +:+ "    " +:+ func +:+ "()" +:+ LF).
  assert (H : script_template (PREFIX +:+ "/bin/python") mod_ func = shebang +:+ rest).
  { reflexivity. }
  rewrite H, utf8_encode_app.
  assert (Hs : utf8_encode shebang = shebang) by reflexivity.
  rewrite Hs. apply startswith_app.
Qed.

(** What [create_script] leaves behind, whether it returns or raises:
    the state as it was, or the members and rows of one launcher. *)
Lemma create_script_cases (name ep : string) (self : PackageBuilder) (tf : TarFile) :
  fst (create_script name ep (self, tf)) = (self, tf)
  \/ exists mod_ func,
       let b := utf8_encode (script_template (PREFIX +:+ "/bin/python") mod_ func) in
       let script := scripts_path self +:+ name in
       let wscript := scripts_path self +:+ (name +:+ "-script.py") in
       let exe := find_exe (if String.eqb (bitness self) "64" then "x64" else "x86") in
       let dst := scripts_path self +:+ name +:+ ".exe" in
       fst (create_script name ep (self, tf))
       = (fold_left mutate [Record_file script true; Py_record_file script b] self,
          tarfile.addfile tf (reg_info script b) b)
       \/ fst (create_script name ep (self, tf))
          = (fold_left mutate
               [Record_file wscript true; Py_record_file wscript b;
                Record_file dst false; Py_record_file dst exe] self,
             tarfile.addfile (tarfile.addfile tf (reg_info wscript b) b)
               (reg_info dst exe) exe).
Proof.
  destruct (Nat.eq_dec (Str.count ep ":") 1) as [H1|H1].
  - right. destruct (create_script_ok name ep (self, tf) H1) as (m & f & _ & _ & _ & ->).
    exists m, f. cbn [fst].
    destruct (Platform_.eqb (platform self) win).
    + right. rewrite write_script_windows_eq. reflexivity.
    + left. now rewrite write_script_unix_eq.
  - left. now rewrite (create_script_malformed name ep (self, tf) H1).
Qed.

(** X14. Whatever [build] does, and whether it returns or raises, every
    path it has flagged for the placeholder prefix is also in its file
    list and names a member of the archive that starts with the
    placeholder interpreter line. *)
Theorem flagged_files_hold_the_placeholder
    (wc : WheelContents) (version : string) (p : Platform) (bits : string) :
  flagged_are_scripts (fst (build (PackageBuilder_init wc version p bits))).
Proof.
  apply build_preserves.
  - apply build_steps_preserves.
    + intros arcname arc src filter self tf HI q Hq. cbn [fst snd] in *.
      rewrite has_prefix_files_record_file_or_dir in Hq.
      destruct (HI q Hq) as (Hf & c & Hc & Hs). split.
      * now apply files_grow_record.
      * exists c. split; [|exact Hs]. cbn [tarfile.add members].
        apply in_or_app. now left.
    + intros name ep [self tf] HI.
      destruct (create_script_cases name ep self tf) as [->|(m & f & [->| ->])];
        [exact HI| |].
      * intros q Hq. cbn [fst snd] in *.
        rewrite has_prefix_files_mutate in Hq. rewrite files_mutate.
        cbn [flagged recorded tarfile.addfile members] in *.
        apply in_app_or in Hq. destruct Hq as [Hq|[<-|[]]].
        -- destruct (HI q Hq) as (Hf & c & Hc & Hs). split.
           ++ apply in_or_app. now left.
           ++ exists c. split; [|exact Hs]. apply in_or_app. now left.
        -- split.
           ++ apply in_or_app. right. now left.
           ++ eexists. split; [apply in_or_app; right; now left|].
              apply script_starts_with_shebang.
      * intros q Hq. cbn [fst snd] in *.
        rewrite has_prefix_files_mutate in Hq. rewrite files_mutate.
        cbn [flagged recorded tarfile.addfile members] in *.
        apply in_app_or in Hq. destruct Hq as [Hq|[<-|[]]].
        -- destruct (HI q Hq) as (Hf & c & Hc & Hs). split.
           ++ apply in_or_app. now left.
           ++ exists c. split; [|exact Hs]. apply in_or_app. left.
              apply in_or_app. now left.
        -- split.
           ++ apply in_or_app. right. now left.
           ++ eexists. split; [apply in_or_app; left; apply in_or_app; right; now left|].
              apply script_starts_with_shebang.
    + intros self tf ti c HI q Hq. cbn [fst snd] in *.
      destruct (HI q Hq) as (Hf & c' & Hc & Hs). split; [exact Hf|].
      exists c'. split; [|exact Hs]. cbn [tarfile.addfile members].
      apply in_or_app. now left.
  - intros self tf HI. exact HI.
  - intros q [].
Qed.

(** X15. Every row [build] keeps for the installed RECORD (one per
    launcher file) carries the SHA-256 hash, in unpadded URL-safe base64,
    and the length of the bytes of a member stored under the row's path,
    whether [build] returns or raises. *)
Theorem record_rows_describe_members
    (wc : WheelContents) (version : string) (p : Platform) (bits : string) :
  rows_describe_members (fst (build (PackageBuilder_init wc version p bits))).
Proof.
  apply build_preserves.
  - apply build_steps_preserves.
    + intros arcname arc src filter self tf HI path hash size Hrow. cbn [fst snd] in *.
      rewrite py_record_extra_record_file_or_dir in Hrow.
      destruct (HI _ _ _ Hrow) as (c & Hc & Hh & Hs).
      exists c. split; [|now split]. cbn [tarfile.add members].
      apply in_or_app. now left.
    + intros name ep [self tf] HI.
      destruct (create_script_cases name ep self tf) as [->|(m & f & [->| ->])];
        [exact HI| |].
      * intros path hash size Hrow. cbn [fst snd] in *.
        rewrite py_record_extra_mutate in Hrow.
        cbn [flat_map app tarfile.addfile members] in *.
        apply in_app_or in Hrow. destruct Hrow as [Hrow|[[= <- <- <-]|[]]].
        -- destruct (HI _ _ _ Hrow) as (c & Hc & Hh & Hs).
           exists c. split; [|now split]. apply in_or_app. now left.
        -- eexists. split; [apply in_or_app; right; now left|now split].
      * intros path hash size Hrow. cbn [fst snd] in *.
        rewrite py_record_extra_mutate in Hrow.
        cbn [flat_map app tarfile.addfile members] in *.
        apply in_app_or in Hrow.
        destruct Hrow as [Hrow|[[= <- <- <-]|[[= <- <- <-]|[]]]].
        -- destruct (HI _ _ _ Hrow) as (c & Hc & Hh & Hs).
           exists c. split; [|now split]. apply in_or_app. left.
           apply in_or_app. now left.
        -- eexists. split; [apply in_or_app; left; apply in_or_app; right; now left|].
           now split.
        -- eexists. split; [apply in_or_app; right; now left|now split].
    + intros self tf ti c HI path hash size Hrow. cbn [fst snd] in *.
      destruct (HI _ _ _ Hrow) as (c' & Hc & Hh & Hs).
      exists c'. split; [|now split]. cbn [tarfile.addfile members].
      apply in_or_app. now left.
  - intros self tf HI. exact HI.
  - intros path hash size [].
Qed.

(** ** [build] as a whole *)

(** X16. [build] never changes the builder's configuration (wheel,
    Python version, platform, bitness, build number), and the archive
    gets its end-of-archive mark exactly when [build] returns: no step
    closes it, and an exception leaves it open. *)
Theorem archive_closed_iff_build_returns (self : PackageBuilder) :
  same_config self (fst (fst (build self)))
  /\ (end_of_archive (snd (fst (build self))) = true <-> snd (build self) = inr tt).
Proof.
  assert (Hsteps : preserves (frame (self, tarfile.open)) build_steps).
  { apply build_steps_preserves.
    - intros arcname arc src filter self0 tf0 H.
      eapply frame_trans; [exact H|apply frame_record_add].
    - intros name ep s H.
      eapply frame_trans; [exact H|apply framed_create_script].
    - intros self0 tf0 ti c H. exact H. }
  specialize (Hsteps (self, tarfile.open) (frame_refl _)).
  unfold build.
  destruct (build_steps (self, tarfile.open)) as [[self' tf'] [e|[]]];
    destruct Hsteps as [Hconfig Hend]; cbn [fst snd] in *.
  - split; [exact Hconfig|]. rewrite Hend. split; discriminate.
  - split; [exact Hconfig|]. split; reflexivity.
Qed.

Lemma bind_returns {S A B} (m : M S A) (k : A -> M S B) (s s' : S) (b : B) :
  bind m k s = (s', inr b) ->
  exists s1 a, m s = (s1, inr a) /\ k a s1 = (s', inr b).
Proof.
  unfold bind. destruct (m s) as [s1 [e|a]]; [discriminate|].
  intros H. now exists s1, a.
Qed.

(** X17. An archive that [build] has finished ends with four members in
    this order: the installed RECORD under the [.dist-info] directory in
    site-packages, then [info/index.json], [info/has_prefix] and
    [info/files]; the last two list the builder's final placeholder and
    file lists, one path a line. *)
Theorem finished_archive_ends_with_info
    (self self' : PackageBuilder) (tf' : TarFile) :
  build self = ((self', tf'), inr tt) ->
  exists earlier d rows ix,
    find_dist_info (wheel_contents self') = inr d
    /\ installed_rows self' = inr rows
    /\ index_dict self' = inr ix
    /\ let record := utf8_encode (Str.join "" (map csv_writerow rows)) in
       let index := utf8_encode (Json.dumps ix) in
       let has_prefix :=
         utf8_encode (Str.join LF (map (fun path => PREFIX +:+ " text " +:+ path)
                                     (has_prefix_files self'))) in
       let file_list := utf8_encode (Str.join LF (files self')) in
       members tf'
       = earlier
         ++ [(reg_info (site_packages_path self' +:+ Path.name d +:+ "/RECORD") record,
              record);
             (reg_info "info/index.json" index, index);
             (reg_info "info/has_prefix" has_prefix, has_prefix);
             (reg_info "info/files" file_list, file_list)].
Proof.
  unfold build.
  destruct (build_steps (self, tarfile.open)) as [[self0 tf0] [e|[]]] eqn:E;
    [discriminate|].
  intros [= <- <-]. unfold build_steps in E.
  apply bind_returns in E as ([self1 tf1] & [] & _ & E).
  apply bind_returns in E as ([self2 tf2] & [] & _ & E).
  apply bind_returns in E as ([self3 tf3] & [] & Hrecord & E).
  apply bind_returns in E as ([self4 tf4] & [] & Hindex & E).
  apply bind_returns in E as ([self5 tf5] & [] & Hprefix & Hfiles).
  unfold write_files_list, add_contents, update in Hfiles.
  injection Hfiles as <- <-.
  unfold write_has_prefix_list, add_contents, update, has_prefix_lines in Hprefix.
  injection Hprefix as <- <-.
  unfold write_index in Hindex.
  apply bind_returns in Hindex as ([self6 tf6] & ix & Hix & Hindex).
  unfold lift in Hix. injection Hix as <- <- Hix.
  unfold add_contents, update in Hindex. injection Hindex as <- <-.
  unfold write_pep376_record in Hrecord.
  apply bind_returns in Hrecord as ([self7 tf7] & rows & Hrows & Hrecord).
  unfold lift in Hrows. injection Hrows as <- <- Hrows.
  apply bind_returns in Hrecord as ([self8 tf8] & d & Hd & Hrecord).
  unfold lift in Hd. injection Hd as <- <- Hd.
  unfold update in Hrecord. injection Hrecord as <- <-.
  exists (members tf2), d, rows, ix.
  split; [exact Hd|]. split; [exact Hrows|]. split; [exact Hix|].
  cbn [tarfile.close tarfile.addfile members].
  rewrite <- !app_assoc. reflexivity.
Qed.

(** ** Launchers *)

(** X18. On a platform other than Windows a console script with one colon
    in its entry point becomes one member [bin/<name>]: the path is
    recorded in the file list and in the placeholder list, the text
    starts with the placeholder interpreter line, and one row is kept for
    the installed RECORD with the hash and the length of that text, to be
    written under [../../../bin/<name>]. *)
Theorem unix_launcher_artifacts
    (name ep : string) (self : PackageBuilder) (tf : TarFile) :
  platform self <> win ->
  Str.count ep ":" = 1 ->
  let script := "bin/" +:+ name in
  exists self' tf' text,
    create_script name ep (self, tf) = ((self', tf'), inr tt)
    /\ members tf' = members tf ++ [(reg_info script text, text)]
    /\ Str.startswith text shebang = true
    /\ files self' = files self ++ [script]
    /\ has_prefix_files self' = has_prefix_files self ++ [script]
    /\ py_record_extra self'
       = py_record_extra self ++ [(script, record_hash text, String.length text)]
    /\ extra_row (prefix_from_site_pkgs self')
         (script, record_hash text, String.length text)
       = ["../../../bin/" +:+ name; record_hash text; Str.of_nat (String.length text)].
Proof.
  intros Hp Hone script.
  destruct (create_script_ok name ep (self, tf) Hone) as (m & f & _ & _ & _ & Hc).
  cbn [fst] in Hc.
  assert (Hnw : Platform_.eqb (platform self) win = false).
  { destruct (platform self); [reflexivity|reflexivity|contradiction]. }
  rewrite Hnw, write_script_unix_eq in Hc.
  assert (Hpath : scripts_path self +:+ name = script).
  { unfold scripts_path, script. destruct (platform self); [reflexivity|reflexivity|contradiction]. }
  rewrite Hpath in Hc.
  eexists _, _, _. split; [exact Hc|]. repeat apply conj.
  - reflexivity.
  - apply script_starts_with_shebang.
  - now rewrite files_mutate.
  - now rewrite has_prefix_files_mutate.
  - now rewrite py_record_extra_mutate.
  - unfold extra_row, prefix_from_site_pkgs.
    assert (Hplat : platform (fold_left mutate
                      [Record_file script true;
                       Py_record_file script
                         (utf8_encode (script_template (PREFIX +:+ "/bin/python") m f))]
                      self) = platform self).
    { apply (same_config_mutate _ self). }
    rewrite Hplat.
    destruct (platform self); [reflexivity|reflexivity|contradiction].
Qed.

Lemma for_each_inv {S A} (I : list A -> S -> Prop) (body : A -> M S unit)
    (l done : list A) (s s' : S) :
  I done s ->
  (forall done' x s1 s2, In x l -> I done' s1 -> body x s1 = (s2, inr tt) ->
                         I (done' ++ [x]) s2) ->
  for_each l body s = (s', inr tt) -> I (done ++ l) s'.
Proof.
  revert done s. induction l as [|x l IH]; intros done s HI Hbody; cbn [for_each].
  - intros [= <-]. now rewrite app_nil_r.
  - unfold bind. destruct (body x s) as [s1 [e|[]]] eqn:Hx; [discriminate|].
    intros H. replace (done ++ x :: l) with ((done ++ [x]) ++ l)
      by (now rewrite <- app_assoc).
    apply (IH (done ++ [x]) s1).
    + apply (Hbody done x s s1); [now left|exact HI|exact Hx].
    + intros done' y s2 s3 Hy. apply Hbody. now right.
    + exact H.
Qed.

Lemma launcher_files_same (self self' : PackageBuilder) (name : string) :
  same_config self self' -> launcher_files self' name = launcher_files self name.
Proof. intros (_ & _ & Hp & _). unfold launcher_files. now rewrite Hp. Qed.

Lemma script_name_same (self self' : PackageBuilder) (name : string) :
  same_config self self' -> script_name self' name = script_name self name.
Proof. intros (_ & _ & Hp & _). unfold script_name. now rewrite Hp. Qed.

Lemma same_config_trans (a b c : PackageBuilder) :
  same_config a b -> same_config b c -> same_config a c.
Proof.
  intros (H1 & H2 & H3 & H4 & H5) (K1 & K2 & K3 & K4 & K5).
  repeat split; congruence.
Qed.

(** One launcher: what it adds to the lists and to the archive. *)
Lemma create_script_adds (name ep : string) (self : PackageBuilder) (tf : TarFile) :
  Str.count ep ":" = 1 ->
  exists self' tf',
    create_script name ep (self, tf) = ((self', tf'), inr tt)
    /\ same_config self self'
    /\ files self' = files self ++ launcher_files self name
    /\ has_prefix_files self' = has_prefix_files self ++ [script_name self name]
    /\ tarfile.file_names tf' = tarfile.file_names tf ++ launcher_files self name
    /\ map (fun row => fst (fst row)) (py_record_extra self')
       = map (fun row => fst (fst row)) (py_record_extra self)
         ++ launcher_files self name.
Proof.
  intros Hone.
  destruct (create_script_ok name ep (self, tf) Hone) as (m & f & _ & _ & _ & Hc).
  cbn [fst] in Hc. unfold launcher_files, script_name.
  destruct (platform self) eqn:Hp; cbn [Platform_.eqb] in Hc.
  - rewrite write_script_unix_eq in Hc. unfold scripts_path in Hc. rewrite Hp in Hc.
    eexists _, _. split; [exact Hc|]. split; [apply same_config_mutate|].
    repeat apply conj.
    + now rewrite files_mutate.
    + now rewrite has_prefix_files_mutate.
    + now rewrite file_names_addfile.
    + rewrite py_record_extra_mutate, map_app. reflexivity.
  - rewrite write_script_unix_eq in Hc. unfold scripts_path in Hc. rewrite Hp in Hc.
    eexists _, _. split; [exact Hc|]. split; [apply same_config_mutate|].
    repeat apply conj.
    + now rewrite files_mutate.
    + now rewrite has_prefix_files_mutate.
    + now rewrite file_names_addfile.
    + rewrite py_record_extra_mutate, map_app. reflexivity.
  - rewrite write_script_windows_eq in Hc. unfold scripts_path in Hc. rewrite Hp in Hc.
    eexists _, _. split; [exact Hc|]. split; [apply same_config_mutate|].
    repeat apply conj.
    + now rewrite files_mutate.
    + now rewrite has_prefix_files_mutate.
    + now rewrite !file_names_addfile, <- app_assoc.
    + rewrite py_record_extra_mutate, map_app. reflexivity.
Qed.

(** X19. [create_scripts] makes the launchers in the order the entry
    points are declared: the options of [console_scripts] first, then
    those it has from [DEFAULT], each with its value interpolated.  When
    every value can be read so and has one colon, the file list, the
    archive and the rows kept for RECORD grow by the launcher files of
    the scripts in that order (one file a script, or the script and its
    stub on Windows), and the placeholder list by the scripts alone. *)
Theorem scripts_created_in_declaration_order
    (self : PackageBuilder) (tf : TarFile) (items : list (string * string)) :
  declared_scripts (wheel_contents self) = inr items ->
  Forall (fun item => Str.count (snd item) ":" = 1) items ->
  let names := map fst items in
  exists self' tf',
    create_scripts (self, tf) = ((self', tf'), inr tt)
    /\ files self' = files self ++ flat_map (launcher_files self) names
    /\ has_prefix_files self' = has_prefix_files self ++ map (script_name self) names
    /\ tarfile.file_names tf'
       = tarfile.file_names tf ++ flat_map (launcher_files self) names
    /\ map (fun row => fst (fst row)) (py_record_extra self')
       = map (fun row => fst (fst row)) (py_record_extra self)
         ++ flat_map (launcher_files self) names.
Proof.
  intros Hdecl Hitems names. rewrite (create_scripts_declared _ _ _ Hdecl).
  rewrite Forall_forall in Hitems.
  destruct (for_each_ok_gen
    (fun done s =>
       same_config self (fst s)
       /\ files (fst s) = files self ++ flat_map (launcher_files self) (map fst done)
       /\ has_prefix_files (fst s)
          = has_prefix_files self ++ map (script_name self) (map fst done)
       /\ tarfile.file_names (snd s)
          = tarfile.file_names tf ++ flat_map (launcher_files self) (map fst done)
       /\ map (fun row => fst (fst row)) (py_record_extra (fst s))
          = map (fun row => fst (fst row)) (py_record_extra self)
            ++ flat_map (launcher_files self) (map fst done))
    (fun '(name, ep) => create_script name ep) items [] (self, tf))
    as ([self' tf'] & Hrun & _ & H1 & H2 & H3 & H4).
  - cbn [fst snd map flat_map]. rewrite !app_nil_r.
    split; [apply same_config_refl|]. repeat apply conj; reflexivity.
  - intros done [name ep] [self1 tf1] Hin (Hcfg & K1 & K2 & K3 & K4).
    apply list_elem_of_In in Hin. specialize (Hitems _ Hin). cbn [snd fst] in *.
    destruct (create_script_adds name ep self1 tf1 Hitems)
      as (self2 & tf2 & Hrun & Hcfg2 & L1 & L2 & L3 & L4).
    exists (self2, tf2). split; [exact Hrun|]. cbn [fst snd].
    rewrite map_app, flat_map_app, map_app. cbn [map flat_map fst].
    rewrite app_nil_r, !app_assoc.
    rewrite (launcher_files_same self self1 name Hcfg) in L1, L3, L4.
    rewrite (script_name_same self self1 name Hcfg) in L2.
    split; [now apply (same_config_trans self self1 self2)|].
    repeat apply conj.
    + now rewrite L1, K1.
    + now rewrite L2, K2.
    + now rewrite L3, K3.
    + now rewrite L4, K4.
  - exists self', tf'. cbn [app fst snd] in *. now repeat apply conj.
Qed.

Lemma open_child_is_file (d : entry) (n : string) (b : bytes) :
  Path.open_child d n = inr b -> Path.child_is_file d n = true.
Proof.
  unfold Path.open_child, Path.child_is_file.
  destruct (snd d) as [c|es]; [discriminate|].
  destruct (Path.lookup n es) as [[c|es']|]; [reflexivity|discriminate|discriminate].
Qed.

Lemma lookup_item_none {A} (key : string) (items : list (string * A)) :
  Forall (fun kv => fst kv <> key) items -> Json.lookup_item key items = None.
Proof.
  induction 1 as [|[k x] items Hk _ IH]; cbn [Json.lookup_item]; [reflexivity|].
  cbn [fst] in Hk. destruct (String.eqb_spec k key); [contradiction|exact IH].
Qed.

(** X20. An [entry_points.txt] that parses but has no [console_scripts]
    section (a wheel with [gui_scripts] only, say) makes [create_scripts]
    raise [KeyError]: the program asks for the section without looking
    whether it is there.  Nothing is written. *)
Theorem entry_points_without_console_scripts
    (self : PackageBuilder) (tf : TarFile) (d : entry) (b : bytes)
    (cp : list (string * list (string * string))) :
  find_dist_info (wheel_contents self) = inr d ->
  Path.open_child d "entry_points.txt" = inr b ->
  CaseSensitiveContextParser_read (open_text b) = inr cp ->
  Forall (fun section => fst section <> "console_scripts") cp ->
  create_scripts (self, tf) = ((self, tf), inl (KeyError "console_scripts")).
Proof.
  intros Hd Hb Hcp Hsec. unfold create_scripts.
  unfold bind at 1, lift at 1. rewrite Hd.
  rewrite (open_child_is_file _ _ _ Hb). cbn [negb].
  unfold bind at 1, lift at 1. rewrite Hb.
  unfold bind at 1, lift at 1. rewrite Hcp.
  unfold bind at 1, lift at 1.
  unfold CaseSensitiveContextParser.getitem, CaseSensitiveContextParser.has_section.
  assert (Hex : existsb (fun sec => String.eqb (fst sec) "console_scripts") cp = false).
  { clear Hcp. induction Hsec as [|[k x] l Hk _ IH]; [reflexivity|].
    cbn [existsb fst] in *.
    destruct (String.eqb_spec k "console_scripts"); [contradiction|exact IH]. }
  rewrite Hex. reflexivity.
Qed.

(** X21. A row without columns in the wheel's RECORD (the csv reader
    gives one for a blank line) makes [write_pep376_record] raise
    [IndexError] at [row[0]]; no RECORD member is written. *)
Theorem record_with_empty_row_raises
    (self : PackageBuilder) (tf : TarFile) (d : entry) (b : bytes) :
  find_dist_info (wheel_contents self) = inr d ->
  Path.open_child d "RECORD" = inr b ->
  In [] (csv_reader (open_text b)) ->
  write_pep376_record (self, tf) = ((self, tf), inl IndexError).
Proof.
  intros Hd Hb Hrow. unfold write_pep376_record, installed_rows.
  unfold bind at 1, lift at 1. rewrite Hd. cbn [bind_result]. rewrite Hb.
  cbn [bind_result].
  now rewrite (rewrite_rows_empty_row _ _ Hrow).
Qed.

(** ** [main] *)

Lemma build_returns_closed (self self' : PackageBuilder) (tf' : TarFile) :
  build self = ((self', tf'), inr tt) -> end_of_archive tf' = true.
Proof.
  unfold build.
  destruct (build_steps (self, tarfile.open)) as [[s t] [e|[]]]; [discriminate|].
  now intros [= <- <-].
Qed.

Lemma mkdir_spec (d : string) (c : Cwd) :
  exists c1,
    mkdir d c = (c1, inr tt)
    /\ written c1 = written c
    /\ In d (dirs c1)
    /\ (forall x, In x (dirs c) -> In x (dirs c1)).
Proof.
  unfold mkdir, update. eexists. split; [reflexivity|].
  destruct (existsb (String.eqb d) (dirs c)) eqn:E.
  - repeat split; [|auto]. apply existsb_exists in E as (x & Hx & Hdx).
    apply String.eqb_eq in Hdx. now subst.
  - cbn [written dirs]. repeat split.
    + apply in_or_app. right. now left.
    + intros x Hx. apply in_or_app. now left.
Qed.

(** One package: the line printed, the file written, closed. *)
Lemma convert_returns (wc : WheelContents) (p : Platform)
    (bits d v name version : string) (c c' : Cwd) :
  getitem0 (metadata wc) "Name" = inr name ->
  getitem0 (metadata wc) "Version" = inr version ->
  convert wc p bits d v c = (c', inr tt) ->
  dirs c' = dirs c
  /\ exists tf,
       written c' = written c ++ [(posixpath.join d [package_file name version v], tf)]
       /\ end_of_archive tf = true.
Proof.
  intros Hname Hversion. unfold convert, print, bind, update, lift.
  rewrite Hname, Hversion. unfold build_to.
  destruct (build (PackageBuilder_init wc v p bits)) as [[self' tf] r] eqn:Hb.
  intros [= <- ->]. cbn [dirs written]. split; [reflexivity|].
  exists tf. split.
  - unfold package_file. now rewrite replace_dot_remove_dots.
  - exact (build_returns_closed _ _ _ Hb).
Qed.

Lemma main_loop_asks_for_pythons (wc : WheelContents) (c c' : Cwd) :
  main_loop wc c = (c', inr tt) ->
  exists versions, filter_compatible_pythons wc = inr versions.
Proof.
  intros H. destruct (filter_compatible_pythons wc) as [e|vs] eqn:Hf;
    [|now exists vs].
  exfalso. revert H. unfold main_loop, PLATFORM_PAIRS. cbn [for_each].
  unfold bind at 1. unfold bind at 1.
  destruct (mkdir_spec (Platform_.name linux +:+ "-" +:+ "64") c) as (c1 & -> & _).
  unfold bind at 1, lift at 1. rewrite Hf. discriminate.
Qed.

Lemma main_loop_returns (wc : WheelContents) (name version : string)
    (versions : list string) (c c' : Cwd) :
  getitem0 (metadata wc) "Name" = inr name ->
  getitem0 (metadata wc) "Version" = inr version ->
  filter_compatible_pythons wc = inr versions ->
  main_loop wc c = (c', inr tt) ->
  exists new,
    written c' = written c ++ new
    /\ map fst new
       = flat_map (fun target =>
                     map (fun v => posixpath.join (subdir_of target)
                                     [package_file name version v]) versions)
           PLATFORM_PAIRS
    /\ Forall (fun f => end_of_archive (snd f) = true) new
    /\ (forall target, In target PLATFORM_PAIRS -> In (subdir_of target) (dirs c')).
Proof.
  intros Hname Hversion Hf Hrun.
  pose (path := fun (target : Platform * string) (v : string) =>
                  posixpath.join (subdir_of target) [package_file name version v]).
  pose (I := fun (done : list (Platform * string)) (c1 : Cwd) =>
    (exists new,
        written c1 = written c ++ new
        /\ map fst new = flat_map (fun target => map (path target) versions) done
        /\ Forall (fun f => end_of_archive (snd f) = true) new)
    /\ (forall target, In target done -> In (subdir_of target) (dirs c1))).
  assert (HI : I ([] ++ PLATFORM_PAIRS) c').
  { unfold main_loop in Hrun.
    pose proof (fun H1 H2 => for_each_inv I _ PLATFORM_PAIRS [] c c' H1 H2 Hrun) as Hinv.
    apply Hinv; clear Hinv.
    - split; [|intros target []]. exists []. rewrite app_nil_r.
      repeat split. constructor.
    - intros done [p bits] c1 c2 _ [(new & Hw & Hn & Hc) Hd] Hbody.
      unfold bind at 1 in Hbody.
      destruct (mkdir_spec (Platform_.name p +:+ "-" +:+ bits) c1)
        as (c1' & Hmk & Hw1 & Hin1 & Hmono1).
      rewrite Hmk in Hbody. unfold bind at 1, lift at 1 in Hbody.
      rewrite Hf in Hbody.
      pose (K := fun (vdone : list string) (c3 : Cwd) =>
        dirs c3 = dirs c1'
        /\ exists new',
             written c3 = written c1' ++ new'
             /\ map fst new' = map (path (p, bits)) vdone
             /\ Forall (fun f => end_of_archive (snd f) = true) new').
      assert (HK : K ([] ++ versions) c2).
      { pose proof (fun H1 H2 => for_each_inv K _ versions [] c1' c2 H1 H2 Hbody) as Hinv.
        apply Hinv; clear Hinv.
        - split; [reflexivity|]. exists []. rewrite app_nil_r.
          repeat split. constructor.
        - intros vdone v c3 c4 _ (Hd3 & new' & Hw3 & Hn3 & Hc3) Hconv.
          destruct (convert_returns _ _ _ _ _ _ _ _ _ Hname Hversion Hconv)
            as (Hd4 & tf & Hw4 & Htf).
          split; [congruence|].
          exists (new' ++ [(path (p, bits) v, tf)]). repeat split.
          + rewrite Hw4, Hw3. now rewrite <- app_assoc.
          + rewrite !map_app, Hn3. reflexivity.
          + apply Forall_app. split; [exact Hc3|]. repeat constructor. exact Htf. }
      cbn [app] in HK. destruct HK as (Hd2 & new' & Hw2 & Hn2 & Hc2).
      split.
      + exists (new ++ new'). repeat split.
        * rewrite Hw2, Hw1, Hw. now rewrite <- app_assoc.
        * rewrite map_app, flat_map_app, Hn, Hn2. cbn [flat_map].
          now rewrite app_nil_r.
        * apply Forall_app. now split.
      + intros target Ht. apply in_app_or in Ht. rewrite Hd2.
        destruct Ht as [Ht|[<-|[]]].
        * apply Hmono1. now apply Hd.
        * exact Hin1. }
  cbn [app] in HI. destruct HI as [(new & Hw & Hn & Hc) Hd].
  exists new. repeat split; assumption.
Qed.

(** X22. When [main] returns, the wheel has passed [check], and the
    working directory has one finished archive more for every target of
    [PLATFORM_PAIRS] and every Python version [filter_compatible_pythons]
    selects: written target by target and version by version, each in the
    directory [<platform>-<bitness>], which exists, under the name
    [<Name>-<Version>-py<xy>_0.tar.bz2]. *)
Theorem main_writes_one_package_per_target (tree : list entry) (cwd cwd' : Cwd) :
  main tree cwd = (cwd', inr tt) ->
  exists wc name version versions new,
    WheelContents_init tree = inr wc
    /\ check wc = inr tt
    /\ getitem0 (metadata wc) "Name" = inr name
    /\ getitem0 (metadata wc) "Version" = inr version
    /\ filter_compatible_pythons wc = inr versions
    /\ written cwd' = written cwd ++ new
    /\ map fst new
       = flat_map (fun target =>
                     map (fun v => posixpath.join (subdir_of target)
                                     [package_file name version v]) versions)
           PLATFORM_PAIRS
    /\ Forall (fun f => end_of_archive (snd f) = true) new
    /\ (forall target, In target PLATFORM_PAIRS -> In (subdir_of target) (dirs cwd')).
Proof.
  unfold main. intros H.
  apply bind_returns in H as (c1 & wc & Hinit & H).
  unfold lift in Hinit. injection Hinit as <- Hinit.
  apply bind_returns in H as (c2 & [] & Hcheck & Hloop).
  unfold lift in Hcheck. injection Hcheck as <- Hcheck.
  destruct (check_passes wc Hcheck) as (_ & _ & _ & Hn & Hv).
  destruct (getitem0_present (metadata wc) "Name" Hn) as (name & Hname).
  { apply (init_metadata_values tree wc Hinit). }
  destruct (getitem0_present (metadata wc) "Version" Hv) as (version & Hversion).
  { apply (init_metadata_values tree wc Hinit). }
  destruct (main_loop_asks_for_pythons wc _ _ Hloop) as (versions & Hf).
  destruct (main_loop_returns wc name version versions _ _ Hname Hversion Hf Hloop)
    as (new & Hw & Hnew & Hclosed & Hdirs).
  exists wc, name, version, versions, new. repeat split; assumption.
Qed.

(** X23. [main] touches the working directory only after the wheel has
    been read and checked: when [WheelContents] or [check] raises, [main]
    raises the same exception and no directory is made, no file written,
    no line printed. *)
Theorem main_checks_before_writing (tree : list entry) (cwd : Cwd) (e : exn) :
  (WheelContents_init tree = inl e
   \/ exists wc, WheelContents_init tree = inr wc /\ check wc = inl e) ->
  main tree cwd = (cwd, inl e).
Proof.
  unfold main, bind, lift. intros [H|(wc & H & Hc)]; rewrite H.
  - reflexivity.
  - now rewrite Hc.
Qed.

(** X24. What [check] is for: on a wheel that [WheelContents] has read
    and [check] has accepted, [Name] and [Version] have a first value,
    and [write_index] returns for every target and Python version, the
    one member [info/index.json] added; a wheel that was not checked and
    has no [Name] makes it raise [KeyError] instead. *)
Theorem checked_wheel_has_an_index (tree : list entry) (wc : WheelContents) :
  WheelContents_init tree = inr wc ->
  (check wc = inr tt ->
   exists name version,
     getitem0 (metadata wc) "Name" = inr name
     /\ getitem0 (metadata wc) "Version" = inr version
     /\ forall py_version p bits tf,
          exists contents,
            write_index (PackageBuilder_init wc py_version p bits, tf)
            = ((PackageBuilder_init wc py_version p bits,
                tarfile.addfile tf (reg_info "info/index.json" contents) contents),
               inr tt))
  /\ (metadata wc !! "Name" = None ->
      forall py_version p bits tf,
        write_index (PackageBuilder_init wc py_version p bits, tf)
        = ((PackageBuilder_init wc py_version p bits, tf), inl (KeyError "Name"))).
Proof.
  intros Hinit. split.
  - intros Hcheck.
    destruct (check_passes wc Hcheck) as (_ & _ & _ & Hn & Hv).
    destruct (getitem0_present (metadata wc) "Name" Hn) as (name & Hname).
    { apply (init_metadata_values tree wc Hinit). }
    destruct (getitem0_present (metadata wc) "Version" Hv) as (version & Hversion).
    { apply (init_metadata_values tree wc Hinit). }
    exists name, version. split; [exact Hname|]. split; [exact Hversion|].
    intros py_version p bits tf.
    apply (write_index_ok (PackageBuilder_init wc py_version p bits) tf name version);
      assumption.
  - intros Hnone py_version p bits tf.
    unfold write_index, index_dict, getitem0. cbn [wheel_contents PackageBuilder_init].
    unfold bind, lift. now rewrite Hnone.
Qed.

(** ** A bad entry point *)



End Proofs.

(** * The statements at concrete wheels *)

#[local] Existing Instance ref_host.



Lemma write_index_record_witness :
  exists ix,
    index_dict (PackageBuilder_init (wheel_of foo_tree) "3.5" linux "64") = inr ix
    /\ Json.get ix "build" = Some (JStr "py35_0")
    /\ Json.get ix "arch" = Some (JStr "x86_64").
Proof.
  destruct (write_index_record
              (PackageBuilder_init (wheel_of foo_tree) "3.5" linux "64")
              tarfile.open "Foo" "1.0")
    as (ix & H1 & H2 & H3 & _); [reflexivity|reflexivity|reflexivity|].
  exists ix. repeat apply conj; [exact H1|exact H3|exact H2].
Defined.

Lemma installed_record_rows_witness :
  installed_rows (PackageBuilder_init (wheel_of foo_tree) "3.5" linux "64")
  = inr [["pkgmod/__init__.py"; "sha256=abc"; "5"];
         ["pkgmod/sub/m.py"; ""; "0"];
         ["../../../share/x.txt"; ""; "2"];
         ["Foo-1.0.dist-info/RECORD"; ""; ""]].
Proof.
  edestruct (installed_record_rows
               (PackageBuilder_init (wheel_of foo_tree) "3.5" linux "64")
               tarfile.open) as (H & _).
  - reflexivity.
  - reflexivity.
  - vm_compute. repeat constructor; discriminate.
  - exact H.
Defined.

Lemma filter_compatible_pythons_cases_witness :
  filter_compatible_pythons (wheel_of py3_tree) = inr ["3.5"; "3.4"]
  /\ filter_compatible_pythons (wheel_of foo_tree) = inr ["3.5"; "3.4"; "2.7"].
Proof.
  split.
  - apply (proj1 (filter_compatible_pythons_cases (wheel_of py3_tree)) ">=3.3" []).
    + reflexivity.
    + right. right. reflexivity.
  - eapply (proj2 (filter_compatible_pythons_cases (wheel_of foo_tree))).
    + reflexivity.
    + reflexivity.
    + reflexivity.
    + reflexivity.
    + split; (eapply (bool_decide_eq_false_1 (_ = _)); vm_compute; reflexivity).
Defined.

Lemma unsupported_format_before_any_build_witness :
  main v2_tree empty_cwd
  = (empty_cwd, inl (BadWheelError "wheel2conda only knows about wheel format 1.0")).
Proof.
  pose proof (fun d dd wm H1 H2 H3 =>
                proj1 (unsupported_format_before_any_build v2_tree
                         (wheel_of v2_tree) d dd wm empty_cwd H1 H2 H3) "2.0") as H.
  eapply H; [reflexivity|reflexivity|reflexivity|reflexivity|discriminate].
Defined.

Lemma windows_launcher_artifacts_witness :
  exists self' tf' text script_row,
    create_script "foo" "pkgmod:main"
      (PackageBuilder_init (wheel_of foo_tree) "3.5" win "64", tarfile.open)
    = ((self', tf'), inr tt)
    /\ members tf'
       = [(reg_info "Scripts/foo-script.py" text, text);
          (reg_info "Scripts/foo.exe" "MZ-x64", "MZ-x64")]
    /\ files self' = ["Scripts/foo-script.py"; "Scripts/foo.exe"]
    /\ has_prefix_files self' = ["Scripts/foo-script.py"]
    /\ py_record_extra self'
       = [script_row;
          ("Scripts/foo.exe", "sha256=SP_-h0M5Tn7kOWa4nY6TlsdAfYKuwfaX75QUhnIU064", 6)].
Proof.
  destruct (windows_launcher_artifacts "foo" "pkgmod:main"
              (PackageBuilder_init (wheel_of foo_tree) "3.5" win "64")
              tarfile.open eq_refl eq_refl)
    as (self' & tf' & text & row & H1 & H2 & H3 & H4 & _ & H5 & _).
  exists self', tf', text, row. repeat apply conj.
  - exact H1.
  - exact H2.
  - exact H3.
  - exact H4.
  - rewrite H5. vm_compute. reflexivity.
Defined.

Lemma one_colon_entry_point_makes_script_witness :
  exists mod_ func st',
    ":main" = mod_ +:+ ":" +:+ func
    /\ create_script "foo" ":main"
         (PackageBuilder_init (wheel_of foo_tree) "3.5" linux "64", tarfile.open)
       = (st', inr tt)
    /\ tarfile.extract (snd st') "bin/foo"
       = Some (utf8_encode (script_template (PREFIX +:+ "/bin/python") mod_ func)).
Proof.
  exact (one_colon_entry_point_makes_script "foo" ":main"
           (PackageBuilder_init (wheel_of foo_tree) "3.5" linux "64", tarfile.open)
           eq_refl).
Defined.


(** C2, at the failing input.  The example wheel declares the console
    script [Foo]; the build for linux, 64 bits, Python 3.5 returns, the
    parser has the script under the name [foo], and the launcher is
    written and recorded as [bin/foo], not as [bin/Foo]. *)
Theorem declared_Foo_installed_as_foo :
  snd (build Foo_builder) = inr tt
  /\ declared_scripts (wheel_of Foo_tree) = inr [("foo", "pkgmod:main")]
  /\ In "bin/foo" (files (fst (fst (build Foo_builder))))
  /\ ~ In "bin/Foo" (files (fst (fst (build Foo_builder))))
  /\ tarfile.extract (snd (fst (build Foo_builder))) "bin/Foo" = None.
Proof.
  refine (conj _ (conj _ (conj _ (conj _ _)))).
  - vm_compute; reflexivity.
  - vm_compute; reflexivity.
  - apply In_existsb; vm_compute; reflexivity.
  - intros H. apply In_existsb in H.
    assert (Hout : existsb (String.eqb "bin/Foo")
                     (files (fst (fst (build Foo_builder)))) = false)
      by (vm_compute; reflexivity).
    rewrite Hout in H. discriminate H.
  - vm_compute; reflexivity.
Qed.


Lemma read_metadata_stops_at_blank_line_witness :
  _read_metadata_lines (["Name: Foo" +:+ LF] ++ LF :: ["About: the body"]) ∅
  = _read_metadata_lines ["Name: Foo" +:+ LF] ∅.
Proof.
  apply (read_metadata_stops_at_blank_line ["Name: Foo" +:+ LF] ["About: the body"] LF ∅).
  reflexivity.
Defined.

Lemma read_metadata_collects_values_witness :
  exists md,
    _read_metadata_lines ["Tag: py2-none-any" +:+ LF; "Name : Foo" +:+ LF;
                          "Tag:py3-none-any" +:+ LF] ∅ = inr md
    /\ md !! "Tag" = Some ["py2-none-any"; "py3-none-any"]
    /\ md !! "Name" = Some ["Foo"]
    /\ md !! "Version" = None.
Proof.
  destruct (read_metadata_collects_values
              ["Tag: py2-none-any" +:+ LF; "Name : Foo" +:+ LF; "Tag:py3-none-any" +:+ LF]
              [("Tag", " py2-none-any"); ("Name ", " Foo"); ("Tag", "py3-none-any")])
    as (md & Hmd & Hval).
  { repeat constructor. }
  exists md. refine (conj Hmd (conj _ (conj _ _))).
  - rewrite (Hval "Tag"). reflexivity.
  - rewrite (Hval "Name"). reflexivity.
  - rewrite (Hval "Version"). reflexivity.
Defined.

Lemma read_metadata_line_without_colon_witness :
  _read_metadata_lines ["Name: Foo" +:+ LF; "no colon here" +:+ LF; "Version: 1.0"] ∅
  = inl (ValueError "not enough values to unpack (expected 2, got 1)").
Proof.
  apply (read_metadata_line_without_colon ["Name: Foo" +:+ LF] ["Version: 1.0"]
           ("no colon here" +:+ LF) ∅).
  - repeat constructor. vm_compute. discriminate.
  - vm_compute. discriminate.
  - reflexivity.
Defined.

Lemma check_entries_passes_iff_witness :
  exists d dd,
    List.filter is_dist_info foo_tree = [d]
    /\ List.filter is_data foo_tree = [dd]
    /\ Path.name d = "Foo-1.0.dist-info" /\ Path.name dd = "Foo-1.0.data".
Proof.
  assert (H : check_entries foo_tree None None
              = inr (Some (nth 1 foo_tree ("", File "")),
                     Some (nth 2 foo_tree ("", File ""))))
    by (vm_compute; reflexivity).
  apply (proj1 (check_entries_passes_iff foo_tree _ _)) in H.
  destruct H as (H1 & H2 & _).
  eexists _, _. refine (conj H1 (conj H2 (conj _ _))); reflexivity.
Defined.

Lemma check_fixes_the_layout_witness :
  exists d,
    find_dist_info (wheel_of foo_tree) = inr d
    /\ Path.is_dir d = true
    /\ List.filter is_dist_info (unpacked (wheel_of foo_tree)) = [d]
    /\ length (List.filter is_data (unpacked (wheel_of foo_tree))) <= 1
    /\ metadata (wheel_of foo_tree) !! "Name" <> None
    /\ metadata (wheel_of foo_tree) !! "Version" <> None.
Proof.
  apply (check_fixes_the_layout (wheel_of foo_tree)).
  vm_compute. reflexivity.
Defined.

Lemma check_never_misses_dist_info_witness :
  check (wheel_of foo_tree) <> inl (BadWheelError "Didn't find .dist-info directory")
  /\ WheelContents_init no_dist_info_tree
     = inl (BadWheelError "Didn't find .dist-info directory").
Proof.
  split.
  - apply (proj1 (check_never_misses_dist_info foo_tree) (wheel_of foo_tree)).
    vm_compute. reflexivity.
  - apply (proj2 (check_never_misses_dist_info no_dist_info_tree)).
    reflexivity.
Defined.

Lemma filter_compatible_pythons_range_witness :
  ["3.5"; "3.4"; "2.7"] = ["3.5"; "3.4"]
  \/ ["3.5"; "3.4"; "2.7"] = ["2.7"]
  \/ ["3.5"; "3.4"; "2.7"] = ["3.5"; "3.4"; "2.7"].
Proof.
  apply (filter_compatible_pythons_range (wheel_of foo_tree)).
  vm_compute. reflexivity.
Defined.

Lemma requires_python_below_3_witness :
  filter_compatible_pythons (wheel_of py2_tree) = inr ["2.7"].
Proof.
  apply (requires_python_below_3 (wheel_of py2_tree) "<3" []).
  - vm_compute. reflexivity.
  - now left.
Defined.

Lemma tags_decide_pythons_witness :
  filter_compatible_pythons (wheel_of py3_tags_tree) = inr ["3.5"; "3.4"].
Proof.
  pose proof (fun d wm H1 H2 H3 =>
                proj1 (tags_decide_pythons (wheel_of py3_tags_tree) d wm H1 H2 H3)
                  ["py3-none-any"]) as H.
  eapply H.
  - vm_compute. exact I.
  - vm_compute. reflexivity.
  - vm_compute. reflexivity.
  - vm_compute. reflexivity.
  - discriminate.
  - repeat constructor.
Defined.

Lemma record_prefix_leads_to_root_witness :
  posixpath.normpath
    (posixpath.join (site_packages_path foo_builder)
       [posixpath.join (prefix_from_site_pkgs foo_builder) [path_of ["bin"; "foo"]]])
  = path_of ["bin"; "foo"].
Proof.
  apply (record_prefix_leads_to_root foo_builder ["bin"; "foo"]).
  - reflexivity.
  - discriminate.
  - repeat constructor; discriminate.
Defined.

Lemma add_and_record_agree_witness :
  let src := ("pkgmod", Dir [("sub", Dir [("m.py", File "")]);
                             ("__init__.py", File "x = 1")]) in
  exists added,
    tarfile.file_names (tarfile.add tarfile.open no_filter (snd src) (path_of ["pkgmod"]))
    = tarfile.file_names tarfile.open ++ added
    /\ Permutation added (map path_of (paths_below ["pkgmod"] (snd src))).
Proof.
  intros src.
  assert (Hne : ["pkgmod"] <> []) by discriminate.
  assert (Hok : Forall seg_ok ["pkgmod"]) by (repeat constructor; discriminate).
  assert (Hwf : wf_node (snd src) = true) by reflexivity.
  destruct (add_and_record_agree ["pkgmod"] src foo_builder tarfile.open Hne Hok Hwf)
    as (H & _).
  exact H.
Defined.

Lemma exclude_record_drops_every_RECORD_witness :
  let n := Dir [("RECORD", Dir [("a.txt", File "x")]); ("keep.txt", File "y")] in
  In (member_of ["d"; "keep.txt"] (File "y"))
    (tarfile.add_members exclude_record n "d").
Proof.
  intros n.
  destruct (exclude_record_drops_every_RECORD n "d") as (_ & _ & H).
  apply (H ["d"]).
  - reflexivity.
  - discriminate.
  - repeat constructor; discriminate.
  - reflexivity.
  - exists ["d"; "keep.txt"], (File "y"). split; [|split; [reflexivity|]].
    + vm_compute. right. right. right. left. reflexivity.
    + intros pre [k ->] [k2 H2]. cbn [app] in H2. injection H2 as H2.
      destruct k as [|x k]; [reflexivity|].
      cbn [app] in H2. injection H2 as <- H2.
      destruct k; [reflexivity|discriminate H2].
Defined.

Lemma data_subdirectory_aborts_build_witness :
  exists st',
    build (PackageBuilder_init (wheel_of scripts_data_tree) "3.5" linux "64")
    = (st', inl (NotImplementedError "scripts under data dir"))
    /\ end_of_archive (snd st') = false.
Proof.
  apply (data_subdirectory_aborts_build
           (PackageBuilder_init (wheel_of scripts_data_tree) "3.5" linux "64")
           (nth 1 scripts_data_tree ("", File ""))
           ("scripts", Dir [("foo", File "#!python")])
           [("data", Dir [("share", Dir [("x.txt", File "hi")])])] []).
  - vm_compute. reflexivity.
  - reflexivity.
  - repeat constructor.
  - discriminate.
Defined.

Lemma archive_closed_iff_build_returns_witness :
  end_of_archive (snd (fst (build foo_builder))) = true.
Proof.
  apply (proj2 (archive_closed_iff_build_returns foo_builder)).
  vm_compute. reflexivity.
Defined.

Lemma finished_archive_ends_with_info_witness :
  exists earlier record index has_prefix file_list,
    map (fun m => ti_name (fst m)) (members (snd (fst (build foo_builder))))
    = earlier ++ [record; index; has_prefix; file_list]
    /\ index = "info/index.json" /\ has_prefix = "info/has_prefix"
    /\ file_list = "info/files".
Proof.
  destruct (finished_archive_ends_with_info foo_builder
              (fst (fst (build foo_builder))) (snd (fst (build foo_builder))))
    as (earlier & d & rows & ix & _ & _ & _ & H).
  { vm_compute. reflexivity. }
  cbv zeta in H. rewrite H, map_app. cbn [map fst ti_name reg_info].
  eexists _, _, _, _, _. split; [reflexivity|]. repeat split.
Defined.

Lemma unix_launcher_artifacts_witness :
  exists self' tf' text,
    create_script "foo" "pkgmod:main" (foo_builder, tarfile.open) = ((self', tf'), inr tt)
    /\ members tf' = [(reg_info "bin/foo" text, text)]
    /\ files self' = ["bin/foo"]
    /\ has_prefix_files self' = ["bin/foo"].
Proof.
  destruct (unix_launcher_artifacts "foo" "pkgmod:main" foo_builder tarfile.open)
    as (self' & tf' & text & H1 & H2 & _ & H3 & H4 & _).
  - discriminate.
  - reflexivity.
  - exists self', tf', text. refine (conj H1 (conj H2 (conj H3 H4))).
Defined.

Lemma scripts_created_in_declaration_order_witness :
  exists self' tf',
    create_scripts (PackageBuilder_init (wheel_of two_scripts_tree) "3.5" win "32",
                    tarfile.open) = ((self', tf'), inr tt)
    /\ files self' = ["Scripts/zeta-script.py"; "Scripts/zeta.exe";
                      "Scripts/alpha-script.py"; "Scripts/alpha.exe"]
    /\ has_prefix_files self' = ["Scripts/zeta-script.py"; "Scripts/alpha-script.py"].
Proof.
  destruct (scripts_created_in_declaration_order
              (PackageBuilder_init (wheel_of two_scripts_tree) "3.5" win "32")
              tarfile.open [("zeta", "pkgmod:main"); ("alpha", "pkgmod:run")])
    as (self' & tf' & H1 & H2 & H3 & _).
  - vm_compute. reflexivity.
  - repeat constructor.
  - exists self', tf'. refine (conj H1 (conj H2 H3)).
Defined.

Lemma entry_points_without_console_scripts_witness :
  create_scripts (PackageBuilder_init (wheel_of gui_tree) "3.5" linux "64", tarfile.open)
  = ((PackageBuilder_init (wheel_of gui_tree) "3.5" linux "64", tarfile.open),
     inl (KeyError "console_scripts")).
Proof.
  eapply (entry_points_without_console_scripts
            (PackageBuilder_init (wheel_of gui_tree) "3.5" linux "64") tarfile.open
            _ _ [("gui_scripts", [("foo", "pkgmod:main")])]).
  - reflexivity.
  - reflexivity.
  - vm_compute. reflexivity.
  - repeat constructor. discriminate.
Defined.

Lemma record_with_empty_row_raises_witness :
  write_pep376_record
    (PackageBuilder_init (wheel_of blank_record_tree) "3.5" linux "64", tarfile.open)
  = ((PackageBuilder_init (wheel_of blank_record_tree) "3.5" linux "64", tarfile.open),
     inl IndexError).
Proof.
  eapply (record_with_empty_row_raises
            (PackageBuilder_init (wheel_of blank_record_tree) "3.5" linux "64")
            tarfile.open).
  - reflexivity.
  - reflexivity.
  - vm_compute. right. left. reflexivity.
Defined.

Lemma main_writes_one_package_per_target_witness :
  exists new,
    written (fst (main foo_tree empty_cwd)) = new
    /\ length new = 15
    /\ Forall (fun f => end_of_archive (snd f) = true) new.
Proof.
  destruct (main_writes_one_package_per_target foo_tree empty_cwd
              (fst (main foo_tree empty_cwd)))
    as (wc & name & version & versions & new & _ & _ & _ & _ & Hf & Hw & Hn & Hc & _).
  { vm_compute. reflexivity. }
  exists new. refine (conj Hw (conj _ Hc)).
  assert (Hlen : length (written (fst (main foo_tree empty_cwd))) = 15)
    by (vm_compute; reflexivity).
  rewrite Hw in Hlen. exact Hlen.
Defined.

Lemma main_checks_before_writing_witness :
  main no_dist_info_tree empty_cwd
  = (empty_cwd, inl (BadWheelError "Didn't find .dist-info directory")).
Proof.
  apply (main_checks_before_writing no_dist_info_tree empty_cwd).
  left. reflexivity.
Defined.

Lemma checked_wheel_has_an_index_witness :
  exists name version,
    getitem0 (metadata (wheel_of foo_tree)) "Name" = inr name
    /\ getitem0 (metadata (wheel_of foo_tree)) "Version" = inr version.
Proof.
  assert (Hinit : WheelContents_init foo_tree = inr (wheel_of foo_tree))
    by (vm_compute; reflexivity).
  assert (Hcheck : check (wheel_of foo_tree) = inr tt)
    by (vm_compute; reflexivity).
  destruct (proj1 (checked_wheel_has_an_index foo_tree (wheel_of foo_tree) Hinit) Hcheck)
    as (name & version & Hname & Hversion & _).
  exists name, version. exact (conj Hname Hversion).
Defined.
